(** * Career Navigator: dashboard data access, revalidation endpoint and
      report pipeline contract

    A shallow embedding of the TypeScript dashboard (Next.js pages and API
    routes over a Supabase store) and of the report table they read,
    followed by the properties established about them.

    Conventions of the embedding:
    - a Supabase query is an explicit value ([Supabase.Query]); the client
      is a function from queries to responses, so a fetcher is a pure
      function of the client;
    - timestamps (TIMESTAMPTZ columns, ISO strings on the wire) are
      integers, ordered as the database orders them;
    - DECIMAL(3,2) scores are integers counting hundredths;
    - a JS [Map] is an association list in insertion order. *)

From Stdlib Require Import ZArith Ascii String.
From stdpp Require Import base tactics option list sets strings sorting.

#[local] Set Warnings "-clear-no-such-hyp,-register-all".
Local Open Scope Z_scope.

(** ** JavaScript values used by the pages and routes *)

Module JS.

(** [Map<K, V>]: entries in insertion order, keys pairwise distinct. *)
Definition Map (K V : Type) := list (K * V).

Definition has {K V} `{EqDecision K} (m : Map K V) (k : K) : bool :=
  bool_decide (k ∈ m.*1).

(** [m.set(k, v)]: an existing key keeps its position and gets the new
    value; a new key is appended. *)
Fixpoint set {K V} `{EqDecision K} (m : Map K V) (k : K) (v : V) : Map K V :=
  match m with
  | [] => [(k, v)]
  | (k', v') :: m' =>
      if decide (k' = k) then (k', v) :: m' else (k', v') :: set m' k v
  end.

(** [Array.from(m.values())] *)
Definition values {K V} (m : Map K V) : list V := m.*2.

(** [x || d] on a nullable array: [null] and [undefined] are the only
    falsy arrays. *)
Definition or_empty {A} (x : option (list A)) : list A := default [] x.

(** A nullable string in a boolean position: [null], [undefined] and the
    empty string are falsy. *)
Definition truthy (s : option string) : bool :=
  match s with
  | Some s => negb (String.eqb s "")
  | None => false
  end.

(** [s || d] on a nullable string. *)
Definition or_string (s : option string) (d : string) : string :=
  match s with
  | Some s => if String.eqb s "" then d else s
  | None => d
  end.

(** [n || d] on a number; [None] is NaN. Zero and NaN are falsy. *)
Definition or_number (n : option Z) (d : Z) : Z :=
  match n with
  | Some 0 | None => d
  | Some n => n
  end.

(** [Math.ceil(a / b)] for integers [a] and positive [b]. *)
Definition ceil_div (a b : Z) : Z := - ((- a) / b).

(** [String.prototype.toLowerCase] on the ASCII range: the letters A to Z
    move to a to z, every other byte stays (code points outside ASCII
    are carried as their bytes and left alone). *)
Definition lower_ascii (c : ascii) : ascii :=
  let n := N_of_ascii c in
  if ((65 <=? n) && (n <=? 90))%N then ascii_of_N (n + 32) else c.

Fixpoint toLowerCase (s : string) : string :=
  match s with
  | EmptyString => EmptyString
  | String c s' => String (lower_ascii c) (toLowerCase s')
  end.

(** [s.includes(sub)] *)
Fixpoint includes (s sub : string) : bool :=
  String.prefix sub s ||
  match s with
  | EmptyString => false
  | String _ s' => includes s' sub
  end.

(** Parsed JSON, as [request.json()] and the JSONB columns deliver it.
    Numbers are restricted to integers. An object keeps its members in
    source order; a repeated name is read at its last occurrence. *)
Inductive Json :=
| JNull
| JBool (b : bool)
| JNumber (n : Z)
| JString (s : string)
| JArray (items : list Json)
| JObject (members : list (string * Json)).

(** [v.name] for a non-null [v]; [None] is [undefined]. *)
Definition member (v : Json) (name : string) : option Json :=
  match v with
  | JObject members =>
      snd <$> List.find (λ kv, String.eqb (fst kv) name) (rev members)
  | _ => None
  end.

(** Truthiness of a JSON value. *)
Definition truthy_json (v : Json) : bool :=
  match v with
  | JNull => false
  | JBool b => b
  | JNumber n => negb (n =? 0)
  | JString s => negb (String.eqb s "")
  | JArray _ | JObject _ => true
  end.

End JS.

(** ** Rows of the tables (unnamed/part_007, the generated Supabase types) *)

Module CompanyReport.
Record Row := {
  id : Z;
  company_id : option Z;
  company_name : string;
  job_posting_id : option Z;
  report_version : option string;
  llm_provider : option string;
  llm_model : option string;
  verdict : option string;
  total_score : option Z;          (* DECIMAL(3,2), in hundredths *)
  scores : option JS.Json;
  key_attractions : option (list string);
  key_risks : option (list string);
  verification_items : option (list string);
  full_markdown : option string;
  full_html : option string;
  quality_passed : bool;
  quality_details : option JS.Json;
  data_sources : option JS.Json;
  applicant_profile : option JS.Json;
  priority_weights : option JS.Json;
  cache_key : option string;
  cache_expires_at : option Z;
  generated_at : Z;
}.
End CompanyReport.

Module JobPosting.
Record Row := {
  id : Z;
  source_site : string;
  job_id : string;
  title : string;
  company_name : string;
  company_id : option Z;
  url : option string;
  crawled_at : Z;
  is_active : bool;
}.
End JobPosting.

Module Company.
Record Row := {
  id : Z;
  name : string;
  industry : option string;
  company_size : option string;
  description : option string;
  address : option string;
  jobplanet_rating : option Z;
  employee_count : option Z;
}.
End Company.

(** Evidence tables of migrations 001, 006 and 009; the dashboard does not
    read them, the report pipeline does. *)
Module Evidence.
Record Row := {
  id : Z;
  company_id : option Z;
  company_name : string;
  body : string;
}.
End Evidence.

(** ** The Supabase client *)

Module Supabase.

Record Database := {
  company_reports : list CompanyReport.Row;
  job_postings : list JobPosting.Row;
  companies : list Company.Row;
  company_reviews : list Evidence.Row;
  company_interviews : list Evidence.Row;
  company_benefits : list Evidence.Row;
  company_salaries : list Evidence.Row;
  company_news : list Evidence.Row;
}.

Record PostgrestError := { message : string; code : string }.

Record Response (A : Type) := {
  data : option (list A);
  count : option Z;
  error : option PostgrestError;
}.
Arguments data {A}.
Arguments count {A}.
Arguments error {A}.

(** A table as [.from(name)] designates it. *)
Record Table (A : Type) := {
  name : string;
  rows : Database → list A;
}.
Arguments name {A}.
Arguments rows {A}.

(** A query under construction. The builder calls only record what is
    asked; the server applies filters, then the ordering, then the
    window, whatever the order of the calls. *)
Record Query (A : Type) := {
  table : Table A;
  filters : list (A → bool);
  ordering : option (A → A → bool);
  window : option (Z * Z);           (* offset, limit *)
  exact_count : bool;
}.
Arguments table {A}.
Arguments filters {A}.
Arguments ordering {A}.
Arguments window {A}.
Arguments exact_count {A}.

Section Builder.
Context {A : Type}.

(** [.from(name).select('*')] and [.select('*', { count: 'exact' })] *)
Definition select (t : Table A) (counted : bool) : Query A :=
  {| table := t; filters := []; ordering := None; window := None;
     exact_count := counted |}.

Definition where_ (f : A → bool) (q : Query A) : Query A :=
  {| table := table q; filters := filters q ++ [f];
     ordering := ordering q; window := window q;
     exact_count := exact_count q |}.

(** [.order(col, { ascending })]: [le a b] says that [a] may come
    before [b]. *)
Definition order (le : A → A → bool) (q : Query A) : Query A :=
  {| table := table q; filters := filters q; ordering := Some le;
     window := window q; exact_count := exact_count q |}.

(** [.range(from, to)] *)
Definition range (from to : Z) (q : Query A) : Query A :=
  {| table := table q; filters := filters q; ordering := ordering q;
     window := Some (from, to - from + 1);
     exact_count := exact_count q |}.

(** [.limit(n)] *)
Definition limit (n : Z) (q : Query A) : Query A :=
  {| table := table q; filters := filters q; ordering := ordering q;
     window := Some (0, n); exact_count := exact_count q |}.
End Builder.

(** Column filters. A nullable column equals a value only when set. *)
Definition eq_Z {A} (col : A → Z) (v : Z) : A → bool := λ r, col r =? v.
Definition eq_opt_Z {A} (col : A → option Z) (v : Z) : A → bool :=
  λ r, match col r with Some x => x =? v | None => false end.
Definition eq_bool {A} (col : A → bool) (v : bool) : A → bool :=
  λ r, Bool.eqb (col r) v.
Definition eq_string {A} (col : A → string) (v : string) : A → bool :=
  λ r, String.eqb (col r) v.
Definition gte {A} (col : A → Z) (v : Z) : A → bool := λ r, v <=? col r.

Definition descending {A} (col : A → Z) : A → A → bool :=
  λ a b, col b <=? col a.
Definition ascending_string {A} (col : A → string) : A → A → bool :=
  λ a b, String.leb (col a) (col b).

(** The tables the pages name in [.from(...)]. *)
Definition company_reports_table : Table CompanyReport.Row :=
  {| name := "company_reports"; rows := company_reports |}.
Definition job_postings_table : Table JobPosting.Row :=
  {| name := "job_postings"; rows := job_postings |}.
Definition companies_table : Table Company.Row :=
  {| name := "companies"; rows := companies |}.

(** The relation a boolean comparison decides. *)
Definition holds {A} (le : A → A → bool) : relation A := λ a b, le a b = true.

#[global] Instance holds_dec {A} (le : A → A → bool) : RelDecision (holds le).
Proof. intros a b. unfold holds. apply _. Defined.

(** What awaiting a query yields. *)
Definition Client := ∀ A : Type, Query A → Response A.

(** A server over a database. Rows that tie in the ordering come out in
    the order the merge sort leaves them (PostgreSQL promises none). A
    window with a negative bound is refused, and so is, when the exact
    count is asked for, a window that starts beyond the matching rows. *)
Definition range_not_satisfiable : PostgrestError :=
  {| message := "Requested range not satisfiable"; code := "PGRST103" |}.

Section Server.
Context {A : Type}.

Definition matching (db : Database) (q : Query A) : list A :=
  List.filter (λ r, forallb (λ f, f r) (filters q)) (rows (table q) db).

Definition sorted (q : Query A) (rows : list A) : list A :=
  match ordering q with
  | Some le => merge_sort (holds le) rows
  | None => rows
  end.

Definition run (db : Database) (q : Query A) : Response A :=
  let rows := sorted q (matching db q) in
  let total :=
    if exact_count q then Some (Z.of_nat (length (matching db q)))
    else None in
  match window q with
  | None => {| data := Some rows; count := total; error := None |}
  | Some (offset, n) =>
      if (offset <? 0) || (n <? 0)
         || (exact_count q && (Z.of_nat (length (matching db q)) <? offset)) then
        {| data := None; count := None; error := Some range_not_satisfiable |}
      else
        {| data := Some (take (Z.to_nat n) (drop (Z.to_nat offset) rows));
           count := total; error := None |}
  end.
End Server.

Definition server (db : Database) : Client := λ A q, run db q.

(** A server that refuses every query with the same error (the network
    is down). *)
Definition outage (e : PostgrestError) : Client :=
  λ A q, {| data := None; count := None; error := Some e |}.

(** A server on which some tables are missing: a query on one of them is
    refused, the others are answered. *)
Definition undefined_table : PostgrestError :=
  {| message := "relation does not exist"; code := "42P01" |}.

Definition server_without (missing : list string) (db : Database) : Client :=
  λ A q,
    if bool_decide (name (table q) ∈ missing)
    then {| data := None; count := None; error := Some undefined_table |}
    else run db q.

(** [.single()]: the one row of a one-row answer; any other answer is
    an error. *)
Definition single {A} (r : Response A) : option A * option PostgrestError :=
  match error r with
  | Some e => (None, Some e)
  | None =>
      match data r with
      | Some [x] => (Some x, None)
      | _ => (None, Some {| message := "JSON object requested, multiple (or no) rows returned";
                            code := "PGRST116" |})
      end
  end.

End Supabase.

(** ** Page fragments *)

Module UI.
(** [items.length > 0 ? items.map(card) : emptyCard] *)
Inductive Listing (A : Type) :=
| EmptyState
| Cards (items : list A).
Arguments EmptyState {A}.
Arguments Cards {A} items.

Definition listing {A} (items : list A) : Listing A :=
  match items with
  | [] => EmptyState
  | _ => Cards items
  end.

(** A paged list page: the total shown in the header, the list, and the
    number of pages ([Math.ceil(count / perPage)]). *)
Record ListPage (A : Type) := {
  total : Z;
  body : Listing A;
  totalPages : Z;
}.
Arguments total {A}.
Arguments body {A}.
Arguments totalPages {A}.
End UI.

(** ** Reports list page (web/src/app/reports/page.tsx) *)

Module ReportsPage.

Record Params := { page : option string }.

Record Result := {
  reports : list CompanyReport.Row;
  count : Z;
}.

Inductive Variant := success | warning | danger | default.

Record VerdictLabel := { label : string; variant : Variant }.

Definition equals (verdict : option string) (s : string) : bool :=
  match verdict with
  | Some v => String.eqb v s
  | None => false
  end.

(** The [switch] compares with [===]; [null] reaches [default]. *)
Definition getVerdictLabel (verdict : option string) : VerdictLabel :=
  if equals verdict "STRONG_YES" then {| label := "강력 추천"; variant := success |}
  else if equals verdict "YES" then {| label := "추천"; variant := success |}
  else if equals verdict "CONDITIONAL" then {| label := "조건부 추천"; variant := warning |}
  else if equals verdict "NO" then {| label := "비추천"; variant := danger |}
  else if equals verdict "STRONG_NO" then {| label := "강력 비추천"; variant := danger |}
  else {| label := "분석중"; variant := default |}.

(** The colour of the total score. [total_score] counts hundredths, so
    the source's [>= 70] and [>= 50] read [7000] and [5000]. *)
Definition scoreClass (total_score : Z) : string :=
  if 7000 <=? total_score then "text-green-600"
  else if 5000 <=? total_score then "text-yellow-600"
  else "text-red-600".

(** [report.total_score !== null && ...] *)
Definition scoreBadge (report : CompanyReport.Row) : option string :=
  scoreClass <$> CompanyReport.total_score report.

Section Runtime.
(** [Number(s)] on an optional query parameter, for parameters that
    denote integers; [None] is NaN. *)
Variable Number : option string → option Z.

Definition query (params : Params) : Supabase.Query CompanyReport.Row :=
  let page := JS.or_number (Number (page params)) 1 in
  let limit := 20 in
  let offset := (page - 1) * limit in
  Supabase.range offset (offset + limit - 1)
    (Supabase.order (Supabase.descending CompanyReport.generated_at)
       (Supabase.select Supabase.company_reports_table true)).

Definition getReports (supabase : Supabase.Client) (params : Params) : Result :=
  let r := supabase _ (query params) in
  match Supabase.error r with
  | Some _ => {| reports := []; count := 0 |}
  | None => {| reports := JS.or_empty (Supabase.data r);
               count := JS.or_number (Supabase.count r) 0 |}
  end.

Definition ReportsPage (supabase : Supabase.Client) (params : Params)
    : UI.ListPage CompanyReport.Row :=
  let r := getReports supabase params in
  {| UI.total := count r;
     UI.body := UI.listing (reports r);
     UI.totalPages := JS.ceil_div (count r) 20 |}.
End Runtime.

End ReportsPage.

(** ** Company detail page (unnamed/part_004, first page) *)

Module CompanyDetailPage.

Definition getCompany (supabase : Supabase.Client) (id : Z) : option Company.Row :=
  let '(data, error) :=
    Supabase.single
      (supabase _ (Supabase.where_ (Supabase.eq_Z Company.id id)
                     (Supabase.select Supabase.companies_table false))) in
  match error with
  | Some _ => None
  | None => data
  end.

Definition reports_query (companyId : Z) : Supabase.Query CompanyReport.Row :=
  Supabase.limit 5
    (Supabase.order (Supabase.descending CompanyReport.generated_at)
       (Supabase.where_ (Supabase.eq_opt_Z CompanyReport.company_id companyId)
          (Supabase.select Supabase.company_reports_table false))).

Definition getCompanyReports (supabase : Supabase.Client) (companyId : Z)
    : list CompanyReport.Row :=
  let r := supabase _ (reports_query companyId) in
  match Supabase.error r with
  | Some _ => []
  | None => JS.or_empty (Supabase.data r)
  end.

Definition jobs_query (companyId : Z) : Supabase.Query JobPosting.Row :=
  Supabase.limit 10
    (Supabase.order (Supabase.descending JobPosting.crawled_at)
       (Supabase.where_ (Supabase.eq_bool JobPosting.is_active true)
          (Supabase.where_ (Supabase.eq_opt_Z JobPosting.company_id companyId)
             (Supabase.select Supabase.job_postings_table false)))).

Definition getCompanyJobs (supabase : Supabase.Client) (companyId : Z)
    : list JobPosting.Row :=
  let r := supabase _ (jobs_query companyId) in
  match Supabase.error r with
  | Some _ => []
  | None => JS.or_empty (Supabase.data r)
  end.

Record Style := { bg : string; text : string }.

Definition gray : Style := {| bg := "bg-gray-100"; text := "text-gray-700" |}.
Definition red : Style := {| bg := "bg-red-100"; text := "text-red-700" |}.
Definition yellow : Style := {| bg := "bg-yellow-100"; text := "text-yellow-700" |}.
Definition green : Style := {| bg := "bg-green-100"; text := "text-green-700" |}.

Definition getVerdictStyle (verdict : option string) : Style :=
  if negb (JS.truthy verdict) then gray
  else
    let verdict := default "" verdict in
    if JS.includes (JS.toLowerCase verdict) "no-go"
       || JS.includes (JS.toLowerCase verdict) "nogo" then red
    else if JS.includes (JS.toLowerCase verdict) "conditional" then yellow
    else if String.eqb (JS.toLowerCase verdict) "go" then green
    else gray.

Inductive Page :=
| NotFound
| Detail (company : Company.Row)
         (reports : UI.Listing CompanyReport.Row)
         (jobs : UI.Listing JobPosting.Row).

Section Runtime.
(** [parseInt(s, 10)]; [None] is NaN. *)
Variable parseInt : string → option Z.

Definition CompanyDetailPage (supabase : Supabase.Client) (id : string) : Page :=
  match parseInt id with
  | None => NotFound
  | Some companyId =>
      let company := getCompany supabase companyId in
      let reports := getCompanyReports supabase companyId in
      let jobs := getCompanyJobs supabase companyId in
      match company with
      | None => NotFound
      | Some company => Detail company (UI.listing reports) (UI.listing jobs)
      end
  end.
End Runtime.

End CompanyDetailPage.

(** ** Report detail page (unnamed/part_004, second page) *)

Module ReportDetailPage.

Definition getReport (supabase : Supabase.Client) (reportId : Z)
    : option CompanyReport.Row :=
  let '(data, error) :=
    Supabase.single
      (supabase _ (Supabase.where_ (Supabase.eq_Z CompanyReport.id reportId)
                     (Supabase.select Supabase.company_reports_table false))) in
  match error with
  | Some _ => None
  | None => data
  end.

Record Style := { bg : string; text : string; border : string }.

Definition gray : Style :=
  {| bg := "bg-gray-100"; text := "text-gray-700"; border := "border-gray-300" |}.
Definition red : Style :=
  {| bg := "bg-red-100"; text := "text-red-700"; border := "border-red-300" |}.
Definition yellow : Style :=
  {| bg := "bg-yellow-100"; text := "text-yellow-700"; border := "border-yellow-300" |}.
Definition green : Style :=
  {| bg := "bg-green-100"; text := "text-green-700"; border := "border-green-300" |}.

Definition getVerdictStyle (verdict : option string) : Style :=
  if negb (JS.truthy verdict) then gray
  else
    let verdict := default "" verdict in
    if JS.includes (JS.toLowerCase verdict) "no-go"
       || JS.includes (JS.toLowerCase verdict) "nogo" then red
    else if JS.includes (JS.toLowerCase verdict) "conditional" then yellow
    else if String.eqb (JS.toLowerCase verdict) "go" then green
    else gray.

End ReportDetailPage.

(** ** Companies list page (unnamed/part_005) *)

Module CompaniesPage.

Definition query : Supabase.Query Company.Row :=
  Supabase.order (Supabase.ascending_string Company.name)
    (Supabase.select Supabase.companies_table false).

Definition getCompanies (supabase : Supabase.Client) : list Company.Row :=
  let r := supabase _ query in
  match Supabase.error r with
  | Some _ => []
  | None => JS.or_empty (Supabase.data r)
  end.

Definition CompaniesPage (supabase : Supabase.Client) : UI.Listing Company.Row :=
  UI.listing (getCompanies supabase).

End CompaniesPage.

(** ** Jobs list page (unnamed/part_006, first page) *)

Module JobsPage.

Record Params := {
  keyword : option string;
  site : option string;
  page : option string;
  status : option string;
}.

Record Result := {
  jobs : list JobPosting.Row;
  count : Z;
}.

(** [config.pagination.jobsPerPage] *)
Definition jobsPerPage : Z := 20.

Section Runtime.
(** [Number(s)] on an optional query parameter, for parameters that
    denote integers; [None] is NaN. *)
Variable Number : option string → option Z.
(** PostgreSQL's [ILIKE]: pattern, then text. *)
Variable ilike : string → string → bool.
(** Midnight of the current day, [today.toISOString()]. *)
Variable today : Z.

Definition status_filter (status : string)
    (q : Supabase.Query JobPosting.Row) : Supabase.Query JobPosting.Row :=
  if String.eqb status "active" then
    Supabase.where_ (Supabase.eq_bool JobPosting.is_active true) q
  else if String.eqb status "closed" then
    Supabase.where_ (Supabase.eq_bool JobPosting.is_active false) q
  else if String.eqb status "today" then
    Supabase.where_ (Supabase.gte JobPosting.crawled_at today) q
  else q.

Definition query (params : Params) : Supabase.Query JobPosting.Row :=
  let page := JS.or_number (Number (page params)) 1 in
  let limit := jobsPerPage in
  let offset := (page - 1) * limit in
  let status := JS.or_string (status params) "active" in
  let query := Supabase.select Supabase.job_postings_table true in
  let query := status_filter status query in
  let query :=
    Supabase.range offset (offset + limit - 1)
      (Supabase.order (Supabase.descending JobPosting.crawled_at) query) in
  let query :=
    if JS.truthy (keyword params) then
      Supabase.where_
        (λ r, ilike ("%" ++ default "" (keyword params) ++ "%") (JobPosting.title r))
        query
    else query in
  if JS.truthy (site params) then
    Supabase.where_
      (Supabase.eq_string JobPosting.source_site (default "" (site params))) query
  else query.

Definition getJobs (supabase : Supabase.Client) (params : Params) : Result :=
  let r := supabase _ (query params) in
  match Supabase.error r with
  | Some _ => {| jobs := []; count := 0 |}
  | None => {| jobs := JS.or_empty (Supabase.data r);
               count := JS.or_number (Supabase.count r) 0 |}
  end.

Definition JobsPage (supabase : Supabase.Client) (params : Params)
    : UI.ListPage JobPosting.Row :=
  let r := getJobs supabase params in
  {| UI.total := count r;
     UI.body := UI.listing (jobs r);
     UI.totalPages := JS.ceil_div (count r) jobsPerPage |}.
End Runtime.

End JobsPage.

(** ** Revalidation endpoint (unnamed/part_002 and
       web/src/app/api/revalidate/route.ts) *)

(** Handlers run in an effect monad: the state is the log of
    [revalidatePath] calls, in order; [None] as a result is a thrown
    exception. *)
Module Eff.
Definition t (A : Type) : Type := list JS.Json → list JS.Json * option A.

Definition ret {A} (a : A) : t A := λ log, (log, Some a).

Definition throw {A} : t A := λ log, (log, None).

Definition bind {A B} (m : t A) (k : A → t B) : t B :=
  λ log,
    match m log with
    | (log', Some a) => k a log'
    | (log', None) => (log', None)
    end.

(** [try { m } catch { h }] *)
Definition try_catch {A} (m : t A) (h : t A) : t A :=
  λ log,
    match m log with
    | (log', Some a) => (log', Some a)
    | (log', None) => h log'
    end.

Definition when (b : bool) (m : t unit) : t unit :=
  if b then m else ret tt.
End Eff.

#[global] Instance eff_ret : MRet Eff.t := @Eff.ret.
#[global] Instance eff_bind : MBind Eff.t := λ A B k m, Eff.bind m k.

Module Config.
(** [process.env.REVALIDATE_SECRET || ''] *)
Definition revalidateSecret (env : option string) : string := JS.or_string env "".
End Config.

Module Http.
(** A request: the value of [request.headers.get('x-revalidate-secret')],
    and what [request.json()] resolves to ([None] when it rejects). *)
Record Request := {
  secret_header : option string;
  json : option JS.Json;
}.

Record Response := {
  status : Z;
  payload : JS.Json;
}.

(** [NextResponse.json(payload)] and [NextResponse.json(payload, { status })] *)
Definition ok (payload : JS.Json) : Response := {| status := 200; payload := payload |}.

Definition request_json (request : Request) : Eff.t JS.Json :=
  match json request with
  | Some v => Eff.ret v
  | None => Eff.throw
  end.

(** [body.path]: reading a property of [null] throws. *)
Definition get_path (body : JS.Json) : Eff.t (option JS.Json) :=
  match body with
  | JS.JNull => Eff.throw
  | _ => Eff.ret (JS.member body "path")
  end.

(** [v || '/'] *)
Definition or_root (v : option JS.Json) : JS.Json :=
  match v with
  | Some v => if JS.truthy_json v then v else JS.JString "/"
  | None => JS.JString "/"
  end.

(** [path === '/'] *)
Definition is_root (path : JS.Json) : bool :=
  match path with
  | JS.JString s => String.eqb s "/"
  | _ => false
  end.

Definition invalid_secret : Response :=
  {| status := 401; payload := JS.JObject [("error", JS.JString "Invalid secret")] |}.

Definition revalidation_failed : Response :=
  {| status := 500; payload := JS.JObject [("error", JS.JString "Revalidation failed")] |}.
End Http.

(** The handler on the Node runtime. *)
Module Revalidate.
(** The paths revalidated along with the root. *)
Definition related_paths : list JS.Json :=
  [JS.JString "/jobs"; JS.JString "/companies"; JS.JString "/trends";
   JS.JString "/roadmap"].

Section Runtime.
(** [config.api.revalidateSecret] *)
Variable secret : string.
(** Whether Next's [revalidatePath] throws on an argument. *)
Variable throws : JS.Json → bool.
(** [new Date().toISOString()] *)
Variable now : string.

Definition revalidatePath (path : JS.Json) : Eff.t unit :=
  λ log, (log ++ [path], if throws path then None else Some tt).

Definition POST (request : Http.Request) : Eff.t Http.Response :=
  if negb (bool_decide (Http.secret_header request = Some secret)) then
    Eff.ret Http.invalid_secret
  else
    Eff.try_catch
      (body ← Http.request_json request;
       member ← Http.get_path body;
       let path := Http.or_root member in
       revalidatePath path;;
       Eff.when (Http.is_root path)
         (revalidatePath (JS.JString "/jobs");;
          revalidatePath (JS.JString "/companies");;
          revalidatePath (JS.JString "/trends");;
          revalidatePath (JS.JString "/roadmap"));;
       Eff.ret (Http.ok (JS.JObject [("revalidated", JS.JBool true);
                                     ("path", path);
                                     ("timestamp", JS.JString now)])))
      (Eff.ret Http.revalidation_failed).
End Runtime.
End Revalidate.

(** The handler on the edge runtime: it answers, and revalidates nothing. *)
Module RevalidateEdge.
Section Runtime.
Variable secret : string.
Variable now : string.

Definition POST (request : Http.Request) : Eff.t Http.Response :=
  if negb (bool_decide (Http.secret_header request = Some secret)) then
    Eff.ret Http.invalid_secret
  else
    Eff.try_catch
      (body ← Http.request_json request;
       member ← Http.get_path body;
       let path := Http.or_root member in
       Eff.ret (Http.ok (JS.JObject
         [("revalidated", JS.JBool true);
          ("path", path);
          ("timestamp", JS.JString now);
          ("note", JS.JString "Edge runtime - cache managed by Cloudflare")])))
      (Eff.ret Http.revalidation_failed).
End Runtime.
End RevalidateEdge.

(** ** Trends page (unnamed/part_001) *)

Module Trends.

Record MarketAnalysis := {
  id : Z;
  analysis_date : Z;
  keyword : string;
  total_postings : option Z;
  market_summary : option string;
}.

Record SkillTrend := {
  skill_id : Z;
  skill_name : string;
  mention_count : Z;
}.

(** The body of the [forEach] callback. *)
Definition visit (latestByKeyword : JS.Map string MarketAnalysis)
    (analysis : MarketAnalysis) : JS.Map string MarketAnalysis :=
  if negb (JS.has latestByKeyword (keyword analysis))
  then JS.set latestByKeyword (keyword analysis) analysis
  else latestByKeyword.

Definition latestByKeyword (analyses : list MarketAnalysis)
    : JS.Map string MarketAnalysis :=
  foldl visit [] analyses.

(** [getTrendsData], given the [data] fields of its two query
    responses (either is [None] when the query failed). *)
Definition getTrendsData (analyses : option (list MarketAnalysis))
    (skillTrends : option (list SkillTrend))
    : list MarketAnalysis * list SkillTrend :=
  (JS.values (latestByKeyword (JS.or_empty analyses)),
   JS.or_empty skillTrends).

(** Reference description of the result: walk the list once, keeping an
    analysis when its keyword has not been seen. *)
Fixpoint firsts (seen : list string) (l : list MarketAnalysis)
    : list MarketAnalysis :=
  match l with
  | [] => []
  | a :: l' =>
      if bool_decide (keyword a ∈ seen) then firsts seen l'
      else a :: firsts (keyword a :: seen) l'
  end.

(** The map entries that hold the analyses of [l] under their keywords. *)
Definition tagged (l : list MarketAnalysis) : JS.Map string MarketAnalysis :=
  (λ a, (keyword a, a)) <$> l.

(** [analysis_date] descending, as [.order('analysis_date',
    { ascending: false })] delivers the rows. *)
Definition date_desc (l : list MarketAnalysis) : Prop :=
  StronglySorted (λ a b, analysis_date b ≤ analysis_date a) l.

(** [a] is the first analysis of its keyword in [l]. *)
Definition first_occurrence (a : MarketAnalysis) (l : list MarketAnalysis)
    : Prop :=
  ∃ l1 l2, l = l1 ++ a :: l2 ∧ keyword a ∉ keyword <$> l1.

End Trends.

(** ** The report pipeline *)

(** Modelled from the spec: the report pipeline itself (the analyze-report
    command with its evidence aggregator, context builder, cache manager,
    report generator, quality gate and report store) is not among the
    sources; only the table it writes ([company_reports], with its serial
    id and its unique [cache_key]) and its command line are. The
    definitions below follow sections 3 to 7 of the specification. *)
Module Pipeline.

Inductive Error :=
| InvalidWeights
| InsufficientEvidence
| ContextTooLarge
| GenerationFailed
| ProviderFatalError
| ResponseParseError.

Inductive Result (A : Type) :=
| Ok (a : A)
| Err (e : Error).
Arguments Ok {A} a.
Arguments Err {A} e.

(** *** Priority weights *)

(** A weight per named axis, as the comma list [axis:value,...] gives
    them. *)
Definition PriorityWeights := list (string * Z).

Definition weights_total (w : PriorityWeights) : Z :=
  foldr (λ aw acc, aw.2 + acc) 0 w.

(** Modelled from the spec: the validation of the weights (the [--weights]
    option of the command is parsed outside the sources). Weights are
    non-negative and sum to the fixed total 100. *)
Definition valid_weights (w : PriorityWeights) : bool :=
  forallb (λ aw, 0 <=? aw.2) w && (weights_total w =? 100).

Definition accept_weights (w : PriorityWeights) : Result PriorityWeights :=
  if valid_weights w then Ok w else Err InvalidWeights.

(** *** Requests and configuration *)

Inductive CompanyRef :=
| ById (id : Z)
| ByName (name : string).

Record ReportRequest := {
  company : CompanyRef;
  job_posting_id : option Z;
  applicant_profile : option JS.Json;
  weights : option PriorityWeights;
  bypass_cache : bool;
  cache_days : Z;
}.

Record Config := {
  default_weights : PriorityWeights;
  report_version : string;
  llm_provider : string;
  llm_model : string;
  parse_retries : nat;
  transient_retries : nat;
}.

(** Modelled from the spec: the choice between custom and default weights.
    Default weights are supplied when the caller omits them; the weights
    of either origin pass the validation before they are accepted, so
    that every accepted value keeps the invariant. *)
Definition resolve_weights (cfg : Config) (custom : option PriorityWeights)
    : Result PriorityWeights :=
  accept_weights (default (default_weights cfg) custom).

(** *** Evidence aggregator *)

Record EvidenceBundle := {
  profile : option Company.Row;
  postings : list JobPosting.Row;
  reviews : list Evidence.Row;
  interviews : list Evidence.Row;
  benefits : list Evidence.Row;
  salaries : list Evidence.Row;
  news : list Evidence.Row;
}.

Definition is_company (c : CompanyRef) (r : Company.Row) : bool :=
  match c with
  | ById id => Company.id r =? id
  | ByName name => String.eqb (Company.name r) name
  end.

Definition posting_of (c : CompanyRef) (r : JobPosting.Row) : bool :=
  match c with
  | ById id => Supabase.eq_opt_Z JobPosting.company_id id r
  | ByName name => String.eqb (JobPosting.company_name r) name
  end.

Definition evidence_of (c : CompanyRef) (r : Evidence.Row) : bool :=
  match c with
  | ById id => Supabase.eq_opt_Z Evidence.company_id id r
  | ByName name => String.eqb (Evidence.company_name r) name
  end.

(** Modelled from the spec: the evidence aggregator. One collection per
    source; a source without records gives the empty collection. *)
Definition collect (db : Supabase.Database) (c : CompanyRef) : EvidenceBundle :=
  {| profile := List.find (is_company c) (Supabase.companies db);
     postings := List.filter (posting_of c) (Supabase.job_postings db);
     reviews := List.filter (evidence_of c) (Supabase.company_reviews db);
     interviews := List.filter (evidence_of c) (Supabase.company_interviews db);
     benefits := List.filter (evidence_of c) (Supabase.company_benefits db);
     salaries := List.filter (evidence_of c) (Supabase.company_salaries db);
     news := List.filter (evidence_of c) (Supabase.company_news db) |}.

(** The number of records over all sources. *)
Definition record_count (b : EvidenceBundle) : nat :=
  (match profile b with Some _ => 1 | None => 0 end) + length (postings b) + length (reviews b)
  + length (interviews b) + length (benefits b) + length (salaries b)
  + length (news b).


(** Modelled from the spec: the aggregator's failure. It fails only if
    the company resolves to zero records across all sources. *)
Definition aggregate (db : Supabase.Database) (c : CompanyRef)
    : Result EvidenceBundle :=
  let b := collect db c in
  if Nat.eqb (record_count b) 0 then Err InsufficientEvidence else Ok b.

(** *** Report store *)

Record State := {
  reports : list CompanyReport.Row;
  next_id : Z;                        (* the SERIAL sequence *)
  provider_calls : nat;
}.

Definition holds_key (key : string) (r : CompanyReport.Row) : bool :=
  bool_decide (CompanyReport.cache_key r = Some key).

(** The UNIQUE constraint on [cache_key]: no key is held twice (rows
    without a key are not constrained). *)
Definition unique_keys (rows : list CompanyReport.Row) : Prop :=
  NoDup (omap CompanyReport.cache_key rows).

(** Ids come from the sequence. *)
Definition ids_issued (st : State) : Prop :=
  Forall (λ r, CompanyReport.id r < next_id st) (reports st).

Definition byId (id : Z) (rows : list CompanyReport.Row) : option CompanyReport.Row :=
  List.find (λ r, CompanyReport.id r =? id) rows.

Definition byCacheKey (key : string) (rows : list CompanyReport.Row)
    : option CompanyReport.Row :=
  List.find (holds_key key) rows.

Definition report_of (c : CompanyRef) (r : CompanyReport.Row) : bool :=
  match c with
  | ById id => Supabase.eq_opt_Z CompanyReport.company_id id r
  | ByName name => String.eqb (CompanyReport.company_name r) name
  end.

(** [latest(company, passed_only)] *)
Definition latest (c : CompanyRef) (passed_only : bool)
    (rows : list CompanyReport.Row) : option CompanyReport.Row :=
  head (merge_sort (Supabase.holds (Supabase.descending CompanyReport.generated_at))
          (List.filter
             (λ r, report_of c r && (negb passed_only || CompanyReport.quality_passed r))
             rows)).

(** Taking the cache pointer from a report: only its cache metadata
    changes. *)
Definition without_key (r : CompanyReport.Row) : CompanyReport.Row :=
  {| CompanyReport.id := CompanyReport.id r;
     CompanyReport.company_id := CompanyReport.company_id r;
     CompanyReport.company_name := CompanyReport.company_name r;
     CompanyReport.job_posting_id := CompanyReport.job_posting_id r;
     CompanyReport.report_version := CompanyReport.report_version r;
     CompanyReport.llm_provider := CompanyReport.llm_provider r;
     CompanyReport.llm_model := CompanyReport.llm_model r;
     CompanyReport.verdict := CompanyReport.verdict r;
     CompanyReport.total_score := CompanyReport.total_score r;
     CompanyReport.scores := CompanyReport.scores r;
     CompanyReport.key_attractions := CompanyReport.key_attractions r;
     CompanyReport.key_risks := CompanyReport.key_risks r;
     CompanyReport.verification_items := CompanyReport.verification_items r;
     CompanyReport.full_markdown := CompanyReport.full_markdown r;
     CompanyReport.full_html := CompanyReport.full_html r;
     CompanyReport.quality_passed := CompanyReport.quality_passed r;
     CompanyReport.quality_details := CompanyReport.quality_details r;
     CompanyReport.data_sources := CompanyReport.data_sources r;
     CompanyReport.applicant_profile := CompanyReport.applicant_profile r;
     CompanyReport.priority_weights := CompanyReport.priority_weights r;
     CompanyReport.cache_key := None;
     CompanyReport.cache_expires_at := None;
     CompanyReport.generated_at := CompanyReport.generated_at r |}.

Definition release (key : string) (rows : list CompanyReport.Row)
    : list CompanyReport.Row :=
  (λ r, if holds_key key r then without_key r else r) <$> rows.

(** Modelled from the spec: the store operation of the report store.
    Last write wins: the report is recorded under its key, and whichever
    report held the key before loses the pointer. *)
Definition store (r : CompanyReport.Row) (rows : list CompanyReport.Row)
    : list CompanyReport.Row :=
  match CompanyReport.cache_key r with
  | Some key => release key rows ++ [r]
  | None => rows ++ [r]
  end.

(** *** Cache manager *)

Definition fresh (now : Z) (r : CompanyReport.Row) : bool :=
  match CompanyReport.cache_expires_at r with
  | Some expires => now <? expires
  | None => false
  end.

(** Modelled from the spec: the cache manager's [lookup(key)]. It returns
    a prior report if one exists under the key, is quality-gate-passed,
    and [now < cache_expires_at]. *)
Definition lookup (now : Z) (key : string) (rows : list CompanyReport.Row)
    : option CompanyReport.Row :=
  match byCacheKey key rows with
  | Some r => if CompanyReport.quality_passed r && fresh now r then Some r else None
  | None => None
  end.

Definition seconds_per_day : Z := 86400.

(** *** Context builder, provider, parser and quality gate *)

Record Context := {
  text : string;
  fingerprint : string;
}.

(** The structurally parsed report, not yet validated. *)
Record Draft := {
  verdict : string;
  total_score : Z;
  scores : JS.Json;
  key_attractions : list string;
  key_risks : list string;
  verification_items : list string;
  full_markdown : string;
}.

Inductive ProviderReply :=
| Text (raw : string)
| Transient                           (* timeout, rate limit, 5xx *)
| Fatal.                              (* auth failure, invalid request *)

(** Modelled from the spec: the components whose inner working the
    specification leaves open, taken as parameters.
    The provider is asked with the number of calls made so far, so that
    two calls with the same prompt may be answered differently. *)
Record Components := {
  build_context :
    EvidenceBundle → PriorityWeights → option JS.Json → Result Context;
  cache_key_of :
    CompanyRef → option Z → PriorityWeights → string → string → string;
  build_prompt : Context → PriorityWeights → string;
  provider : nat → string → ProviderReply;
  parse : string → option Draft;
  quality_gate : Draft → EvidenceBundle → list string;
}.

Section Generation.
Variable cfg : Config.
Variable parts : Components.

(** *** Report generator *)

(** Modelled from the spec: the report generator. One provider call per
    round; a transient error or an unparsable answer starts another round
    while its budget lasts. [fuel] bounds the
    rounds; [generate] gives enough of it. *)
Fixpoint attempt (fuel parse_left transient_left calls : nat) (prompt : string)
    : Result Draft * nat :=
  match fuel with
  | O => (Err GenerationFailed, calls)
  | S fuel' =>
      match provider parts calls prompt with
      | Fatal => (Err ProviderFatalError, S calls)
      | Transient =>
          match transient_left with
          | O => (Err GenerationFailed, S calls)
          | S budget => attempt fuel' parse_left budget (S calls) prompt
          end
      | Text raw =>
          match parse parts raw with
          | Some draft => (Ok draft, S calls)
          | None =>
              match parse_left with
              | O => (Err ResponseParseError, S calls)
              | S budget => attempt fuel' budget transient_left (S calls) prompt
              end
          end
      end
  end.

Definition generate (calls : nat) (prompt : string) : Result Draft * nat :=
  attempt (S (parse_retries cfg + transient_retries cfg))
    (parse_retries cfg) (transient_retries cfg) calls prompt.

(** *** Orchestration *)

Inductive Outcome :=
| Usable (report : CompanyReport.Row)
| Unusable (report : CompanyReport.Row) (violations : list string)
           (fallback : option CompanyReport.Row)
| Failure (e : Error) (fallback : option CompanyReport.Row).

Definition manifest (b : EvidenceBundle) : JS.Json :=
  JS.JObject
    [("postings", JS.JNumber (Z.of_nat (length (postings b))));
     ("reviews", JS.JNumber (Z.of_nat (length (reviews b))));
     ("news", JS.JNumber (Z.of_nat (length (news b))));
     ("salaries", JS.JNumber (Z.of_nat (length (salaries b))));
     ("interviews", JS.JNumber (Z.of_nat (length (interviews b))));
     ("benefits", JS.JNumber (Z.of_nat (length (benefits b))))].

Definition company_name_of (c : CompanyRef) (b : EvidenceBundle) : string :=
  match c, profile b with
  | ByName name, _ => name
  | ById _, Some p => Company.name p
  | ById _, None => ""
  end.

Definition weights_json (w : PriorityWeights) : JS.Json :=
  JS.JObject ((λ aw, (aw.1, JS.JNumber aw.2)) <$> w).

(** The row a draft is persisted as. *)
Definition to_row (id now : Z) (request : ReportRequest) (b : EvidenceBundle)
    (w : PriorityWeights) (key : string) (draft : Draft)
    (violations : list string) : CompanyReport.Row :=
  {| CompanyReport.id := id;
     CompanyReport.company_id := Company.id <$> profile b;
     CompanyReport.company_name := company_name_of (company request) b;
     CompanyReport.job_posting_id := job_posting_id request;
     CompanyReport.report_version := Some (report_version cfg);
     CompanyReport.llm_provider := Some (llm_provider cfg);
     CompanyReport.llm_model := Some (llm_model cfg);
     CompanyReport.verdict := Some (verdict draft);
     CompanyReport.total_score := Some (total_score draft);
     CompanyReport.scores := Some (scores draft);
     CompanyReport.key_attractions := Some (key_attractions draft);
     CompanyReport.key_risks := Some (key_risks draft);
     CompanyReport.verification_items := Some (verification_items draft);
     CompanyReport.full_markdown := Some (full_markdown draft);
     CompanyReport.full_html := None;
     CompanyReport.quality_passed := bool_decide (violations = []);
     CompanyReport.quality_details := Some (JS.JArray (JS.JString <$> violations));
     CompanyReport.data_sources := Some (manifest b);
     CompanyReport.applicant_profile := applicant_profile request;
     CompanyReport.priority_weights := Some (weights_json w);
     CompanyReport.cache_key := Some key;
     CompanyReport.cache_expires_at :=
       Some (now + cache_days request * seconds_per_day);
     CompanyReport.generated_at := now |}.

(** Modelled from the spec: generation, quality gate and store, once the
    cache has been passed over. *)
Definition regenerate (now : Z) (request : ReportRequest) (b : EvidenceBundle)
    (w : PriorityWeights) (ctx : Context) (key : string) (st : State)
    : Outcome * State :=
  let fallback := latest (company request) true (reports st) in
  match generate (provider_calls st) (build_prompt parts ctx w) with
  | (Err e, calls) =>
      (Failure e fallback,
       {| reports := reports st; next_id := next_id st; provider_calls := calls |})
  | (Ok draft, calls) =>
      let violations := quality_gate parts draft b in
      let row := to_row (next_id st) now request b w key draft violations in
      let st' := {| reports := store row (reports st);
                    next_id := next_id st + 1;
                    provider_calls := calls |} in
      (if CompanyReport.quality_passed row then Usable row
       else Unusable row violations fallback, st')
  end.

(** Modelled from the spec: the orchestrator. One request through the
    pipeline: aggregator, weights, context builder, cache manager, and
    then generation unless the cache answers. The report table is carried
    in the state; the evidence tables are read from [db]. *)
Definition issue (db : Supabase.Database) (now : Z) (request : ReportRequest)
    (st : State) : Outcome * State :=
  let fallback := latest (company request) true (reports st) in
  match aggregate db (company request) with
  | Err e => (Failure e fallback, st)
  | Ok b =>
      match resolve_weights cfg (weights request) with
      | Err e => (Failure e fallback, st)
      | Ok w =>
          match build_context parts b w (applicant_profile request) with
          | Err e => (Failure e fallback, st)
          | Ok ctx =>
              let key := cache_key_of parts (company request)
                           (job_posting_id request) w (fingerprint ctx)
                           (report_version cfg) in
              if bypass_cache request then regenerate now request b w ctx key st
              else
                match lookup now key (reports st) with
                | Some report => (Usable report, st)
                | None => regenerate now request b w ctx key st
                end
          end
      end
  end.
End Generation.

(** The report an outcome carries. *)
Definition report_in (o : Outcome) : option CompanyReport.Row :=
  match o with
  | Usable r => Some r
  | Unusable r _ _ => Some r
  | Failure _ _ => None
  end.

End Pipeline.

(** ** Substrings *)

Module Text.
(** [sub] occurs in [s]. *)
Definition contains (s sub : string) : Prop :=
  ∃ pre post : string, s = String.append pre (String.append sub post).
End Text.

(** ** The verdict vocabulary *)

Module Verdict.
(** The five names of the specification's enumeration. *)
Definition enum_names : list string :=
  ["StrongGo"; "Go"; "ConditionalGo"; "NoGo"; "StrongNoGo"].

(** The values the schema comment documents for the column. *)
Definition documented : list string := ["Go"; "Conditional Go"; "No-Go"].

#[global] Instance variant_eq_dec : EqDecision ReportsPage.Variant.
Proof. solve_decision. Defined.

#[global] Instance style_eq_dec : EqDecision CompanyDetailPage.Style.
Proof. solve_decision. Defined.

(** A consumer recognises a verdict when it does not fall back to its
    default rendering. *)
Definition label_recognises (verdict : option string) : bool :=
  bool_decide (ReportsPage.variant (ReportsPage.getVerdictLabel verdict)
               ≠ ReportsPage.default).

Definition style_recognises (verdict : option string) : bool :=
  bool_decide (CompanyDetailPage.getVerdictStyle verdict ≠ CompanyDetailPage.gray).
End Verdict.

(** ** Sample rows *)

Module Samples.
Definition report (id : Z) (company : option Z) (verdict : option string)
    (score : option Z) (passed : bool) (generated : Z) : CompanyReport.Row :=
  {| CompanyReport.id := id;
     CompanyReport.company_id := company;
     CompanyReport.company_name := "Acme";
     CompanyReport.job_posting_id := None;
     CompanyReport.report_version := Some "v4";
     CompanyReport.llm_provider := Some "openai";
     CompanyReport.llm_model := Some "gpt-4o";
     CompanyReport.verdict := verdict;
     CompanyReport.total_score := score;
     CompanyReport.scores := None;
     CompanyReport.key_attractions := None;
     CompanyReport.key_risks := None;
     CompanyReport.verification_items := None;
     CompanyReport.full_markdown := None;
     CompanyReport.full_html := None;
     CompanyReport.quality_passed := passed;
     CompanyReport.quality_details := None;
     CompanyReport.data_sources := None;
     CompanyReport.applicant_profile := None;
     CompanyReport.priority_weights := None;
     CompanyReport.cache_key := None;
     CompanyReport.cache_expires_at := None;
     CompanyReport.generated_at := generated |}.

Definition acme : Company.Row :=
  {| Company.id := 1; Company.name := "Acme"; Company.industry := None;
     Company.company_size := None; Company.description := None;
     Company.address := None; Company.jobplanet_rating := None;
     Company.employee_count := None |}.

(** A passing report of company 1, and a later one that failed the
    quality gate. *)
Definition passing : CompanyReport.Row :=
  report 1 (Some 1) (Some "Go") (Some 410) true 10.
Definition failing : CompanyReport.Row :=
  report 2 (Some 1) (Some "Go") (Some 120) false 20.

Definition db : Supabase.Database :=
  {| Supabase.company_reports := [passing; failing];
     Supabase.job_postings := [];
     Supabase.companies := [acme];
     Supabase.company_reviews := [];
     Supabase.company_interviews := [];
     Supabase.company_benefits := [];
     Supabase.company_salaries := [];
     Supabase.company_news := [] |}.

Definition analysis (id date : Z) (keyword : string) : Trends.MarketAnalysis :=
  {| Trends.id := id; Trends.analysis_date := date; Trends.keyword := keyword;
     Trends.total_postings := None; Trends.market_summary := None |}.

(** Three analyses, newest first; two of them for the same keyword. *)
Definition analyses : list Trends.MarketAnalysis :=
  [analysis 3 30 "backend"; analysis 2 20 "data"; analysis 1 10 "backend"].

(** The weights of the command-line example. *)
Definition weights : Pipeline.PriorityWeights :=
  [("growth", 30); ("stability", 20); ("compensation", 25);
   ("worklife", 10); ("rolefit", 15)].

Definition cfg : Pipeline.Config :=
  {| Pipeline.default_weights := weights;
     Pipeline.report_version := "v4";
     Pipeline.llm_provider := "openai";
     Pipeline.llm_model := "gpt-4o";
     Pipeline.parse_retries := 2;
     Pipeline.transient_retries := 3 |}.

Definition draft : Pipeline.Draft :=
  {| Pipeline.verdict := "Go";
     Pipeline.total_score := 410;
     Pipeline.scores := JS.JObject [];
     Pipeline.key_attractions := ["growth"];
     Pipeline.key_risks := ["runway"];
     Pipeline.verification_items := [];
     Pipeline.full_markdown := "# Acme" |}.

(** Components that always answer, with a quality gate that reports the
    given violations. *)
Definition parts (violations : list string) : Pipeline.Components :=
  {| Pipeline.build_context := λ _ _ _,
       Pipeline.Ok {| Pipeline.text := "context"; Pipeline.fingerprint := "f00d" |};
     Pipeline.cache_key_of := λ _ _ _ fingerprint version, String.append fingerprint version;
     Pipeline.build_prompt := λ ctx _, Pipeline.text ctx;
     Pipeline.provider := λ _ _, Pipeline.Text "raw";
     Pipeline.parse := λ _, Some draft;
     Pipeline.quality_gate := λ _ _, violations |}.

Definition request (name : string) (bypass : bool) : Pipeline.ReportRequest :=
  {| Pipeline.company := Pipeline.ByName name;
     Pipeline.job_posting_id := None;
     Pipeline.applicant_profile := None;
     Pipeline.weights := None;
     Pipeline.bypass_cache := bypass;
     Pipeline.cache_days := 7 |}.

Definition no_reports : Pipeline.State :=
  {| Pipeline.reports := []; Pipeline.next_id := 1; Pipeline.provider_calls := 0 |}.
End Samples.

(** ** Revalidation: the calls a request causes *)

Module RevalidateTrace.
(** The paths the Node handler means to revalidate for a parsed body: the
    requested one and, for the root, the related ones. *)
Definition requested (body : JS.Json) : list JS.Json :=
  let path := Http.or_root (JS.member body "path") in
  path :: (if Http.is_root path then Revalidate.related_paths else []).

Section Runtime.
Variable throws : JS.Json → bool.

(** Reference description of the calls made when [revalidatePath] is
    applied to the paths in turn: all of them up to and including the
    first on which it throws. The flag tells whether every call
    returned. *)
Fixpoint until_throw (paths : list JS.Json) : list JS.Json * bool :=
  match paths with
  | [] => ([], true)
  | path :: rest =>
      if throws path then ([path], false)
      else let '(calls, returned) := until_throw rest in (path :: calls, returned)
  end.
End Runtime.
End RevalidateTrace.

(** ** Company analysis request (web/src/app/api/analyze-company/route.ts) *)

Module AnalyzeCompany.

(** [process.env.GITHUB_REPO || 'chiseoyeon/career-navigator'] *)
Definition GITHUB_REPO (env : option string) : string :=
  JS.or_string env "chiseoyeon/career-navigator".

(** [s.split('/')] *)
Fixpoint split_slash (s : string) : list string :=
  match s with
  | EmptyString => [EmptyString]
  | String c s' =>
      if Ascii.eqb c "/" then EmptyString :: split_slash s'
      else
        match split_slash s' with
        | [] => [String c EmptyString]
        | part :: parts => String c part :: parts
        end
  end.

(** An element of an array pattern inside a template literal: a missing
    element prints as undefined. *)
Definition element (i : nat) (parts : list string) : string :=
  default "undefined" (parts !! i).

Definition workflowId : string := "analyze-company.yml".

Definition url (repo : string) : string :=
  let parts := split_slash repo in
  String.concat ""
    ["https://api.github.com/repos/"; element 0 parts; "/"; element 1 parts;
     "/actions/workflows/"; workflowId; "/dispatches"].

(** The argument of [fetch], as a value; the body is shown before
    [JSON.stringify]. *)
Definition dispatch (token repo : string) (companyName : JS.Json) : JS.Json :=
  JS.JObject
    [("url", JS.JString (url repo));
     ("method", JS.JString "POST");
     ("headers", JS.JObject
        [("Accept", JS.JString "application/vnd.github.v3+json");
         ("Authorization", JS.JString (String.append "Bearer " token));
         ("Content-Type", JS.JString "application/json");
         ("User-Agent", JS.JString "career-navigator-web")]);
     ("body", JS.JObject
        [("ref", JS.JString "main");
         ("inputs", JS.JObject [("company_name", companyName)])])].

(** What GitHub answers: the status and the text of the body. *)
Record Reply := { status : Z; text : string }.

(** [response.ok] *)
Definition ok (status : Z) : bool := (200 <=? status) && (status <=? 299).

(** The statuses [NextResponse.json(payload, { status })] accepts: 200 to
    599, the statuses without a body (204, 205, 304) excepted; on any
    other it throws. *)
Definition constructible (status : Z) : bool :=
  (200 <=? status) && (status <=? 599)
  && negb ((status =? 204) || (status =? 205) || (status =? 304)).

Definition respond (status : Z) (payload : JS.Json) : Eff.t Http.Response :=
  if constructible status
  then Eff.ret {| Http.status := status; Http.payload := payload |}
  else Eff.throw.

(** A property read off a value by a destructuring pattern: on [null]
    it throws, on a value without the property it gives [undefined]. *)
Definition property (name : string) (body : JS.Json) : Eff.t (option JS.Json) :=
  match body with
  | JS.JNull => Eff.throw
  | _ => Eff.ret (JS.member body name)
  end.

Definition truthy_property (v : option JS.Json) : bool :=
  match v with
  | Some v => JS.truthy_json v
  | None => false
  end.

Definition name_required : Http.Response :=
  {| Http.status := 400;
     Http.payload := JS.JObject [("error", JS.JString "회사 이름이 필요합니다.")] |}.

Definition token_missing : Http.Response :=
  {| Http.status := 500;
     Http.payload :=
       JS.JObject [("error", JS.JString "GitHub 토큰이 설정되지 않았습니다.")] |}.

Definition server_error : Http.Response :=
  {| Http.status := 500;
     Http.payload := JS.JObject [("error", JS.JString "서버 오류가 발생했습니다.")] |}.

Definition request_failed (details : string) : JS.Json :=
  JS.JObject [("error", JS.JString "분석 요청에 실패했습니다.");
              ("details", JS.JString details)].

Section Runtime.
(** [process.env.GITHUB_TOKEN] *)
Variable GITHUB_TOKEN : option string.
(** The value of [GITHUB_REPO] above. *)
Variable repo : string.
(** GitHub, as [fetch] reaches it; [None] when [fetch] rejects. *)
Variable github : JS.Json → option Reply.
(** [String(v)] for a value that is not a string. *)
Variable toString : JS.Json → string.

(** A value inside a template literal. *)
Definition display (v : JS.Json) : string :=
  match v with
  | JS.JString s => s
  | _ => toString v
  end.

Definition requested (companyName : JS.Json) : string :=
  String.append (display companyName)
    " 기업 분석이 요청되었습니다. 잠시 후 결과를 확인해주세요.".

(** [fetch(url, init)]: the call is logged, then answered. *)
Definition fetch (call : JS.Json) : Eff.t Reply :=
  λ log, (log ++ [call], github call).

Definition POST (request : Http.Request) : Eff.t Http.Response :=
  Eff.try_catch
    (body ← Http.request_json request;
     companyName ← property "companyName" body;
     if negb (truthy_property companyName) then Eff.ret name_required
     else if negb (JS.truthy GITHUB_TOKEN) then Eff.ret token_missing
     else
       let companyName := default JS.JNull companyName in
       response ← fetch (dispatch (default "" GITHUB_TOKEN) repo companyName);
       if negb (ok (status response)) then
         respond (status response) (request_failed (text response))
       else
         Eff.ret (Http.ok (JS.JObject
           [("success", JS.JBool true);
            ("message", JS.JString (requested companyName));
            ("companyName", companyName)])))
    (Eff.ret server_error).
End Runtime.
End AnalyzeCompany.

(** ** The analysis button (unnamed/part_000) *)

Module AnalyzeCompanyButton.

(** Where the button sends the browser three seconds after a success. *)
Inductive Target :=
| CompanyPage (companyId : Z)
| CompaniesList.

(** The component's state when the click handler has finished, with the
    navigation it has scheduled. *)
Record State := {
  isLoading : bool;
  message : option JS.Json;
  error : option string;
  scheduled : option Target;
}.

(** What [fetch] and [response.json()] give the handler. *)
Inductive Fetched :=
| Rejected (reason : string)                 (* fetch rejects with an Error *)
| Unparsable (status : Z) (reason : string)  (* response.json() rejects *)
| Replied (status : Z) (data : JS.Json).

(** [if (companyId)]: a missing id and the id 0 are falsy. *)
Definition target (companyId : option Z) : Target :=
  match companyId with
  | Some 0 | None => CompaniesList
  | Some id => CompanyPage id
  end.

Definition failed (reason : string) : State :=
  {| isLoading := false; message := None; error := Some reason;
     scheduled := None |}.

Section Runtime.
(** [String(v)] for a value that is not a string. *)
Variable toString : JS.Json → string.
(** The message of the TypeError raised by reading a property of
    [null]. *)
Variable type_error : string.

Definition display (v : JS.Json) : string :=
  match v with
  | JS.JString s => s
  | _ => toString v
  end.

Definition handleAnalyze (companyId : option Z) (fetched : Fetched) : State :=
  match fetched with
  | Rejected reason => failed reason
  | Unparsable _ reason => failed reason
  | Replied status data =>
      match data with
      | JS.JNull => failed type_error
      | _ =>
          if negb (AnalyzeCompany.ok status) then
            match JS.member data "error" with
            | Some e =>
                if JS.truthy_json e then failed (display e)
                else failed "분석 요청에 실패했습니다."
            | None => failed "분석 요청에 실패했습니다."
            end
          else
            {| isLoading := false;
               message := JS.member data "message";
               error := None;
               scheduled := Some (target companyId) |}
      end
  end.
End Runtime.

(** The request the button sends: [JSON.stringify({ companyName })]. *)
Definition request (companyName : string) : Http.Request :=
  {| Http.secret_header := None;
     Http.json := Some (JS.JObject [("companyName", JS.JString companyName)]) |}.

(** What the button receives when the route above answers it. *)
Definition fetched (reply : option Http.Response) (reason : string) : Fetched :=
  match reply with
  | Some r => Replied (Http.status r) (Http.payload r)
  | None => Rejected reason
  end.

(** A click, answered by the route. *)
Definition click (GITHUB_TOKEN : option string) (repo : string)
    (github : JS.Json → option AnalyzeCompany.Reply)
    (toString : JS.Json → string) (type_error : string)
    (companyName : string) (companyId : option Z) : list JS.Json * State :=
  let run :=
    AnalyzeCompany.POST GITHUB_TOKEN repo github toString (request companyName) [] in
  (run.1, handleAnalyze toString type_error companyId (fetched run.2 type_error)).

End AnalyzeCompanyButton.

(** ** Jobs list page: what a query selects, and the tab links
       (unnamed/part_006, first page) *)

Module JobsList.

Section Runtime.
Variable ilike : string → string → bool.
Variable today : Z.

(** Reference description of the postings the query of [getJobs] asks
    for: the status tab, then the site, then the keyword. A status other
    than active, closed and today selects nothing out. *)
Definition status_selected (status : string) (job : JobPosting.Row) : bool :=
  if String.eqb status "active" then JobPosting.is_active job
  else if String.eqb status "closed" then negb (JobPosting.is_active job)
  else if String.eqb status "today" then today <=? JobPosting.crawled_at job
  else true.

Definition selected (params : JobsPage.Params) (job : JobPosting.Row) : bool :=
  status_selected (JS.or_string (JobsPage.status params) "active") job
  && (if JS.truthy (JobsPage.site params)
      then String.eqb (JobPosting.source_site job) (default "" (JobsPage.site params))
      else true)
  && (if JS.truthy (JobsPage.keyword params)
      then ilike ("%" ++ default "" (JobsPage.keyword params) ++ "%")
             (JobPosting.title job)
      else true).
End Runtime.

(** The postings in the order [.order('crawled_at', { ascending: false })]
    gives them on the server above. *)
Definition newest_first (jobs : list JobPosting.Row) : list JobPosting.Row :=
  merge_sort (Supabase.holds (Supabase.descending JobPosting.crawled_at)) jobs.


(** The pages 1 to [n]. *)
Definition page_numbers (n : Z) : list Z :=
  (λ i, Z.of_nat i + 1) <$> seq 0 (Z.to_nat n).

(** *** [buildUrl] *)

(** An object with optional string values, as [{ ...a, ...b, k: v }]
    builds it: its entries in insertion order (the parameter names of
    the page are no array indices, which would come first). *)
Definition Params := JS.Map string (option string).

(** [{ ...target, ...source }] *)
Definition spread (target source : Params) : Params :=
  foldl (λ m kv, JS.set m kv.1 kv.2) target source.

(** [{ ...params, ...newParams, page: undefined }] *)
Definition merged (params newParams : Params) : Params :=
  JS.set (spread params newParams) "page" None.

(** The [forEach] over [Object.entries(merged)]: a truthy value is set
    on the search parameters. *)
Definition searchParams (entries : Params) : JS.Map string string :=
  foldl (λ sp kv, if JS.truthy kv.2 then JS.set sp kv.1 (default "" kv.2) else sp)
    [] entries.

Section Serialize.
(** The percent-encoding of [URLSearchParams.prototype.toString]. *)
Variable encode : string → string.

Definition toString (sp : JS.Map string string) : string :=
  String.concat "&"
    ((λ kv : string * string,
        String.append (encode kv.1) (String.append "=" (encode kv.2))) <$> sp).

Definition buildUrl (params newParams : Params) : string :=
  String.append "/jobs?" (toString (searchParams (merged params newParams))).
End Serialize.

End JobsList.

(** ** Dashboard (unnamed/part_003) *)

Module Dashboard.

Record DashboardData := {
  totalJobs : Z;
  totalCompanies : Z;
  latestAnalysis : list Trends.MarketAnalysis;
  recentJobs : list JobPosting.Row;
  topSkills : list Trends.SkillTrend;
}.

(** [config.pagination] *)
Definition recentJobsCount : Z := 5.
Definition recentAnalysisCount : Z := 5.
Definition topSkillsCount : Z := 10.

Section Tables.
(** [.from('market_analysis')] and [.from('skill_trends')] *)
Variable market_analysis : Supabase.Table Trends.MarketAnalysis.
Variable skill_trends : Supabase.Table Trends.SkillTrend.

(** [.select('*', { count: 'exact', head: true })]: the answer carries
    the count and no rows; only the count is read. *)
Definition active_jobs : Supabase.Query JobPosting.Row :=
  Supabase.where_ (Supabase.eq_bool JobPosting.is_active true)
    (Supabase.select Supabase.job_postings_table true).

Definition all_companies : Supabase.Query Company.Row :=
  Supabase.select Supabase.companies_table true.

Definition latest_analysis : Supabase.Query Trends.MarketAnalysis :=
  Supabase.limit recentAnalysisCount
    (Supabase.order (Supabase.descending Trends.analysis_date)
       (Supabase.select market_analysis false)).

Definition recent_jobs : Supabase.Query JobPosting.Row :=
  Supabase.limit recentJobsCount
    (Supabase.order (Supabase.descending JobPosting.crawled_at)
       (Supabase.where_ (Supabase.eq_bool JobPosting.is_active true)
          (Supabase.select Supabase.job_postings_table false))).

Definition top_skills : Supabase.Query Trends.SkillTrend :=
  Supabase.limit topSkillsCount
    (Supabase.order (Supabase.descending Trends.mention_count)
       (Supabase.select skill_trends false)).

(** No [error] is read: a failed query leaves [count] and [data] null. *)
Definition getDashboardData (supabase : Supabase.Client) : DashboardData :=
  let totalJobs := Supabase.count (supabase _ active_jobs) in
  let totalCompanies := Supabase.count (supabase _ all_companies) in
  let latestAnalysis := Supabase.data (supabase _ latest_analysis) in
  let recentJobs := Supabase.data (supabase _ recent_jobs) in
  let topSkills := Supabase.data (supabase _ top_skills) in
  {| totalJobs := JS.or_number totalJobs 0;
     totalCompanies := JS.or_number totalCompanies 0;
     latestAnalysis := JS.or_empty latestAnalysis;
     recentJobs := JS.or_empty recentJobs;
     topSkills := JS.or_empty topSkills |}.
End Tables.

End Dashboard.

(** ** Trends page and trend page of a keyword, on the client
    (unnamed/part_001) *)

Module TrendsPage.

(** [config.pagination.detailSkillsCount] *)
Definition detailSkillsCount : Z := 20.

Section Tables.
Variable market_analysis : Supabase.Table Trends.MarketAnalysis.
Variable skill_trends : Supabase.Table Trends.SkillTrend.

Definition analyses_query : Supabase.Query Trends.MarketAnalysis :=
  Supabase.order (Supabase.descending Trends.analysis_date)
    (Supabase.select market_analysis false).

Definition skills_query : Supabase.Query Trends.SkillTrend :=
  Supabase.limit detailSkillsCount
    (Supabase.order (Supabase.descending Trends.mention_count)
       (Supabase.select skill_trends false)).

(** The two queries of [getTrendsData], and what it makes of their
    [data]. *)
Definition getTrendsData (supabase : Supabase.Client)
    : list Trends.MarketAnalysis * list Trends.SkillTrend :=
  Trends.getTrendsData
    (Supabase.data (supabase _ analyses_query))
    (Supabase.data (supabase _ skills_query)).
End Tables.

End TrendsPage.

Module TrendDetailPage.

Inductive Page :=
| NotFound
| Detail (analysis : Trends.MarketAnalysis).

Section Runtime.
Variable market_analysis : Supabase.Table Trends.MarketAnalysis.
(** [decodeURIComponent]; [None] when it throws a URIError. *)
Variable decodeURIComponent : string → option string.

Definition query (decodedKeyword : string) : Supabase.Query Trends.MarketAnalysis :=
  Supabase.limit 1
    (Supabase.order (Supabase.descending Trends.analysis_date)
       (Supabase.where_ (Supabase.eq_string Trends.keyword decodedKeyword)
          (Supabase.select market_analysis false))).

(** [None] when the function throws. *)
Definition getAnalysis (supabase : Supabase.Client) (keyword : string)
    : option (option Trends.MarketAnalysis) :=
  match decodeURIComponent keyword with
  | None => None
  | Some decodedKeyword =>
      let '(analysis, error) :=
        Supabase.single (supabase _ (query decodedKeyword)) in
      match error, analysis with
      | None, Some analysis => Some (Some analysis)
      | _, _ => Some None
      end
  end.

Definition TrendDetailPage (supabase : Supabase.Client) (keyword : string)
    : option Page :=
  match getAnalysis supabase keyword with
  | None => None
  | Some None => Some NotFound
  | Some (Some analysis) => Some (Detail analysis)
  end.
End Runtime.

End TrendDetailPage.

(** ** Report detail page: the page function (unnamed/part_004, second
    page) *)

Module ReportDetail.

Definition getCompany (supabase : Supabase.Client) (id : Z) : option Company.Row :=
  let '(data, error) :=
    Supabase.single
      (supabase _ (Supabase.where_ (Supabase.eq_Z Company.id id)
                     (Supabase.select Supabase.companies_table false))) in
  match error with
  | Some _ => None
  | None => data
  end.

(** [report.total_score && (...)]: a missing score shows nothing, the
    score 0 shows as the bare number, any other score out of 5.0. *)
Inductive ScoreView :=
| NoScore
| BareZero
| OutOfFive (total_score : Z).

Definition scoreView (total_score : option Z) : ScoreView :=
  match total_score with
  | None => NoScore
  | Some 0 => BareZero
  | Some s => OutOfFive s
  end.

(** The head of the page: the company link of the breadcrumb (target and
    text), the report, the verdict badge (style and text), the score and
    the quality badge. *)
Record Header := {
  company_href : Z;
  company_text : string;
  report : CompanyReport.Row;
  verdictStyle : ReportDetailPage.Style;
  verdict_text : string;
  score : ScoreView;
  quality_badge : bool;
}.

Inductive Page :=
| NotFound
| Detail (header : Header).

Section Runtime.
(** [parseInt(s, 10)]; [None] is NaN. *)
Variable parseInt : string → option Z.

Definition ReportDetailPage (supabase : Supabase.Client) (id reportId : string)
    : Page :=
  match parseInt id, parseInt reportId with
  | Some companyId, Some reportIdNum =>
      let report := ReportDetailPage.getReport supabase reportIdNum in
      let company := getCompany supabase companyId in
      match report with
      | None => NotFound
      | Some report =>
          Detail
            {| company_href := companyId;
               company_text :=
                 JS.or_string (Company.name <$> company)
                   (CompanyReport.company_name report);
               report := report;
               verdictStyle :=
                 ReportDetailPage.getVerdictStyle (CompanyReport.verdict report);
               verdict_text := JS.or_string (CompanyReport.verdict report) "미정";
               score := scoreView (CompanyReport.total_score report);
               quality_badge := CompanyReport.quality_passed report |}
      end
  | _, _ => NotFound
  end.
End Runtime.

End ReportDetail.

(** ** Jobs list page before the status tabs (unnamed/part_006, second
    page) *)

Module JobsPageEarlier.

Record Params := {
  keyword : option string;
  site : option string;
  page : option string;
}.

Record Result := {
  jobs : list JobPosting.Row;
  count : Z;
}.

Section Runtime.
Variable Number : option string → option Z.
Variable ilike : string → string → bool.

Definition query (params : Params) : Supabase.Query JobPosting.Row :=
  let page := JS.or_number (Number (page params)) 1 in
  let limit := JobsPage.jobsPerPage in
  let offset := (page - 1) * limit in
  let query :=
    Supabase.range offset (offset + limit - 1)
      (Supabase.order (Supabase.descending JobPosting.crawled_at)
         (Supabase.where_ (Supabase.eq_bool JobPosting.is_active true)
            (Supabase.select Supabase.job_postings_table true))) in
  let query :=
    if JS.truthy (keyword params) then
      Supabase.where_
        (λ r, ilike ("%" ++ default "" (keyword params) ++ "%") (JobPosting.title r))
        query
    else query in
  if JS.truthy (site params) then
    Supabase.where_
      (Supabase.eq_string JobPosting.source_site (default "" (site params))) query
  else query.

Definition getJobs (supabase : Supabase.Client) (params : Params) : Result :=
  let r := supabase _ (query params) in
  match Supabase.error r with
  | Some _ => {| jobs := []; count := 0 |}
  | None => {| jobs := JS.or_empty (Supabase.data r);
               count := JS.or_number (Supabase.count r) 0 |}
  end.
End Runtime.

End JobsPageEarlier.

(** ** Roadmap page (web/src/app/roadmap/page.tsx) *)

Module Roadmap.

Section Tables.
Variable market_analysis : Supabase.Table Trends.MarketAnalysis.
(** The column [roadmap_3months] of a row of [market_analysis], which
    the record of the trends page leaves out. *)
Variable roadmap_3months : Trends.MarketAnalysis → option JS.Json.

(** [.not(col, 'is', null)] *)
Definition not_null {A B} (col : A → option B) : A → bool :=
  λ r, match col r with Some _ => true | None => false end.

Definition query : Supabase.Query Trends.MarketAnalysis :=
  Supabase.order (Supabase.descending Trends.analysis_date)
    (Supabase.where_ (not_null roadmap_3months)
       (Supabase.select market_analysis false)).

(** The [forEach] over the rows fills the map as on the trends page. *)
Definition getRoadmapData (supabase : Supabase.Client)
    : list Trends.MarketAnalysis :=
  let analyses := Supabase.data (supabase _ query) in
  JS.values (Trends.latestByKeyword (JS.or_empty analyses)).
End Tables.

End Roadmap.

(** ** Servers that order ties as they like *)

Module Postgrest.
Section Answers.
Context {A : Type}.

(** What the server makes of the rows it has found and put in order: the
    window of the query and, when asked for, the exact count; the refusals
    are those of [Supabase.run]. *)
Definition respond (q : Supabase.Query A) (rows : list A) : Supabase.Response A :=
  let total :=
    if Supabase.exact_count q then Some (Z.of_nat (length rows)) else None in
  match Supabase.window q with
  | None => {| Supabase.data := Some rows; Supabase.count := total;
               Supabase.error := None |}
  | Some (offset, n) =>
      if (offset <? 0) || (n <? 0)
         || (Supabase.exact_count q && (Z.of_nat (length rows) <? offset)) then
        {| Supabase.data := None; Supabase.count := None;
           Supabase.error := Some Supabase.range_not_satisfiable |}
      else
        {| Supabase.data := Some (take (Z.to_nat n) (drop (Z.to_nat offset) rows));
           Supabase.count := total; Supabase.error := None |}
  end.

(** [rows] is an order in which the server may deliver the rows of the
    query: the matching rows, each as often as the table holds it, in an
    order that respects [.order(...)]. The order among rows that tie, and
    the order of a query without [.order(...)], is the server's choice. *)
Definition delivers (db : Supabase.Database) (q : Supabase.Query A)
    (rows : list A) : Prop :=
  rows ≡ₚ Supabase.matching db q
  ∧ match Supabase.ordering q with
    | Some le => StronglySorted (Supabase.holds le) rows
    | None => True
    end.

(** [r] is an answer the server may give to the query. The choice among
    ties is made anew for every query. *)
Definition answers (db : Supabase.Database) (q : Supabase.Query A)
    (r : Supabase.Response A) : Prop :=
  ∃ rows, delivers db q rows ∧ r = respond q rows.
End Answers.
End Postgrest.

(** ** Further sample values *)

Module Fixtures.
Definition posting (id : Z) : JobPosting.Row :=
  {| JobPosting.id := id;
     JobPosting.source_site := "wanted";
     JobPosting.job_id := "w";
     JobPosting.title := "Backend developer";
     JobPosting.company_name := "Acme";
     JobPosting.company_id := Some 1;
     JobPosting.url := None;
     JobPosting.crawled_at := id;
     JobPosting.is_active := true |}.

(** Twenty-one active postings, crawled one after the other. *)
Definition postings : list JobPosting.Row := posting <$> seqZ 1 21.

Definition db : Supabase.Database :=
  {| Supabase.company_reports := [Samples.passing; Samples.failing];
     Supabase.job_postings := postings;
     Supabase.companies := [Samples.acme];
     Supabase.company_reviews := [];
     Supabase.company_interviews := [];
     Supabase.company_benefits := [];
     Supabase.company_salaries := [];
     Supabase.company_news := [] |}.

(** [Number] and the decimal notation, on the page numbers 1 and 2. *)
Definition Number (s : option string) : option Z :=
  match s with
  | Some s => if String.eqb s "1" then Some 1
              else if String.eqb s "2" then Some 2 else None
  | None => None
  end.

Definition label (p : Z) : string := if p =? 1 then "1" else "2".



Definition no_filter : JobsPage.Params :=
  {| JobsPage.keyword := None; JobsPage.site := None;
     JobsPage.page := None; JobsPage.status := None |}.
End Fixtures.

(** * Properties *)

Section JsMapFacts.
Context {K V : Type} `{EqDecision K}.

Lemma set_fresh (m : JS.Map K V) k v :
  k ∉ m.*1 → JS.set m k v = m ++ [(k, v)].
Proof.
  induction m as [|[k' v'] m IH]; simpl; [done|].
  intros Hk. apply not_elem_of_cons in Hk as [Hne Hk].
  destruct (decide (k' = k)); [congruence|]. by rewrite IH.
Qed.
End JsMapFacts.

Section TrendsFacts.
Import Trends.

Lemma tagged_values l : JS.values (tagged l) = l.
Proof.
  unfold JS.values, tagged.
  induction l as [|a l IH]; csimpl; [done|]. by rewrite IH.
Qed.

Lemma firsts_seen_perm l : ∀ s1 s2,
  (∀ k, k ∈ s1 ↔ k ∈ s2) → firsts s1 l = firsts s2 l.
Proof.
  induction l as [|a l IH]; intros s1 s2 Hs; simpl; [done|].
  rewrite (bool_decide_ext _ _ (Hs (keyword a))).
  case_bool_decide; [by apply IH|].
  f_equal. apply IH. intros k. rewrite !elem_of_cons, Hs. done.
Qed.

Lemma foldl_visit l : ∀ m,
  foldl visit m l = m ++ tagged (firsts (m.*1) l).
Proof.
  induction l as [|a l IH]; intros m; simpl.
  - by rewrite app_nil_r.
  - rewrite IH. unfold visit, JS.has.
    destruct (decide (keyword a ∈ m.*1)) as [Hin|Hout].
    + rewrite !bool_decide_eq_true_2 by done. done.
    + rewrite !bool_decide_eq_false_2 by done. simpl.
      rewrite set_fresh by done.
      rewrite <- app_assoc. simpl. do 3 f_equal.
      apply firsts_seen_perm. intros k.
      rewrite fmap_app. set_solver.
Qed.

Lemma latestByKeyword_firsts l :
  JS.values (latestByKeyword l) = firsts [] l.
Proof.
  unfold latestByKeyword. rewrite foldl_visit. simpl. apply tagged_values.
Qed.

Lemma firsts_sublist l : ∀ seen, firsts seen l `sublist_of` l.
Proof.
  induction l as [|a l IH]; intros seen; simpl; [done|].
  case_bool_decide.
  - by apply sublist_cons.
  - by apply sublist_skip.
Qed.

Lemma firsts_unseen l : ∀ seen a,
  a ∈ firsts seen l → keyword a ∉ seen.
Proof.
  induction l as [|b l IH]; intros seen a; simpl.
  - by intros ?%elem_of_nil.
  - case_bool_decide as Hb; [by apply IH|].
    intros [->|Hin]%elem_of_cons; [done|].
    apply IH in Hin. by apply not_elem_of_cons in Hin as [_ ?].
Qed.

Lemma firsts_first_occurrence l : ∀ seen a,
  a ∈ firsts seen l → first_occurrence a l.
Proof.
  induction l as [|b l IH]; intros seen a; simpl.
  - by intros ?%elem_of_nil.
  - case_bool_decide as Hb.
    + intros Hin. pose proof (firsts_unseen _ _ _ Hin) as Hk.
      destruct (IH _ _ Hin) as (l1 & l2 & -> & Hl1).
      exists (b :: l1), l2. split; [done|].
      csimpl. apply not_elem_of_cons. split; [|done].
      intros Heq. apply Hk. by rewrite Heq.
    + intros [->|Hin]%elem_of_cons.
      * exists [], l. split; [done|]. apply not_elem_of_nil.
      * pose proof (firsts_unseen _ _ _ Hin) as Hk.
        apply not_elem_of_cons in Hk as [Hne _].
        destruct (IH _ _ Hin) as (l1 & l2 & -> & Hl1).
        exists (b :: l1), l2. split; [done|].
        csimpl. by apply not_elem_of_cons.
Qed.

Lemma firsts_NoDup l : ∀ seen, NoDup (keyword <$> firsts seen l).
Proof.
  induction l as [|b l IH]; intros seen; simpl.
  - apply NoDup_nil_2.
  - case_bool_decide as Hb; [apply IH|].
    csimpl. apply NoDup_cons. split; [|apply IH].
    intros (a & Hk & Hin)%list_elem_of_fmap.
    apply firsts_unseen in Hin. apply Hin. rewrite <- Hk. by left.
Qed.

Lemma firsts_covers l : ∀ seen b,
  b ∈ l → keyword b ∉ seen →
  ∃ a, a ∈ firsts seen l ∧ keyword a = keyword b.
Proof.
  induction l as [|c l IH]; intros seen b; simpl.
  - by intros ?%elem_of_nil.
  - intros [->|Hin]%elem_of_cons Hk.
    + rewrite bool_decide_eq_false_2 by done. exists c. split; [by left|done].
    + case_bool_decide as Hc; [by apply IH|].
      destruct (decide (keyword c = keyword b)) as [Heq|Hne].
      * exists c. split; [by left|done].
      * destruct (IH (keyword c :: seen) b Hin) as (a & Ha & Hab).
        { apply not_elem_of_cons. split; [congruence|done]. }
        exists a. split; [by right|done].
Qed.

Lemma first_occurrence_latest a l :
  date_desc l → first_occurrence a l →
  ∀ b, b ∈ l → keyword b = keyword a → analysis_date b ≤ analysis_date a.
Proof.
  intros Hs (l1 & l2 & -> & Hl1) b Hb Hk.
  apply elem_of_app in Hb as [Hb|Hb].
  - exfalso. apply Hl1. rewrite <- Hk. by apply list_elem_of_fmap_2.
  - apply StronglySorted_app_1_r in Hs.
    apply elem_of_cons in Hb as [->|Hb]; [lia|].
    apply StronglySorted_inv in Hs as [_ Hall].
    rewrite Forall_forall in Hall. by apply Hall.
Qed.

(** C10. For analyses delivered in descending [analysis_date] order, the
    list returned by [getTrendsData] holds at most one analysis per
    keyword; each is the first occurrence of its keyword in the input,
    hence the most recent analysis of that keyword; every keyword of the
    input is represented; and the analyses keep their input order. *)
Theorem getTrendsData_latest_per_keyword
    (analyses : list MarketAnalysis) (skills : option (list SkillTrend)) :
  date_desc analyses →
  let out := (getTrendsData (Some analyses) skills).1 in
  NoDup (keyword <$> out)
  ∧ out `sublist_of` analyses
  ∧ (∀ a, a ∈ out →
       first_occurrence a analyses
       ∧ ∀ b, b ∈ analyses → keyword b = keyword a →
              analysis_date b ≤ analysis_date a)
  ∧ (∀ b, b ∈ analyses → ∃ a, a ∈ out ∧ keyword a = keyword b).
Proof.
  intros Hs. simpl. rewrite latestByKeyword_firsts.
  split; [apply firsts_NoDup|].
  split; [apply firsts_sublist|].
  split.
  - intros a Ha. pose proof (firsts_first_occurrence _ _ _ Ha) as Hf.
    split; [done|]. by apply first_occurrence_latest.
  - intros b Hb. apply firsts_covers; [done|]. apply not_elem_of_nil.
Qed.

(** The newer of two analyses of one keyword is kept, the older dropped. *)
Lemma getTrendsData_latest_per_keyword_witness :
  (getTrendsData (Some Samples.analyses) None).1
    = [Samples.analysis 3 30 "backend"; Samples.analysis 2 20 "data"]
  ∧ NoDup (keyword <$> (getTrendsData (Some Samples.analyses) None).1).
Proof.
  split; [reflexivity|].
  apply (getTrendsData_latest_per_keyword Samples.analyses None).
  unfold date_desc, Samples.analyses.
  repeat (constructor; [|repeat constructor; simpl; lia]). constructor.
Defined.
End TrendsFacts.

(** ** Reports of a company *)

Section SupabaseFacts.
Context {A : Type} (col : A → Z).

#[local] Instance descending_total : Total (Supabase.holds (Supabase.descending col)).
Proof.
  intros a b. unfold Supabase.holds, Supabase.descending.
  destruct (Z.le_ge_cases (col a) (col b)); [right|left]; by apply Z.leb_le.
Qed.

#[local] Instance descending_trans : Transitive (Supabase.holds (Supabase.descending col)).
Proof.
  intros a b c. unfold Supabase.holds, Supabase.descending.
  rewrite !Z.leb_le. lia.
Qed.

Lemma StronglySorted_weaken (R1 R2 : relation A) l :
  (∀ a b, R1 a b → R2 a b) → StronglySorted R1 l → StronglySorted R2 l.
Proof.
  intros HR. induction 1 as [|a l Hs IH Hall]; constructor; [done|].
  eapply Forall_impl; [exact Hall|]. intros b. apply HR.
Qed.

Lemma sorted_descending (q : Supabase.Query A) rows :
  Supabase.ordering q = Some (Supabase.descending col) →
  StronglySorted (λ a b, col b ≤ col a) (Supabase.sorted q rows).
Proof.
  intros Ho. unfold Supabase.sorted. rewrite Ho.
  eapply StronglySorted_weaken; [|apply (StronglySorted_merge_sort _)].
  intros a b. unfold Supabase.holds, Supabase.descending. by rewrite Z.leb_le.
Qed.

Lemma sorted_elem_of (q : Supabase.Query A) rows r :
  r ∈ Supabase.sorted q rows ↔ r ∈ rows.
Proof.
  unfold Supabase.sorted. destruct (Supabase.ordering q); [|done].
  by rewrite merge_sort_Permutation.
Qed.

End SupabaseFacts.

Section CompanyReportsFacts.
Import CompanyDetailPage.

Lemma getCompanyReports_server db companyId :
  getCompanyReports (Supabase.server db) companyId =
  take 5 (Supabase.sorted (reports_query companyId)
            (Supabase.matching db (reports_query companyId))).
Proof. reflexivity. Qed.

Lemma matching_reports db companyId r :
  r ∈ Supabase.matching db (reports_query companyId) ↔
  r ∈ Supabase.company_reports db ∧ CompanyReport.company_id r = Some companyId.
Proof.
  unfold Supabase.matching. rewrite list_elem_of_In, filter_In, <- list_elem_of_In.
  simpl. unfold Supabase.eq_opt_Z. rewrite andb_true_r.
  destruct (CompanyReport.company_id r) as [c|]; [|naive_solver].
  rewrite Z.eqb_eq. naive_solver.
Qed.

(** C1, counterexample. A company whose latest report failed the quality
    gate: the default lookup returns that report, and first. *)
Lemma getCompanyReports_serves_failing_report :
  getCompanyReports (Supabase.server Samples.db) 1
    = [Samples.failing; Samples.passing]
  ∧ CompanyReport.quality_passed Samples.failing = false.
Proof. split; reflexivity. Qed.

(** C1, as amended. The lookup of a company's reports returns reports of
    that company only, newest first, five at most, and leaves none out
    unless five reports at least as recent are returned; whether a report
    passed the quality gate plays no part. *)
Theorem getCompanyReports_newest_five (db : Supabase.Database) (companyId : Z) :
  let out := getCompanyReports (Supabase.server db) companyId in
  (∀ r, r ∈ out →
     r ∈ Supabase.company_reports db
     ∧ CompanyReport.company_id r = Some companyId)
  ∧ StronglySorted
      (λ a b, CompanyReport.generated_at b ≤ CompanyReport.generated_at a) out
  ∧ (length out ≤ 5)%nat
  ∧ (∀ r, r ∈ Supabase.company_reports db →
          CompanyReport.company_id r = Some companyId →
          r ∈ out
          ∨ (length out = 5%nat
             ∧ ∀ o, o ∈ out →
                 CompanyReport.generated_at r ≤ CompanyReport.generated_at o)).
Proof.
  intros out. subst out. rewrite getCompanyReports_server.
  set (q := reports_query companyId).
  set (l := Supabase.sorted q (Supabase.matching db q)).
  assert (Hs : StronglySorted
    (λ a b, CompanyReport.generated_at b ≤ CompanyReport.generated_at a) l).
  { by apply sorted_descending. }
  split; [|split; [|split]].
  - intros r Hr. apply matching_reports.
    apply (sorted_elem_of q). by apply elem_of_take in Hr as (i & ?%list_elem_of_lookup_2 & _).
  - rewrite <- (take_drop 5 l) in Hs. by apply StronglySorted_app_1_l in Hs.
  - rewrite length_take. lia.
  - intros r Hr Hc.
    assert (Hin : r ∈ l).
    { apply (sorted_elem_of q). by apply matching_reports. }
    rewrite <- (take_drop 5 l) in Hin, Hs.
    apply elem_of_app in Hin as [Hin|Hin]; [by left|right].
    split.
    + rewrite length_take. apply list_elem_of_lookup in Hin as [i Hi].
      apply lookup_lt_Some in Hi. rewrite length_drop in Hi. lia.
    + intros o Ho. by apply (StronglySorted_app_1_elem_of _ _ _ o r) in Hs.
Qed.
End CompanyReportsFacts.

(** ** Verdict and score rendering *)

Section VerdictFacts.
Import CompanyDetailPage.

Lemma getVerdictStyle_unfold (s : string) :
  s ≠ "" →
  getVerdictStyle (Some s) =
    if JS.includes (JS.toLowerCase s) "no-go"
       || JS.includes (JS.toLowerCase s) "nogo" then red
    else if JS.includes (JS.toLowerCase s) "conditional" then yellow
    else if String.eqb (JS.toLowerCase s) "go" then green
    else gray.
Proof.
  intros Hs. unfold getVerdictStyle. simpl.
  destruct (String.eqb_spec s ""); [done|]. reflexivity.
Qed.

Lemma toLowerCase_nonempty (s : string) : JS.toLowerCase s ≠ "" → s ≠ "".
Proof. by intros H ->. Qed.

(** C3, counterexample. No reading of the five names is recognised by
    every consumer: the verdict label of the reports list falls back to
    its default on each of them, and the verdict style falls back on
    StrongGo. *)
Lemma verdict_enum_not_recognised :
  ¬ (∀ v, v ∈ Verdict.enum_names →
          Verdict.label_recognises (Some v) = true
          ∧ Verdict.style_recognises (Some v) = true).
Proof.
  intros H. destruct (H "StrongGo") as [Hl _].
  - apply list_elem_of_here.
  - vm_compute in Hl. discriminate.
Qed.

Lemma append_cons (c : ascii) (s t : string) :
  String.append (String c s) t = String c (String.append s t).
Proof. reflexivity. Qed.

Lemma prefix_spec (sub s : string) :
  String.prefix sub s = true ↔ ∃ post : string, s = String.append sub post.
Proof.
  revert s. induction sub as [|c sub IH]; intros [|d s]; simpl.
  - split; [|done]. intros _. by exists EmptyString.
  - split; [|done]. intros _. by exists (String d s).
  - split; [done|]. intros [post Hp]. by rewrite append_cons in Hp.
  - destruct (Ascii.ascii_dec c d) as [->|Hne].
    + rewrite IH. split; intros [post Hp]; exists post.
      * by rewrite append_cons, Hp.
      * rewrite append_cons in Hp. congruence.
    + split; [done|]. intros [post Hp]. rewrite append_cons in Hp. congruence.
Qed.
Lemma includes_spec (s sub : string) :
  JS.includes s sub = true ↔ Text.contains s sub.
Proof.
  unfold Text.contains. induction s as [|c s IH].
  - change (JS.includes EmptyString sub) with (String.prefix sub EmptyString || false).
    rewrite orb_false_r, prefix_spec. split.
    + intros [post Hp]. by exists EmptyString, post.
    + intros (pre & post & Hp). destruct pre as [|d pre]; [|by rewrite append_cons in Hp].
      by exists post.
  - change (JS.includes (String c s) sub)
      with (String.prefix sub (String c s) || JS.includes s sub).
    rewrite orb_true_iff, IH, prefix_spec. split.
    + intros [[post Hp]|(pre & post & Hp)].
      * by exists EmptyString, post.
      * exists (String c pre), post. by rewrite append_cons, Hp.
    + intros (pre & post & Hp). destruct pre as [|d pre].
      * left. by exists post.
      * right. exists pre, post. rewrite append_cons in Hp. congruence.
Qed.

(** The cascade of [getVerdictStyle], for every string. *)
Lemma getVerdictStyle_cascade (s : string) :
  getVerdictStyle (Some s) =
    if JS.includes (JS.toLowerCase s) "no-go"
       || JS.includes (JS.toLowerCase s) "nogo" then red
    else if JS.includes (JS.toLowerCase s) "conditional" then yellow
    else if String.eqb (JS.toLowerCase s) "go" then green
    else gray.
Proof.
  destruct (String.eqb_spec s "") as [->|Hne]; [reflexivity|].
  by apply getVerdictStyle_unfold.
Qed.

(** C3, as amended. The verdict is a nullable free-form string. The
    verdict style classifies it without regard to case: a verdict that
    contains no-go or nogo is red, and no other is; otherwise one that
    contains conditional is yellow, and no other is; otherwise one equal
    to go is green, and no other is; every other verdict, the missing and
    the empty one included, gets the gray default. So the documented
    values Go, Conditional Go and No-Go are green, yellow and red, and of
    the five enumeration names Go is green, ConditionalGo yellow, NoGo
    and StrongNoGo red, and StrongGo gray. The report page uses the same
    colours. *)
Theorem getVerdictStyle_classes (verdict : option string) :
  getVerdictStyle verdict ∈ [red; yellow; green; gray]
  ∧ (¬ JS.truthy verdict → getVerdictStyle verdict = gray)
  ∧ (∀ s, verdict = Some s →
       (JS.includes (JS.toLowerCase s) "no-go" = true
        ∨ JS.includes (JS.toLowerCase s) "nogo" = true →
        getVerdictStyle verdict = red)
       ∧ (JS.toLowerCase s = "go" → getVerdictStyle verdict = green)
       ∧ (getVerdictStyle verdict = green → JS.toLowerCase s = "go"))
  ∧ (∀ s, verdict = Some s →
       let low := JS.toLowerCase s in
       let nogo := Text.contains low "no-go" ∨ Text.contains low "nogo" in
       (getVerdictStyle verdict = red ↔ nogo)
       ∧ (getVerdictStyle verdict = yellow
          ↔ ¬ nogo ∧ Text.contains low "conditional")
       ∧ (getVerdictStyle verdict = green ↔ low = "go")
       ∧ (getVerdictStyle verdict = gray
          ↔ ¬ nogo ∧ ¬ Text.contains low "conditional" ∧ low ≠ "go"))
  ∧ getVerdictStyle <$> (Some <$> Verdict.documented) = [green; yellow; red]
  ∧ getVerdictStyle <$> (Some <$> Verdict.enum_names)
      = [gray; green; yellow; red; red]
  ∧ getVerdictStyle
      <$> (Some <$> ["Go (conditional)"; "Unconditional No-Go"; "Rejected";
                     "go!"; "GO"; ""])
      = [yellow; red; gray; gray; green; gray]
  ∧ bg (getVerdictStyle verdict) = ReportDetailPage.bg (ReportDetailPage.getVerdictStyle verdict)
  ∧ text (getVerdictStyle verdict) = ReportDetailPage.text (ReportDetailPage.getVerdictStyle verdict).
Proof.
  split; [|split; [|split; [|split; [|split; [|split; [|split; [|split]]]]]]].
  - unfold getVerdictStyle.
    repeat match goal with |- context [if ?b then _ else _] => destruct b end;
      set_solver.
  - unfold getVerdictStyle. by destruct (JS.truthy verdict).
  - intros s ->. split; [|split].
    + intros Hinc. assert (Hne : s ≠ "").
      { intros ->. by destruct Hinc. }
      rewrite getVerdictStyle_unfold by done.
      destruct Hinc as [-> | ->]; [done|]. by rewrite orb_true_r.
    + intros Hgo. assert (Hne : s ≠ "").
      { apply toLowerCase_nonempty. by rewrite Hgo. }
      rewrite getVerdictStyle_unfold by done. by rewrite Hgo.
    + unfold getVerdictStyle.
      repeat match goal with |- context [if ?b then _ else _] => destruct b eqn:? end;
        try discriminate.
      intros _. by apply String.eqb_eq.
  - intros s -> low nogo. subst nogo.
    rewrite getVerdictStyle_cascade. fold low.
    rewrite <- !includes_spec.
    assert (Hgo : low = "go" →
      JS.includes low "no-go" = false ∧ JS.includes low "nogo" = false
      ∧ JS.includes low "conditional" = false).
    { by intros ->. }
    destruct (JS.includes low "no-go") eqn:H1;
      destruct (JS.includes low "nogo") eqn:H2;
      destruct (JS.includes low "conditional") eqn:H3;
      destruct (String.eqb_spec low "go") as [H4|H4]; simpl;
      try (destruct (Hgo H4) as (? & ? & ?); congruence);
      repeat split; try done; try tauto; try (intros; exfalso; tauto);
      try (intros [[?|?] ?]; done); try (intros [? ?]; done);
      try (intros (? & ? & ?); done); try (intros [?|?]; done);
      try (intros _ [?|?]; done); auto.
  - reflexivity.
  - reflexivity.
  - reflexivity.
  - unfold getVerdictStyle, ReportDetailPage.getVerdictStyle.
    repeat match goal with |- context [if ?b then _ else _] => destruct b end;
      reflexivity.
  - unfold getVerdictStyle, ReportDetailPage.getVerdictStyle.
    repeat match goal with |- context [if ?b then _ else _] => destruct b end;
      reflexivity.
Qed.

(** The reports list recognises five spellings of its own, and shares
    one of them with the verdict style. *)
Lemma getVerdictLabel_recognised (v : string) :
  Verdict.label_recognises (Some v) = true ↔
  v ∈ ["STRONG_YES"; "YES"; "CONDITIONAL"; "NO"; "STRONG_NO"].
Proof.
  unfold Verdict.label_recognises, ReportsPage.getVerdictLabel, ReportsPage.equals.
  rewrite !elem_of_cons, elem_of_nil.
  repeat match goal with
         | |- context [String.eqb v ?c] => destruct (String.eqb_spec v c)
         end; simpl; try (split; [auto 10|reflexivity]).
  split; [discriminate|]. intuition congruence.
Qed.

(** No score the column can hold reaches the yellow or green threshold of
    the reports list. *)
Lemma scoreClass_storable (total_score : Z) :
  -999 ≤ total_score ≤ 999 → ReportsPage.scoreClass total_score = "text-red-600".
Proof.
  intros H. unfold ReportsPage.scoreClass.
  destruct (Z.leb_spec 7000 total_score); [lia|].
  destruct (Z.leb_spec 5000 total_score); [lia|]. reflexivity.
Qed.

(** C4. The reports list colours a total score by the thresholds 70 and
    50, a scale of 0 to 100: the highest score of the documented range,
    5.00, is shown in red, while the company page shows the same score
    out of 5.0. *)
Theorem scoreBadge_full_score_red :
  ReportsPage.scoreBadge
    (Samples.report 3 (Some 1) (Some "Go") (Some 500) true 30)
  = Some "text-red-600".
Proof. reflexivity. Qed.
End VerdictFacts.

(** ** Revalidation endpoint *)

Section RevalidateFacts.
Variable secret : string.
Variable throws : JS.Json → bool.
Variable now : string.

Lemma POST_unauthorized request :
  Http.secret_header request ≠ Some secret →
  Revalidate.POST secret throws now request [] = ([], Some Http.invalid_secret).
Proof.
  intros H. unfold Revalidate.POST. by rewrite bool_decide_eq_false_2.
Qed.

Lemma POST_edge_unauthorized request :
  Http.secret_header request ≠ Some secret →
  RevalidateEdge.POST secret now request [] = ([], Some Http.invalid_secret).
Proof.
  intros H. unfold RevalidateEdge.POST. by rewrite bool_decide_eq_false_2.
Qed.

Lemma POST_authorized request body :
  Http.secret_header request = Some secret →
  Http.json request = Some body → body ≠ JS.JNull →
  (∀ p, throws p = false) →
  let path := Http.or_root (JS.member body "path") in
  Revalidate.POST secret throws now request [] =
    (path :: (if Http.is_root path then Revalidate.related_paths else []),
     Some (Http.ok (JS.JObject [("revalidated", JS.JBool true);
                                ("path", path);
                                ("timestamp", JS.JString now)]))).
Proof.
  intros Hs Hb Hn Ht path. unfold Revalidate.POST.
  rewrite bool_decide_eq_true_2 by done. simpl.
  unfold Eff.try_catch, mbind, eff_bind, Eff.bind, Http.request_json.
  rewrite Hb. unfold Eff.ret at 1.
  assert (Hp : Http.get_path body [] = ([], Some (JS.member body "path"))).
  { by destruct body. }
  rewrite Hp. fold path. unfold Revalidate.revalidatePath at 1.
  rewrite Ht. simpl.
  destruct (Http.is_root path); simpl; [|done].
  unfold Revalidate.revalidatePath. by rewrite !Ht.
Qed.

Lemma POST_bad_body request :
  Http.secret_header request = Some secret →
  Http.json request = None ∨ Http.json request = Some JS.JNull →
  Revalidate.POST secret throws now request [] = ([], Some Http.revalidation_failed).
Proof.
  intros Hs Hb. unfold Revalidate.POST.
  rewrite bool_decide_eq_true_2 by done. simpl.
  unfold Eff.try_catch, mbind, eff_bind, Eff.bind, Http.request_json.
  by destruct Hb as [-> | ->].
Qed.
End RevalidateFacts.

(** C8, counterexample. A request that carries the configured secret and
    a body that is not JSON is answered with status 500, and no path is
    revalidated. *)
Lemma POST_authorized_without_json_body :
  let request := {| Http.secret_header := Some "s3cret"; Http.json := None |} in
  Http.secret_header request = Some "s3cret"
  ∧ Revalidate.POST "s3cret" (λ _, false) "2026-01-01T00:00:00.000Z" request []
    = ([], Some Http.revalidation_failed).
Proof. split; reflexivity. Qed.

(** C8, as amended. A request whose secret header differs from the
    configured secret is answered 401 with error Invalid secret, by both
    handlers, and nothing is revalidated. For a request with the right
    secret whose body parses to a JSON value other than null, and with
    [revalidatePath] returning normally, the Node handler revalidates the
    body's path, or / when that is missing or falsy, and for / also
    /jobs, /companies, /trends and /roadmap, in this order, and answers
    200. A request with the right secret whose body does not parse, or is
    null, is answered 500 and nothing is revalidated. *)
Theorem revalidate_POST_contract
    (secret now : string) (throws : JS.Json → bool) (request : Http.Request) :
  (Http.secret_header request ≠ Some secret →
     Revalidate.POST secret throws now request [] = ([], Some Http.invalid_secret)
     ∧ RevalidateEdge.POST secret now request [] = ([], Some Http.invalid_secret))
  ∧ (Http.secret_header request = Some secret →
     ∀ body, Http.json request = Some body → body ≠ JS.JNull →
       (∀ p, throws p = false) →
       let path := Http.or_root (JS.member body "path") in
       Revalidate.POST secret throws now request [] =
         (path :: (if Http.is_root path then Revalidate.related_paths else []),
          Some (Http.ok (JS.JObject [("revalidated", JS.JBool true);
                                     ("path", path);
                                     ("timestamp", JS.JString now)]))))
  ∧ (Http.secret_header request = Some secret →
     Http.json request = None ∨ Http.json request = Some JS.JNull →
     Revalidate.POST secret throws now request []
       = ([], Some Http.revalidation_failed)).
Proof.
  split; [|split].
  - intros H. split; [by apply POST_unauthorized|by apply POST_edge_unauthorized].
  - intros Hs body Hb Hn Ht. by apply POST_authorized.
  - intros Hs Hb. by apply POST_bad_body.
Qed.

(** A request for the root with the right secret. *)
Lemma revalidate_POST_contract_witness :
  Revalidate.POST "s3cret" (λ _, false) "2026-01-01T00:00:00.000Z"
    {| Http.secret_header := Some "s3cret";
       Http.json := Some (JS.JObject [("path", JS.JString "/")]) |} []
  = (JS.JString "/" :: Revalidate.related_paths,
     Some (Http.ok (JS.JObject [("revalidated", JS.JBool true);
                                ("path", JS.JString "/");
                                ("timestamp", JS.JString "2026-01-01T00:00:00.000Z")]))).
Proof.
  apply (proj1 (proj2 (revalidate_POST_contract "s3cret" "2026-01-01T00:00:00.000Z"
           (λ _, false)
           {| Http.secret_header := Some "s3cret";
              Http.json := Some (JS.JObject [("path", JS.JString "/")]) |}))
         eq_refl (JS.JObject [("path", JS.JString "/")]) eq_refl).
  - discriminate.
  - reflexivity.
Defined.

(** ** Failed queries *)

Section FetchFacts.
Variable supabase : Supabase.Client.
Variable Number : option string → option Z.
Variable ilike : string → string → bool.
Variable today : Z.
Variable parseInt : string → option Z.

Lemma getJobs_error params :
  is_Some (Supabase.error (supabase _ (JobsPage.query Number ilike today params))) →
  JobsPage.getJobs Number ilike today supabase params
    = {| JobsPage.jobs := []; JobsPage.count := 0 |}.
Proof. intros [e He]. unfold JobsPage.getJobs. by rewrite He. Qed.

Lemma getReports_error params :
  is_Some (Supabase.error (supabase _ (ReportsPage.query Number params))) →
  ReportsPage.getReports Number supabase params
    = {| ReportsPage.reports := []; ReportsPage.count := 0 |}.
Proof. intros [e He]. unfold ReportsPage.getReports. by rewrite He. Qed.

Lemma getCompanies_error :
  is_Some (Supabase.error (supabase _ CompaniesPage.query)) →
  CompaniesPage.getCompanies supabase = [].
Proof. intros [e He]. unfold CompaniesPage.getCompanies. by rewrite He. Qed.

Lemma getCompanyReports_error companyId :
  is_Some (Supabase.error (supabase _ (CompanyDetailPage.reports_query companyId))) →
  CompanyDetailPage.getCompanyReports supabase companyId = [].
Proof. intros [e He]. unfold CompanyDetailPage.getCompanyReports. by rewrite He. Qed.
End FetchFacts.

(** C9. When the query of a list fetcher fails, the fetcher returns the
    empty result: no jobs and a count of 0, no reports and a count of 0,
    no companies, no reports of the company. The page then shows its
    empty state; the company page does so for its reports section, given
    that the company itself was found. *)
Theorem fetch_error_gives_empty_result
    (supabase : Supabase.Client)
    (Number : option string → option Z) (ilike : string → string → bool)
    (today : Z) (parseInt : string → option Z)
    (jobs : JobsPage.Params) (reports : ReportsPage.Params)
    (id : string) (companyId : Z) :
  (is_Some (Supabase.error (supabase _ (JobsPage.query Number ilike today jobs))) →
     JobsPage.getJobs Number ilike today supabase jobs
       = {| JobsPage.jobs := []; JobsPage.count := 0 |}
     ∧ JobsPage.JobsPage Number ilike today supabase jobs
       = {| UI.total := 0; UI.body := UI.EmptyState; UI.totalPages := 0 |})
  ∧ (is_Some (Supabase.error (supabase _ (ReportsPage.query Number reports))) →
     ReportsPage.getReports Number supabase reports
       = {| ReportsPage.reports := []; ReportsPage.count := 0 |}
     ∧ ReportsPage.ReportsPage Number supabase reports
       = {| UI.total := 0; UI.body := UI.EmptyState; UI.totalPages := 0 |})
  ∧ (is_Some (Supabase.error (supabase _ CompaniesPage.query)) →
     CompaniesPage.getCompanies supabase = []
     ∧ CompaniesPage.CompaniesPage supabase = UI.EmptyState)
  ∧ (is_Some (Supabase.error
                (supabase _ (CompanyDetailPage.reports_query companyId))) →
     CompanyDetailPage.getCompanyReports supabase companyId = []
     ∧ ∀ company,
         parseInt id = Some companyId →
         CompanyDetailPage.getCompany supabase companyId = Some company →
         CompanyDetailPage.CompanyDetailPage parseInt supabase id
           = CompanyDetailPage.Detail company UI.EmptyState
               (UI.listing (CompanyDetailPage.getCompanyJobs supabase companyId))).
Proof.
  split; [|split; [|split]].
  - intros He. pose proof (getJobs_error supabase Number ilike today jobs He) as Hg.
    split; [done|]. unfold JobsPage.JobsPage. by rewrite Hg.
  - intros He. pose proof (getReports_error supabase Number reports He) as Hg.
    split; [done|]. unfold ReportsPage.ReportsPage. by rewrite Hg.
  - intros He. pose proof (getCompanies_error supabase He) as Hg.
    split; [done|]. unfold CompaniesPage.CompaniesPage. by rewrite Hg.
  - intros He. pose proof (getCompanyReports_error supabase companyId He) as Hg.
    split; [done|]. intros company Hid Hc.
    unfold CompanyDetailPage.CompanyDetailPage. by rewrite Hid, Hc, Hg.
Qed.

(** A database without the reports table: the company page of Acme shows
    the company and the empty state of its reports section. *)
Lemma fetch_error_gives_empty_result_witness :
  CompanyDetailPage.getCompanyReports
    (Supabase.server_without ["company_reports"] Samples.db) 1 = []
  ∧ CompanyDetailPage.CompanyDetailPage (λ _, Some 1)
      (Supabase.server_without ["company_reports"] Samples.db) "1"
    = CompanyDetailPage.Detail Samples.acme UI.EmptyState UI.EmptyState.
Proof.
  destruct (proj2 (proj2 (proj2
    (fetch_error_gives_empty_result
       (Supabase.server_without ["company_reports"] Samples.db)
       (λ _, None) (λ _ _, false) 0 (λ _, Some 1)
       {| JobsPage.keyword := None; JobsPage.site := None;
          JobsPage.page := None; JobsPage.status := None |}
       {| ReportsPage.page := None |} "1" 1)))) as [Hr Hp].
  - vm_compute. eauto.
  - split; [exact Hr|]. apply (Hp Samples.acme); reflexivity.
Defined.

(** ** The report pipeline *)

Section WeightsFacts.
Import Pipeline.

Lemma valid_weights_spec (w : PriorityWeights) :
  valid_weights w = true ↔ Forall (λ aw, 0 ≤ aw.2) w ∧ weights_total w = 100.
Proof.
  unfold valid_weights. rewrite andb_true_iff, Z.eqb_eq, forallb_forall, Forall_forall.
  split; intros [Hn Ht]; (split; [|done]); intros aw Haw.
  - apply Z.leb_le, Hn. by apply list_elem_of_In.
  - apply Z.leb_le, Hn. by apply list_elem_of_In.
Qed.

Lemma accept_weights_rejects (w : PriorityWeights) :
  weights_total w ≠ 100 → accept_weights w = Err InvalidWeights.
Proof.
  intros Ht. unfold accept_weights.
  destruct (valid_weights w) eqn:Hv; [|done].
  apply valid_weights_spec in Hv as [_ ?]. done.
Qed.

Lemma accept_weights_invalid (w : PriorityWeights) :
  weights_total w ≠ 100 ∨ Exists (λ aw, aw.2 < 0) w →
  accept_weights w = Err InvalidWeights.
Proof.
  intros Hbad. unfold accept_weights.
  destruct (valid_weights w) eqn:Hv; [|done].
  apply valid_weights_spec in Hv as [Hn Ht].
  destruct Hbad as [?|Hneg]; [done|].
  apply Exists_exists in Hneg as (aw & Haw & Hlt).
  rewrite Forall_forall in Hn. specialize (Hn aw Haw). lia.
Qed.

Lemma issue_rejects_weights cfg parts db now request st w :
  weights request = Some w → weights_total w ≠ 100 →
  ∃ e fallback, issue cfg parts db now request st = (Failure e fallback, st).
Proof.
  intros Hw Ht. unfold issue.
  destruct (aggregate db (company request)); [|eauto].
  unfold resolve_weights. rewrite Hw. simpl.
  rewrite accept_weights_rejects by done. eauto.
Qed.

Lemma issue_rejects_invalid_weights cfg parts db now request st w :
  weights request = Some w →
  weights_total w ≠ 100 ∨ Exists (λ aw, aw.2 < 0) w →
  ∃ e fallback, issue cfg parts db now request st = (Failure e fallback, st).
Proof.
  intros Hw Hbad. unfold issue.
  destruct (aggregate db (company request)); [|eauto].
  unfold resolve_weights. rewrite Hw. simpl.
  rewrite accept_weights_invalid by done. eauto.
Qed.

(** A request that changes the state (a provider call, a stored report)
    has passed the validation of its weights, and a report it stores
    carries them. *)
Lemma issue_uses_valid_weights cfg parts db now request st :
  (issue cfg parts db now request st).2 ≠ st →
  let w := default (default_weights cfg) (weights request) in
  valid_weights w = true
  ∧ ∀ r, report_in (issue cfg parts db now request st).1 = Some r →
         CompanyReport.priority_weights r = Some (weights_json w).
Proof.
  unfold issue, resolve_weights, accept_weights.
  destruct (aggregate db (company request)) as [b|e]; [|done].
  destruct (valid_weights (default (default_weights cfg) (weights request)))
    eqn:Hv; [|done].
  destruct (build_context parts b _ (applicant_profile request)) as [ctx|e];
    [|done].
  assert (Hre : ∀ key,
    (regenerate cfg parts now request b
       (default (default_weights cfg) (weights request)) ctx key st).2 ≠ st →
    ∀ r, report_in (regenerate cfg parts now request b
           (default (default_weights cfg) (weights request)) ctx key st).1
         = Some r →
         CompanyReport.priority_weights r
         = Some (weights_json (default (default_weights cfg) (weights request)))).
  { intros key _ r. unfold regenerate.
    destruct (generate _ _ _ _) as [[draft|e] calls]; simpl; [|done].
    by destruct (bool_decide _); simpl; intros [= <-]. }
  destruct (bypass_cache request).
  - intros Hst. cbv zeta. split; [done|]. by apply Hre.
  - destruct (lookup now _ (reports st)) as [hit|]; [done|].
    intros Hst. cbv zeta. split; [done|]. by apply Hre.
Qed.

(** C6. Weights the system accepts are non-negative and sum to exactly
    100, whether the caller gave them or omitted them: valid custom
    weights are accepted as they are; custom weights that do not sum to
    100, or with a negative weight, are rejected, and a request that
    carries them is refused without any change of state; when the caller
    omits the weights the default weights are supplied, and accepted
    exactly when they keep the invariant themselves. No request reaches
    the provider or the store with other weights: a request that changes
    the state has weights, its own or the defaults, that sum to 100, and
    a report stored for it carries them. *)
Theorem accepted_weights_sum_to_100
    (cfg : Config) (custom : option PriorityWeights) (w : PriorityWeights) :
  (resolve_weights cfg custom = Ok w →
     Forall (λ aw, 0 ≤ aw.2) w ∧ weights_total w = 100
     ∧ w = default (default_weights cfg) custom)
  ∧ (Forall (λ aw, 0 ≤ aw.2) w → weights_total w = 100 →
     resolve_weights cfg (Some w) = Ok w)
  ∧ (∀ w', weights_total w' ≠ 100 ∨ Exists (λ aw, aw.2 < 0) w' →
       resolve_weights cfg (Some w') = Err InvalidWeights
       ∧ ∀ parts db now request st,
           weights request = Some w' →
           ∃ e fallback,
             issue cfg parts db now request st = (Failure e fallback, st))
  ∧ (resolve_weights cfg None = Ok (default_weights cfg)
     ↔ Forall (λ aw, 0 ≤ aw.2) (default_weights cfg)
       ∧ weights_total (default_weights cfg) = 100)
  ∧ (∀ parts db now request st,
       (issue cfg parts db now request st).2 ≠ st →
       let used := default (default_weights cfg) (weights request) in
       Forall (λ aw, 0 ≤ aw.2) used ∧ weights_total used = 100
       ∧ ∀ r, report_in (issue cfg parts db now request st).1 = Some r →
              CompanyReport.priority_weights r = Some (weights_json used)).
Proof.
  split; [|split; [|split; [|split]]].
  - unfold resolve_weights, accept_weights.
    destruct (valid_weights _) eqn:Hv; [|done]. intros [= <-].
    apply valid_weights_spec in Hv as [? ?]. done.
  - intros Hn Ht. unfold resolve_weights, accept_weights. simpl.
    by rewrite (proj2 (valid_weights_spec w)).
  - intros w' Hbad. split; [by apply accept_weights_invalid|].
    intros parts db now request st Hw. by eapply issue_rejects_invalid_weights.
  - unfold resolve_weights, accept_weights. simpl.
    rewrite <- valid_weights_spec.
    by destruct (valid_weights (default_weights cfg)).
  - intros parts db now request st Hst used.
    destruct (issue_uses_valid_weights cfg parts db now request st Hst)
      as [Hv Hr].
    apply valid_weights_spec in Hv as [? ?]. done.
Qed.
End WeightsFacts.

(** The weights of the command-line example are accepted. *)
Lemma accepted_weights_sum_to_100_witness :
  Forall (λ aw : string * Z, 0 ≤ aw.2) Samples.weights
  ∧ Pipeline.weights_total Samples.weights = 100.
Proof.
  destruct (proj1 (accepted_weights_sum_to_100 Samples.cfg (Some Samples.weights)
                     Samples.weights) eq_refl) as (Hn & Ht & _).
  split; [exact Hn|exact Ht].
Defined.

Section AggregateFacts.
Import Pipeline.








End AggregateFacts.


Section StoreFacts.
Import Pipeline.

Lemma holds_key_without_key key r : holds_key key (without_key r) = false.
Proof. unfold holds_key. by apply bool_decide_eq_false_2. Qed.

Lemma find_release key rows : List.find (holds_key key) (release key rows) = None.
Proof.
  unfold release. induction rows as [|r rows IH]; csimpl; [done|].
  destruct (holds_key key r) eqn:Hr.
  - by rewrite holds_key_without_key.
  - by rewrite Hr.
Qed.

Lemma find_app_None {A} (f : A → bool) l1 l2 :
  List.find f l1 = None → List.find f (l1 ++ l2) = List.find f l2.
Proof.
  induction l1 as [|x l1 IH]; simpl; [done|].
  destruct (f x); [done|]. apply IH.
Qed.

Lemma byCacheKey_store key r rows :
  CompanyReport.cache_key r = Some key →
  byCacheKey key (store r rows) = Some r.
Proof.
  intros Hk. unfold byCacheKey, store. rewrite Hk.
  rewrite find_app_None by apply find_release.
  simpl. unfold holds_key. by rewrite bool_decide_eq_true_2.
Qed.

Lemma release_keys key rows :
  omap CompanyReport.cache_key (release key rows)
  = List.filter (λ k, negb (String.eqb k key)) (omap CompanyReport.cache_key rows).
Proof.
  unfold release. induction rows as [|r rows IH]; csimpl; [done|].
  unfold holds_key at 1. case_bool_decide as Hr.
  - simpl. rewrite Hr. simpl. rewrite String.eqb_refl. simpl. apply IH.
  - destruct (CompanyReport.cache_key r) as [k|] eqn:Hk; simpl; [|apply IH].
    destruct (String.eqb_spec k key) as [->|Hne]; [done|].
    simpl. by rewrite IH.
Qed.

Lemma unique_keys_store r rows :
  unique_keys rows → unique_keys (store r rows).
Proof.
  unfold unique_keys, store. intros Hu.
  destruct (CompanyReport.cache_key r) as [key|] eqn:Hk.
  - rewrite omap_app. simpl. rewrite Hk. simpl.
    rewrite release_keys. apply NoDup_app. split; [|split].
    + apply NoDup_ListNoDup, List.NoDup_filter, NoDup_ListNoDup, Hu.
    + intros k Hin ->%list_elem_of_singleton.
      apply list_elem_of_In, filter_In in Hin as [_ Hne].
      by rewrite String.eqb_refl in Hne.
    + apply NoDup_singleton.
  - rewrite omap_app. simpl. rewrite Hk. simpl. by rewrite app_nil_r.
Qed.

Lemma release_keeps key rows r0 :
  r0 ∈ rows → (if holds_key key r0 then without_key r0 else r0) ∈ release key rows.
Proof.
  intros Hin. unfold release.
  by apply (list_elem_of_fmap_2 (λ r, if holds_key key r then without_key r else r)).
Qed.

Lemma release_ids_below key rows n :
  Forall (λ r, CompanyReport.id r < n) rows →
  Forall (λ r, CompanyReport.id r < n) (release key rows).
Proof.
  intros H. unfold release. apply Forall_fmap.
  eapply Forall_impl; [exact H|]. intros r Hr. simpl.
  by destruct (holds_key key r).
Qed.

Lemma byId_fresh st :
  ids_issued st → byId (next_id st) (reports st) = None.
Proof.
  unfold ids_issued, byId. intros Hall.
  induction Hall as [|r rows Hr Hall IH]; simpl; [done|].
  destruct (Z.eqb_spec (CompanyReport.id r) (next_id st)); [lia|done].
Qed.
End StoreFacts.

Section GenerationFacts.
Import Pipeline.
Variable cfg : Config.
Variable parts : Components.

Lemma attempt_calls fuel : ∀ parse_left transient_left calls prompt,
  (calls ≤ (attempt parts fuel parse_left transient_left calls prompt).2)%nat.
Proof.
  induction fuel as [|fuel IH]; intros p t calls prompt; simpl; [lia|].
  destruct (provider parts calls prompt) as [raw| |]; simpl.
  - destruct (parse parts raw); simpl; [lia|].
    destruct p as [|p]; simpl; [lia|].
    specialize (IH p t (S calls) prompt). lia.
  - destruct t as [|t]; simpl; [lia|].
    specialize (IH p t (S calls) prompt). lia.
  - lia.
Qed.

Lemma attempt_round fuel parse_left transient_left calls prompt :
  attempt parts (S fuel) parse_left transient_left calls prompt =
  match provider parts calls prompt with
  | Fatal => (Err ProviderFatalError, S calls)
  | Transient =>
      match transient_left with
      | O => (Err GenerationFailed, S calls)
      | S budget => attempt parts fuel parse_left budget (S calls) prompt
      end
  | Text raw =>
      match parse parts raw with
      | Some draft => (Ok draft, S calls)
      | None =>
          match parse_left with
          | O => (Err ResponseParseError, S calls)
          | S budget => attempt parts fuel budget transient_left (S calls) prompt
          end
      end
  end.
Proof. reflexivity. Qed.

(** Generation makes at least one provider call. *)
Lemma generate_calls calls prompt :
  (calls < (generate cfg parts calls prompt).2)%nat.
Proof.
  unfold generate. rewrite attempt_round.
  destruct (provider parts calls prompt) as [raw| |]; [| |simpl; lia].
  - destruct (parse parts raw); [simpl; lia|].
    destruct (parse_retries cfg) as [|p]; [simpl; lia|].
    match goal with
    | |- context [attempt parts ?f ?p ?t ?c ?q] =>
        pose proof (attempt_calls f p t c q)
    end. lia.
  - destruct (transient_retries cfg) as [|t]; [simpl; lia|].
    match goal with
    | |- context [attempt parts ?f ?p ?t ?c ?q] =>
        pose proof (attempt_calls f p t c q)
    end. lia.
Qed.

(** The rounds [generate] allows are enough: more fuel changes nothing. *)
Lemma attempt_fuel fuel : ∀ fuel' parse_left transient_left calls prompt,
  (parse_left + transient_left < fuel)%nat →
  (parse_left + transient_left < fuel')%nat →
  attempt parts fuel parse_left transient_left calls prompt
  = attempt parts fuel' parse_left transient_left calls prompt.
Proof.
  induction fuel as [|fuel IH]; intros fuel' p t calls prompt Hf Hf'; [lia|].
  destruct fuel' as [|fuel']; [lia|]. simpl.
  destruct (provider parts calls prompt) as [raw| |]; [| |done].
  - destruct (parse parts raw); [done|].
    destruct p as [|p]; [done|]. apply IH; lia.
  - destruct t as [|t]; [done|]. apply IH; lia.
Qed.

(** A parsable first answer ends generation after one call. *)
Lemma generate_first_answer calls prompt raw draft :
  provider parts calls prompt = Text raw → parse parts raw = Some draft →
  generate cfg parts calls prompt = (Ok draft, S calls).
Proof. intros Hp Hd. unfold generate. simpl. by rewrite Hp, Hd. Qed.
End GenerationFacts.

Section CacheFacts.
Import Pipeline.
Variable cfg : Config.
Variable parts : Components.

Lemma lookup_spec now key rows r :
  lookup now key rows = Some r ↔
  byCacheKey key rows = Some r
  ∧ CompanyReport.quality_passed r = true
  ∧ ∃ expires, CompanyReport.cache_expires_at r = Some expires ∧ now < expires.
Proof.
  unfold lookup, fresh. destruct (byCacheKey key rows) as [r0|]; [|naive_solver].
  destruct (CompanyReport.quality_passed r0) eqn:Hq; simpl.
  - destruct (CompanyReport.cache_expires_at r0) as [e|] eqn:He.
    + destruct (Z.ltb_spec now e).
      * split; [intros [= <-]; eauto|]. by intros [[= ->] _].
      * split; [done|]. intros ([= <-] & _ & e' & He' & Hlt).
        rewrite He in He'. injection He' as <-. lia.
    + split; [done|]. intros ([= <-] & _ & e' & He' & _). congruence.
  - split; [done|]. intros ([= <-] & Hq' & _). congruence.
Qed.

Lemma lookup_hit now key rows r :
  byCacheKey key rows = Some r →
  CompanyReport.quality_passed r = true → fresh now r = true →
  lookup now key rows = Some r.
Proof. intros Hk Hq Hf. unfold lookup. by rewrite Hk, Hq, Hf. Qed.

Lemma lookup_found now key rows r :
  lookup now key rows = Some r →
  byCacheKey key rows = Some r ∧ CompanyReport.quality_passed r = true.
Proof. intros H. apply lookup_spec in H. naive_solver. Qed.

(** What regeneration leaves behind when it ends with a usable report. *)
Lemma regenerate_usable now request b w ctx key st r st' :
  regenerate cfg parts now request b w ctx key st = (Usable r, st') →
  byCacheKey key (reports st') = Some r
  ∧ CompanyReport.quality_passed r = true.
Proof.
  unfold regenerate.
  destruct (generate cfg parts (provider_calls st) (build_prompt parts ctx w))
    as [[draft|e] calls]; [|done].
  set (row := to_row cfg (next_id st) now request b w key draft
                (quality_gate parts draft b)).
  destruct (CompanyReport.quality_passed row) eqn:Hq; [|done].
  intros [= <- <-]. simpl. split; [|done]. by apply byCacheKey_store.
Qed.

(** What regeneration leaves behind whenever it yields a report. *)
Lemma regenerate_stores now request b w ctx key st r :
  report_in (regenerate cfg parts now request b w ctx key st).1 = Some r →
  CompanyReport.id r = next_id st
  ∧ CompanyReport.cache_key r = Some key
  ∧ reports (regenerate cfg parts now request b w ctx key st).2
    = store r (reports st)
  ∧ next_id (regenerate cfg parts now request b w ctx key st).2 = next_id st + 1.
Proof.
  unfold regenerate.
  destruct (generate cfg parts (provider_calls st) (build_prompt parts ctx w))
    as [[draft|e] calls]; [|done].
  set (row := to_row cfg (next_id st) now request b w key draft
                (quality_gate parts draft b)).
  destruct (CompanyReport.quality_passed row); simpl; by intros [= <-].
Qed.

Lemma regenerate_calls now request b w ctx key st :
  (provider_calls st
   < provider_calls (regenerate cfg parts now request b w ctx key st).2)%nat.
Proof.
  unfold regenerate.
  pose proof (generate_calls cfg parts (provider_calls st) (build_prompt parts ctx w)).
  destruct (generate cfg parts (provider_calls st) (build_prompt parts ctx w))
    as [[draft|e] calls]; simpl in *; lia.
Qed.
End CacheFacts.

(** C2, counterexample. The quality gate rejects what the provider
    returns: the report is stored under its key but not served, so the
    same request, issued again a minute later without bypass, calls the
    provider a second time and gets a report with another id. *)
Lemma cache_miss_after_rejected_report :
  let parts := Samples.parts ["no key risk"] in
  let request := Samples.request "Acme" false in
  let first := Pipeline.issue Samples.cfg parts Samples.db 0 request Samples.no_reports in
  let second := Pipeline.issue Samples.cfg parts Samples.db 60 request first.2 in
  Pipeline.provider_calls first.2 = 1%nat
  ∧ Pipeline.provider_calls second.2 = 2%nat
  ∧ CompanyReport.id <$> Pipeline.report_in first.1 = Some 1
  ∧ CompanyReport.id <$> Pipeline.report_in second.1 = Some 2.
Proof. vm_compute. done. Qed.

(** C2, as amended. When a request issued without bypass returns a usable
    report, the same request issued again while that report has not
    expired (same evidence, same configuration) returns the same report,
    and the state is unchanged: no provider call, nothing stored. The
    cache lookup returns a report exactly when one is recorded under the
    key, passed the quality gate, and has not expired. *)
Theorem cache_idempotence
    (cfg : Pipeline.Config) (parts : Pipeline.Components)
    (db : Supabase.Database) (t1 t2 : Z) (request : Pipeline.ReportRequest)
    (st st1 : Pipeline.State) (r : CompanyReport.Row) :
  Pipeline.bypass_cache request = false →
  Pipeline.issue cfg parts db t1 request st = (Pipeline.Usable r, st1) →
  Pipeline.fresh t2 r = true →
  Pipeline.issue cfg parts db t2 request st1 = (Pipeline.Usable r, st1)
  ∧ (∀ now key rows r',
       Pipeline.lookup now key rows = Some r' ↔
       Pipeline.byCacheKey key rows = Some r'
       ∧ CompanyReport.quality_passed r' = true
       ∧ ∃ expires, CompanyReport.cache_expires_at r' = Some expires
                    ∧ now < expires).
Proof.
  intros Hb H1 Hf. split; [|intros; apply lookup_spec].
  revert H1. unfold Pipeline.issue. rewrite Hb.
  destruct (Pipeline.aggregate db (Pipeline.company request)) as [b|e]; [|done].
  destruct (Pipeline.resolve_weights cfg (Pipeline.weights request)) as [w|e]; [|done].
  destruct (Pipeline.build_context parts b w (Pipeline.applicant_profile request))
    as [ctx|e]; [|done].
  set (key := Pipeline.cache_key_of parts _ _ _ _ _).
  destruct (Pipeline.lookup t1 key (Pipeline.reports st)) as [r0|] eqn:Hl.
  - intros [= -> ->].
    apply lookup_found in Hl as [Hk Hq].
    by rewrite (lookup_hit t2 key _ r Hk Hq Hf).
  - intros Hr. apply regenerate_usable in Hr as [Hk Hq].
    by rewrite (lookup_hit t2 key _ r Hk Hq Hf).
Qed.

(** A report generated at time 0 with a validity of seven days is served
    again a minute later. *)
Lemma cache_idempotence_witness :
  let request := Samples.request "Acme" false in
  let first :=
    Pipeline.issue Samples.cfg (Samples.parts []) Samples.db 0 request
      Samples.no_reports in
  Pipeline.issue Samples.cfg (Samples.parts []) Samples.db 60 request first.2
  = first.
Proof.
  intros request first.
  refine (proj1 (cache_idempotence Samples.cfg (Samples.parts []) Samples.db 0 60
                   request Samples.no_reports first.2
                   (default Samples.passing (Pipeline.report_in first.1))
                   eq_refl eq_refl eq_refl)).
Defined.

(** C5, counterexample. A request with bypass for a company that has no
    record in any source: aggregation fails, no provider call is made and
    no report is produced. *)
Lemma bypass_without_evidence_calls_no_provider :
  let request := Samples.request "Ghost" true in
  let out :=
    Pipeline.issue Samples.cfg (Samples.parts []) Samples.db 0 request
      Samples.no_reports in
  Pipeline.bypass_cache request = true
  ∧ Pipeline.provider_calls out.2 = Pipeline.provider_calls Samples.no_reports
  ∧ Pipeline.report_in out.1 = None.
Proof. vm_compute. done. Qed.

(** C5, as amended. A request with bypass whose evidence is aggregated,
    whose weights are accepted and whose context is built makes a new
    provider call whatever the cache holds. Whenever it yields a report
    (usable or not), the report has the next id of the sequence, which no
    stored report has; it is the report recorded under its cache key from
    then on; no key is held twice, so the unique constraint is kept; and
    every report stored before is still there, the previous holder of the
    key with its cache metadata cleared, the others as they were. *)
Theorem cache_bypass_regenerates
    (cfg : Pipeline.Config) (parts : Pipeline.Components)
    (db : Supabase.Database) (now : Z) (request : Pipeline.ReportRequest)
    (st : Pipeline.State) (b : Pipeline.EvidenceBundle)
    (w : Pipeline.PriorityWeights) (ctx : Pipeline.Context) :
  Pipeline.bypass_cache request = true →
  Pipeline.aggregate db (Pipeline.company request) = Pipeline.Ok b →
  Pipeline.resolve_weights cfg (Pipeline.weights request) = Pipeline.Ok w →
  Pipeline.build_context parts b w (Pipeline.applicant_profile request)
    = Pipeline.Ok ctx →
  Pipeline.ids_issued st →
  Pipeline.unique_keys (Pipeline.reports st) →
  let key := Pipeline.cache_key_of parts (Pipeline.company request)
               (Pipeline.job_posting_id request) w (Pipeline.fingerprint ctx)
               (Pipeline.report_version cfg) in
  let out := Pipeline.issue cfg parts db now request st in
  (Pipeline.provider_calls st < Pipeline.provider_calls out.2)%nat
  ∧ ∀ r, Pipeline.report_in out.1 = Some r →
      CompanyReport.id r = Pipeline.next_id st
      ∧ Pipeline.byId (CompanyReport.id r) (Pipeline.reports st) = None
      ∧ Pipeline.byCacheKey key (Pipeline.reports out.2) = Some r
      ∧ Pipeline.unique_keys (Pipeline.reports out.2)
      ∧ Pipeline.ids_issued out.2
      ∧ ∀ r0, r0 ∈ Pipeline.reports st →
          (if Pipeline.holds_key key r0 then Pipeline.without_key r0 else r0)
          ∈ Pipeline.reports out.2.
Proof.
  intros Hb Ha Hw Hc Hids Hu key out.
  assert (Hout : out = Pipeline.regenerate cfg parts now request b w ctx key st).
  { subst out. unfold Pipeline.issue. by rewrite Ha, Hw, Hc, Hb. }
  rewrite Hout. split; [apply regenerate_calls|].
  intros r Hr. apply regenerate_stores in Hr as (Hid & Hk & Hs & Hn).
  split; [done|]. split; [rewrite Hid; by apply byId_fresh|].
  rewrite Hs. split; [by apply byCacheKey_store|].
  split; [by apply unique_keys_store|]. split.
  - unfold Pipeline.ids_issued. rewrite Hs, Hn. unfold Pipeline.store. rewrite Hk.
    apply Forall_app. split.
    + apply release_ids_below.
      eapply Forall_impl; [exact Hids|]. simpl. intros; lia.
    + apply Forall_singleton. lia.
  - intros r0 Hr0. unfold Pipeline.store. rewrite Hk.
    apply elem_of_app. left. by apply release_keeps.
Qed.

(** Acme has a valid cached report; the request with bypass calls the
    provider again, and the new report takes over the cache key. *)
Lemma cache_bypass_regenerates_witness :
  let st1 :=
    (Pipeline.issue Samples.cfg (Samples.parts []) Samples.db 0
       (Samples.request "Acme" false) Samples.no_reports).2 in
  let out :=
    Pipeline.issue Samples.cfg (Samples.parts []) Samples.db 60
      (Samples.request "Acme" true) st1 in
  (Pipeline.provider_calls st1 < Pipeline.provider_calls out.2)%nat
  ∧ CompanyReport.id <$> Pipeline.report_in out.1 = Some 2
  ∧ CompanyReport.id <$> Pipeline.byCacheKey "f00dv4" (Pipeline.reports out.2)
    = Some 2
  ∧ CompanyReport.id <$> Pipeline.reports out.2 = [1; 2]
  ∧ CompanyReport.cache_key <$> Pipeline.reports out.2 = [None; Some "f00dv4"].
Proof.
  intros st1 out.
  assert (Hids : Pipeline.ids_issued st1).
  { repeat constructor. }
  assert (Hu : Pipeline.unique_keys (Pipeline.reports st1)).
  { apply (NoDup_singleton "f00dv4"). }
  destruct (cache_bypass_regenerates Samples.cfg (Samples.parts []) Samples.db 60
              (Samples.request "Acme" true) st1
              (Pipeline.collect Samples.db (Pipeline.ByName "Acme"))
              Samples.weights
              {| Pipeline.text := "context"; Pipeline.fingerprint := "f00d" |}
              eq_refl eq_refl eq_refl eq_refl Hids Hu) as [Hcalls _].
  split; [exact Hcalls|]. repeat split.
Defined.

(** * Further properties of the dashboard code *)

(** ** Revalidation endpoint: failures of [revalidatePath], the edge
       handler, and an unset secret *)

Section RevalidateTraceFacts.
Variable secret : string.
Variable throws : JS.Json → bool.
Variable now : string.

Lemma POST_trace request body :
  Http.secret_header request = Some secret →
  Http.json request = Some body → body ≠ JS.JNull →
  Revalidate.POST secret throws now request [] =
    let '(calls, returned) :=
      RevalidateTrace.until_throw throws (RevalidateTrace.requested body) in
    (calls,
     Some (if returned
           then Http.ok (JS.JObject
                  [("revalidated", JS.JBool true);
                   ("path", Http.or_root (JS.member body "path"));
                   ("timestamp", JS.JString now)])
           else Http.revalidation_failed)).
Proof.
  intros Hs Hb Hn. unfold Revalidate.POST, RevalidateTrace.requested.
  rewrite bool_decide_eq_true_2 by done. simpl.
  unfold Eff.try_catch, mbind, eff_bind, Eff.bind, Http.request_json.
  rewrite Hb. unfold Eff.ret at 1.
  assert (Hp : Http.get_path body [] = ([], Some (JS.member body "path"))).
  { by destruct body. }
  rewrite Hp. set (path := Http.or_root (JS.member body "path")).
  unfold Revalidate.revalidatePath at 1. simpl.
  destruct (throws path); [done|].
  destruct (Http.is_root path); simpl; [|done].
  unfold Revalidate.revalidatePath. simpl.
  destruct (throws (JS.JString "/jobs")); [done|].
  destruct (throws (JS.JString "/companies")); [done|].
  destruct (throws (JS.JString "/trends")); [done|].
  destruct (throws (JS.JString "/roadmap")); done.
Qed.
End RevalidateTraceFacts.

(** X1. For a request with the right secret and a JSON body other than
    null, the Node handler calls [revalidatePath] on the requested path
    and, for the root, on the related paths, in order, and stops at the
    first call that throws: the calls made before stay made, the later
    paths are skipped, and the answer is 500; when every call returns the
    answer is 200. *)
Theorem revalidate_POST_stops_at_first_throw
    (secret now : string) (throws : JS.Json → bool)
    (request : Http.Request) (body : JS.Json) :
  Http.secret_header request = Some secret →
  Http.json request = Some body → body ≠ JS.JNull →
  let run := Revalidate.POST secret throws now request [] in
  let trace :=
    RevalidateTrace.until_throw throws (RevalidateTrace.requested body) in
  run.1 = trace.1
  ∧ (trace.2 = true →
       run.1 = RevalidateTrace.requested body
       ∧ Http.status <$> run.2 = Some 200)
  ∧ (trace.2 = false →
       Http.status <$> run.2 = Some 500
       ∧ ∃ before path after,
           RevalidateTrace.requested body = before ++ path :: after
           ∧ run.1 = before ++ [path]
           ∧ throws path = true
           ∧ Forall (λ p, throws p = false) before).
Proof.
  intros Hs Hb Hn run trace. subst run trace.
  rewrite (POST_trace secret throws now request body Hs Hb Hn).
  generalize (RevalidateTrace.requested body). intros paths.
  assert (Hgen : ∀ l,
    let t := RevalidateTrace.until_throw throws l in
    (t.2 = true → t.1 = l)
    ∧ (t.2 = false → ∃ before path after,
         l = before ++ path :: after ∧ t.1 = before ++ [path]
         ∧ throws path = true ∧ Forall (λ p, throws p = false) before)).
  { induction l as [|p l IH]; simpl.
    - split; [done|discriminate].
    - destruct (throws p) eqn:Hp; simpl.
      + split; [discriminate|]. intros _. exists [], p, l. by repeat split.
      + destruct (RevalidateTrace.until_throw throws l) as [calls returned].
        simpl in *. destruct IH as [IH1 IH2]. split.
        * intros Hr. by rewrite IH1.
        * intros Hr. destruct (IH2 Hr) as (before & q & after & -> & -> & Hq & Hall).
          exists (p :: before), q, after. repeat split; [done|].
          by constructor. }
  specialize (Hgen paths). simpl in Hgen.
  destruct (RevalidateTrace.until_throw throws paths) as [calls returned].
  simpl in *. destruct Hgen as [H1 H2]. split; [done|]. split.
  - intros ->. split; [by apply H1|done].
  - intros ->. split; [done|]. by apply H2.
Qed.

(** A request for the root when [revalidatePath] throws on /companies:
    the root and /jobs are revalidated, /trends and /roadmap are not. *)
Lemma revalidate_POST_stops_at_first_throw_witness :
  let throws := λ p,
    match p with
    | JS.JString s => String.eqb s "/companies"
    | _ => false
    end in
  let request :=
    {| Http.secret_header := Some "s3cret";
       Http.json := Some (JS.JObject []) |} in
  (Revalidate.POST "s3cret" throws "t" request []).1
    = [JS.JString "/"; JS.JString "/jobs"; JS.JString "/companies"]
  ∧ Http.status <$> (Revalidate.POST "s3cret" throws "t" request []).2 = Some 500.
Proof.
  intros throws request.
  destruct (revalidate_POST_stops_at_first_throw "s3cret" "t" throws request
              (JS.JObject []) eq_refl eq_refl) as (H1 & _ & H3).
  - discriminate.
  - split; [exact H1|]. apply H3. reflexivity.
Defined.

Lemma json_null_cases (body : JS.Json) : body = JS.JNull ∨ body ≠ JS.JNull.
Proof. destruct body; (by left) || (by right). Qed.

(** X2. The edge handler never calls [revalidatePath], whatever the
    request; and when [revalidatePath] does not throw, it answers every
    request with the same status as the Node handler. *)
Theorem revalidate_edge_revalidates_nothing
    (secret now : string) (throws : JS.Json → bool) (request : Http.Request) :
  (RevalidateEdge.POST secret now request []).1 = []
  ∧ ((∀ p, throws p = false) →
     Http.status <$> (RevalidateEdge.POST secret now request []).2
     = Http.status <$> (Revalidate.POST secret throws now request []).2).
Proof.
  destruct (decide (Http.secret_header request = Some secret)) as [Hs|Hs].
  - destruct (Http.json request) as [body|] eqn:Hb.
    + destruct (json_null_cases body) as [->|Hn].
      * rewrite (POST_bad_body secret throws now request Hs) by eauto.
        unfold RevalidateEdge.POST. rewrite bool_decide_eq_true_2 by done.
        unfold Eff.try_catch, mbind, eff_bind, Eff.bind, Http.request_json.
        rewrite Hb. done.
      * split.
        -- unfold RevalidateEdge.POST. rewrite bool_decide_eq_true_2 by done.
           unfold Eff.try_catch, mbind, eff_bind, Eff.bind, Http.request_json.
           rewrite Hb. by destruct body.
        -- intros Ht. rewrite (POST_authorized secret throws now request body) by done.
           unfold RevalidateEdge.POST. rewrite bool_decide_eq_true_2 by done.
           unfold Eff.try_catch, mbind, eff_bind, Eff.bind, Http.request_json.
           rewrite Hb. by destruct body.
    + rewrite (POST_bad_body secret throws now request Hs) by eauto.
      unfold RevalidateEdge.POST. rewrite bool_decide_eq_true_2 by done.
      unfold Eff.try_catch, mbind, eff_bind, Eff.bind, Http.request_json.
      rewrite Hb. done.
  - rewrite (POST_unauthorized secret throws now request Hs).
    rewrite (POST_edge_unauthorized secret now request Hs). done.
Qed.

(** The edge handler on a request for the root. *)
Lemma revalidate_edge_revalidates_nothing_witness :
  Http.status <$>
    (RevalidateEdge.POST "s3cret" "t"
       {| Http.secret_header := Some "s3cret";
          Http.json := Some (JS.JObject [("path", JS.JString "/")]) |} []).2
  = Some 200.
Proof.
  rewrite (proj2 (revalidate_edge_revalidates_nothing "s3cret" "t" (λ _, false)
                    {| Http.secret_header := Some "s3cret";
                       Http.json := Some (JS.JObject [("path", JS.JString "/")]) |})
             (λ _, eq_refl)).
  reflexivity.
Defined.

(** X3. When REVALIDATE_SECRET is unset or empty, the configured secret
    is the empty string: a request whose secret header is present but
    empty passes the check (it is never answered 401), while a request
    without the header is answered 401 and revalidates nothing, whatever
    the configuration. *)
Theorem revalidate_unset_secret_accepts_empty_header
    (env : option string) (now : string) (throws : JS.Json → bool)
    (request : Http.Request) :
  JS.truthy env = false →
  let secret := Config.revalidateSecret env in
  (Http.secret_header request = Some "" →
     Http.status <$> (Revalidate.POST secret throws now request []).2 ≠ Some 401)
  ∧ (Http.secret_header request = None →
     Revalidate.POST secret throws now request [] = ([], Some Http.invalid_secret)).
Proof.
  intros He secret.
  assert (Hsecret : secret = "").
  { subst secret. unfold Config.revalidateSecret, JS.or_string.
    destruct env as [e|]; [|done]. simpl in He.
    by destruct (String.eqb e ""). }
  rewrite Hsecret. split.
  - intros Hh.
    destruct (Http.json request) as [body|] eqn:Hb.
    + destruct (json_null_cases body) as [->|Hn].
      * rewrite (POST_bad_body "" throws now request Hh) by eauto. done.
      * rewrite (POST_trace "" throws now request body Hh Hb Hn).
        destruct (RevalidateTrace.until_throw throws (RevalidateTrace.requested body))
          as [calls returned].
        by destruct returned.
    + rewrite (POST_bad_body "" throws now request Hh) by eauto. done.
  - intros Hh. apply POST_unauthorized. by rewrite Hh.
Qed.

(** With no secret configured, an empty header revalidates the root. *)
Lemma revalidate_unset_secret_accepts_empty_header_witness :
  Http.status <$>
    (Revalidate.POST (Config.revalidateSecret None) (λ _, false) "t"
       {| Http.secret_header := Some ""; Http.json := Some (JS.JObject []) |} []).2
  ≠ Some 401.
Proof.
  apply (proj1 (revalidate_unset_secret_accepts_empty_header None "t" (λ _, false)
                  {| Http.secret_header := Some "";
                     Http.json := Some (JS.JObject []) |} eq_refl)).
  reflexivity.
Defined.

(** ** Company analysis request *)

Section AnalyzeCompanyFacts.
Import AnalyzeCompany.
Variable GITHUB_TOKEN : option string.
Variable repo : string.
Variable github : JS.Json → option Reply.
Variable toString : JS.Json → string.

Abbreviation POST := (AnalyzeCompany.POST GITHUB_TOKEN repo github toString).

Lemma analyze_POST_bad_body request :
  Http.json request = None ∨ Http.json request = Some JS.JNull →
  POST request [] = ([], Some server_error).
Proof.
  intros Hb. unfold AnalyzeCompany.POST.
  unfold Eff.try_catch, mbind, eff_bind, Eff.bind, Http.request_json.
  by destruct Hb as [-> | ->].
Qed.

Lemma analyze_POST_body request body :
  Http.json request = Some body → body ≠ JS.JNull →
  POST request [] =
    let name := JS.member body "companyName" in
    if negb (truthy_property name) then ([], Some name_required)
    else if negb (JS.truthy GITHUB_TOKEN) then ([], Some token_missing)
    else
      let call := dispatch (default "" GITHUB_TOKEN) repo (default JS.JNull name) in
      match github call with
      | None => ([call], Some server_error)
      | Some r =>
          if negb (ok (status r)) then
            if constructible (status r)
            then ([call], Some {| Http.status := status r;
                                  Http.payload := request_failed (text r) |})
            else ([call], Some server_error)
          else
            ([call], Some (Http.ok (JS.JObject
               [("success", JS.JBool true);
                ("message",
                 JS.JString (requested toString (default JS.JNull name)));
                ("companyName", default JS.JNull name)])))
      end.
Proof.
  intros Hb Hn. unfold AnalyzeCompany.POST.
  unfold Eff.try_catch, mbind, eff_bind, Eff.bind, Http.request_json.
  rewrite Hb. unfold Eff.ret at 1.
  assert (Hp : property "companyName" body []
               = ([], Some (JS.member body "companyName"))).
  { by destruct body. }
  rewrite Hp. simpl.
  destruct (truthy_property (JS.member body "companyName")); simpl; [|done].
  destruct (JS.truthy GITHUB_TOKEN); simpl; [|done].
  unfold fetch. simpl.
  destruct (github _) as [r|]; [|done].
  destruct (ok (status r)); simpl; [done|].
  unfold respond. by destruct (constructible (status r)).
Qed.

Lemma analyze_POST_shape request :
  ∃ calls reply,
    POST request [] = (calls, Some reply)
    ∧ (calls = []
       ∨ JS.truthy GITHUB_TOKEN = true
         ∧ ∃ body name,
             Http.json request = Some body
             ∧ JS.member body "companyName" = Some name
             ∧ JS.truthy_json name = true
             ∧ calls = [dispatch (default "" GITHUB_TOKEN) repo name]).
Proof.
  destruct (Http.json request) as [body|] eqn:Hb.
  - destruct (json_null_cases body) as [->|Hn].
    + rewrite analyze_POST_bad_body by (right; by rewrite Hb). eauto.
    + rewrite (analyze_POST_body request body Hb Hn). simpl.
      destruct (JS.member body "companyName") as [name|] eqn:Hm; simpl; [|eauto].
      destruct (JS.truthy_json name) eqn:Hname; simpl; [|eauto].
      destruct (JS.truthy GITHUB_TOKEN) eqn:Htok; simpl; [|eauto].
      assert (Hcall : true = true ∧ ∃ body0 name0,
                Some body = Some body0
                ∧ JS.member body0 "companyName" = Some name0
                ∧ JS.truthy_json name0 = true
                ∧ [dispatch (default "" GITHUB_TOKEN) repo name]
                  = [dispatch (default "" GITHUB_TOKEN) repo name0]).
      { split; [done|]. exists body, name. by rewrite Hm. }
      destruct (github _) as [r|]; [|eauto].
      destruct (ok (status r)); simpl; [eauto|].
      destruct (constructible (status r)); eauto.
  - rewrite analyze_POST_bad_body by (by left). eauto.
Qed.
End AnalyzeCompanyFacts.

(** X4. The analysis route never throws, and it calls GitHub at most
    once, and only for a body whose companyName is truthy and with a
    token configured. A body other than null without a truthy companyName
    is answered 400, a missing token 500, and a body that is not JSON or
    is null 500; in these three cases GitHub is not called. *)
Theorem analyze_POST_dispatch_guard
    (GITHUB_TOKEN : option string) (repo : string)
    (github : JS.Json → option AnalyzeCompany.Reply)
    (toString : JS.Json → string) (request : Http.Request) :
  let run := AnalyzeCompany.POST GITHUB_TOKEN repo github toString request [] in
  is_Some run.2
  ∧ (length run.1 ≤ 1)%nat
  ∧ (∀ call, call ∈ run.1 →
       JS.truthy GITHUB_TOKEN = true
       ∧ ∃ body name,
           Http.json request = Some body
           ∧ JS.member body "companyName" = Some name
           ∧ JS.truthy_json name = true
           ∧ call = AnalyzeCompany.dispatch (default "" GITHUB_TOKEN) repo name)
  ∧ (∀ body, Http.json request = Some body → body ≠ JS.JNull →
       AnalyzeCompany.truthy_property (JS.member body "companyName") = false →
       run = ([], Some AnalyzeCompany.name_required))
  ∧ (∀ body, Http.json request = Some body → body ≠ JS.JNull →
       AnalyzeCompany.truthy_property (JS.member body "companyName") = true →
       JS.truthy GITHUB_TOKEN = false →
       run = ([], Some AnalyzeCompany.token_missing))
  ∧ (Http.json request = None ∨ Http.json request = Some JS.JNull →
       run = ([], Some AnalyzeCompany.server_error)).
Proof.
  intros run. subst run.
  destruct (analyze_POST_shape GITHUB_TOKEN repo github toString request)
    as (calls & reply & Hrun & Hcalls).
  split; [rewrite Hrun; eauto|].
  split; [rewrite Hrun; destruct Hcalls as [->|(? & ? & ? & ? & ? & ? & ->)]; simpl; lia|].
  split.
  - rewrite Hrun. simpl. intros call Hin.
    destruct Hcalls as [->|(Htok & body & name & Hb & Hm & Hname & ->)].
    + by apply elem_of_nil in Hin.
    + apply list_elem_of_singleton in Hin as ->. eauto 10.
  - split; [|split].
    + intros body Hb Hn Hf. rewrite (analyze_POST_body _ _ _ _ _ _ Hb Hn).
      simpl. by rewrite Hf.
    + intros body Hb Hn Ht Hk. rewrite (analyze_POST_body _ _ _ _ _ _ Hb Hn).
      simpl. by rewrite Ht, Hk.
    + apply analyze_POST_bad_body.
Qed.



(** ** The analysis button *)

Lemma handleAnalyze_cases
    (toString : JS.Json → string) (type_error : string)
    (companyId : option Z) (fetched : AnalyzeCompanyButton.Fetched) :
  (∃ status data,
     fetched = AnalyzeCompanyButton.Replied status data
     ∧ data ≠ JS.JNull ∧ AnalyzeCompany.ok status = true
     ∧ AnalyzeCompanyButton.handleAnalyze toString type_error companyId fetched
       = {| AnalyzeCompanyButton.isLoading := false;
            AnalyzeCompanyButton.message := JS.member data "message";
            AnalyzeCompanyButton.error := None;
            AnalyzeCompanyButton.scheduled :=
              Some (AnalyzeCompanyButton.target companyId) |})
  ∨ ((∀ status data,
        fetched = AnalyzeCompanyButton.Replied status data →
        data ≠ JS.JNull → AnalyzeCompany.ok status = false)
     ∧ ∃ reason,
         AnalyzeCompanyButton.handleAnalyze toString type_error companyId fetched
         = AnalyzeCompanyButton.failed reason).
Proof.
  destruct fetched as [reason|status reason|status data]; simpl.
  - right. split; [done|]. eauto.
  - right. split; [done|]. eauto.
  - destruct (json_null_cases data) as [->|Hn].
    + right. split; [by intros ? ? [= <- <-]|]. eauto.
    + destruct (AnalyzeCompany.ok status) eqn:Hok.
      * left. exists status, data. repeat split; [done..|]. by destruct data.
      * right. split; [by intros ? ? [= <- <-]|].
        destruct data; try done; simpl;
          repeat match goal with
                 | |- context [match ?x with _ => _ end] => destruct x
                 end; eauto.
Qed.

(** X6. When the click handler of the analysis button has finished, the
    button is no longer loading; a navigation is scheduled exactly when
    no error is shown, and that is exactly when the reply had an ok
    status and a JSON body other than null. The navigation goes to the
    company's page when the company id is present and not 0, and to the
    companies list otherwise. *)
Theorem handleAnalyze_outcome
    (toString : JS.Json → string) (type_error : string)
    (companyId : option Z) (fetched : AnalyzeCompanyButton.Fetched) :
  let st := AnalyzeCompanyButton.handleAnalyze toString type_error companyId fetched in
  AnalyzeCompanyButton.isLoading st = false
  ∧ (AnalyzeCompanyButton.error st = None
     ↔ AnalyzeCompanyButton.scheduled st
       = Some (AnalyzeCompanyButton.target companyId))
  ∧ (AnalyzeCompanyButton.error st ≠ None
     ↔ AnalyzeCompanyButton.scheduled st = None)
  ∧ (AnalyzeCompanyButton.error st = None
     ↔ ∃ status data,
         fetched = AnalyzeCompanyButton.Replied status data
         ∧ data ≠ JS.JNull ∧ AnalyzeCompany.ok status = true)
  ∧ (∀ id, AnalyzeCompanyButton.target companyId
           = AnalyzeCompanyButton.CompanyPage id
           ↔ companyId = Some id ∧ id ≠ 0).
Proof.
  intros st. subst st.
  assert (Htarget : ∀ id, AnalyzeCompanyButton.target companyId
            = AnalyzeCompanyButton.CompanyPage id
            ↔ companyId = Some id ∧ id ≠ 0).
  { intros id. unfold AnalyzeCompanyButton.target.
    destruct companyId as [[|p|p]|]; split; try done;
      solve [ intros [= <-]; split; [done|lia]
            | intros [[= <-] ?]; done
            | intros [[= ?] ?]; done ]. }
  destruct (handleAnalyze_cases toString type_error companyId fetched)
    as [(status & data & -> & Hn & Hok & ->)|(Hno & reason & ->)]; simpl.
  - split; [done|]. split; [done|]. split; [done|].
    split; [|done]. split; [intros _; eauto|done].
  - split; [done|]. split; [done|]. split; [done|].
    split; [|done]. split; [done|].
    intros (status & data & -> & Hn & Hok).
    rewrite (Hno status data eq_refl Hn) in Hok. discriminate.
Qed.

(** X7. A click on the analysis button, answered by the analysis route.
    For an empty company name the button shows the route's text for a
    missing name, and GitHub is not called; so it is, with the text for
    the missing token, when no token is configured. Otherwise GitHub is
    called once, for that company name: when it accepts, the button shows
    the route's message for the company and schedules the navigation;
    when it refuses or cannot be reached, the button shows an error and
    schedules none. *)
Theorem click_shows_route_answer
    (GITHUB_TOKEN : option string) (repo : string)
    (github : JS.Json → option AnalyzeCompany.Reply)
    (toString : JS.Json → string) (type_error : string)
    (companyName : string) (companyId : option Z) :
  let run :=
    AnalyzeCompanyButton.click GITHUB_TOKEN repo github toString type_error
      companyName companyId in
  let call :=
    AnalyzeCompany.dispatch (default "" GITHUB_TOKEN) repo
      (JS.JString companyName) in
  AnalyzeCompanyButton.isLoading run.2 = false
  ∧ (companyName = "" →
       run.1 = []
       ∧ run.2 = AnalyzeCompanyButton.failed "회사 이름이 필요합니다.")
  ∧ (companyName ≠ "" → JS.truthy GITHUB_TOKEN = false →
       run.1 = []
       ∧ run.2 = AnalyzeCompanyButton.failed "GitHub 토큰이 설정되지 않았습니다.")
  ∧ (companyName ≠ "" → JS.truthy GITHUB_TOKEN = true →
       run.1 = [call]
       ∧ (∀ r, github call = Some r →
            AnalyzeCompany.ok (AnalyzeCompany.status r) = true →
            run.2 = {| AnalyzeCompanyButton.isLoading := false;
                       AnalyzeCompanyButton.message :=
                         Some (JS.JString
                                 (String.append companyName
                                    " 기업 분석이 요청되었습니다. 잠시 후 결과를 확인해주세요."));
                       AnalyzeCompanyButton.error := None;
                       AnalyzeCompanyButton.scheduled :=
                         Some (AnalyzeCompanyButton.target companyId) |})
       ∧ (∀ r, github call = Some r →
            AnalyzeCompany.ok (AnalyzeCompany.status r) = false →
            run.2 = AnalyzeCompanyButton.failed "분석 요청에 실패했습니다."
            ∨ run.2 = AnalyzeCompanyButton.failed "서버 오류가 발생했습니다.")
       ∧ (github call = None →
            run.2 = AnalyzeCompanyButton.failed "서버 오류가 발생했습니다.")).
Proof.
  intros run call. subst run. unfold AnalyzeCompanyButton.click.
  set (request := AnalyzeCompanyButton.request companyName).
  assert (Hb : Http.json request
               = Some (JS.JObject [("companyName", JS.JString companyName)])).
  { reflexivity. }
  rewrite (analyze_POST_body GITHUB_TOKEN repo github toString request _ Hb)
    by discriminate.
  simpl. fold call.
  destruct (String.eqb_spec companyName "") as [->|Hname]; simpl.
  - split; [done|]. split; [done|]. split; [done|]. done.
  - destruct (JS.truthy GITHUB_TOKEN) eqn:Htok; simpl.
    + destruct (github call) as [r|] eqn:Hg; simpl.
      * destruct (AnalyzeCompany.ok (AnalyzeCompany.status r)) eqn:Hok; simpl.
        -- split; [done|]. split; [done|]. split; [done|].
           intros _ _. split; [done|]. split; [|split]; [|congruence|done].
           intros r' [= <-] _. reflexivity.
        -- destruct (AnalyzeCompany.constructible (AnalyzeCompany.status r)) eqn:Hc;
             simpl; rewrite ?Hok; simpl.
           ++ split; [done|]. split; [done|]. split; [done|].
              intros _ _. split; [done|]. split; [|split]; [congruence| |done].
              intros r' [= <-] _. by left.
           ++ split; [done|]. split; [done|]. split; [done|].
              intros _ _. split; [done|]. split; [|split]; [congruence| |done].
              intros r' [= <-] _. by right.
      * split; [done|]. split; [done|]. split; [done|].
        intros _ _. split; [done|]. split; [|split]; done.
    + split; [done|]. split; [done|]. split; [done|]. done.
Qed.

(** A click for Acme, company 7, accepted by GitHub with 204. *)
Lemma click_shows_route_answer_witness :
  AnalyzeCompanyButton.scheduled
    (AnalyzeCompanyButton.click (Some "ghp_token") "owner/repo"
       (λ _, Some {| AnalyzeCompany.status := 204; AnalyzeCompany.text := "" |})
       (λ _, "") "TypeError" "Acme" (Some 7)).2
  = Some (AnalyzeCompanyButton.CompanyPage 7).
Proof.
  destruct (click_shows_route_answer (Some "ghp_token") "owner/repo"
              (λ _, Some {| AnalyzeCompany.status := 204; AnalyzeCompany.text := "" |})
              (λ _, "") "TypeError" "Acme" (Some 7)) as (_ & _ & _ & H).
  destruct H as (_ & H & _); [discriminate|reflexivity|].
  rewrite (H _ eq_refl eq_refl). reflexivity.
Defined.

(** ** Jobs list page *)

Section WindowFacts.
Context {A : Type}.

Lemma run_in_range (db : Supabase.Database) (q : Supabase.Query A) offset n :
  Supabase.window q = Some (offset, n) → 0 ≤ offset → 0 ≤ n →
  (Supabase.exact_count q = true →
   offset ≤ Z.of_nat (length (Supabase.matching db q))) →
  Supabase.run db q =
    {| Supabase.data :=
         Some (take (Z.to_nat n)
                 (drop (Z.to_nat offset) (Supabase.sorted q (Supabase.matching db q))));
       Supabase.count :=
         if Supabase.exact_count q
         then Some (Z.of_nat (length (Supabase.matching db q))) else None;
       Supabase.error := None |}.
Proof.
  intros Hw Ho Hn Hc. unfold Supabase.run. rewrite Hw.
  destruct (Z.ltb_spec offset 0); [lia|].
  destruct (Z.ltb_spec n 0); [lia|]. simpl.
  destruct (Supabase.exact_count q); simpl; [|done].
  destruct (Z.ltb_spec (Z.of_nat (length (Supabase.matching db q))) offset); [|done].
  specialize (Hc eq_refl). lia.
Qed.

Lemma run_out_of_range (db : Supabase.Database) (q : Supabase.Query A) offset n :
  Supabase.window q = Some (offset, n) →
  offset < 0 ∨ n < 0
  ∨ (Supabase.exact_count q = true
     ∧ Z.of_nat (length (Supabase.matching db q)) < offset) →
  Supabase.run db q =
    {| Supabase.data := None; Supabase.count := None;
       Supabase.error := Some Supabase.range_not_satisfiable |}.
Proof.
  intros Hw Hr. unfold Supabase.run. rewrite Hw.
  destruct (Z.ltb_spec offset 0); [done|].
  destruct (Z.ltb_spec n 0); [done|]. simpl.
  destruct Hr as [?|[?|[-> Hlt]]]; [lia..|]. simpl.
  by destruct (Z.ltb_spec (Z.of_nat (length (Supabase.matching db q))) offset); [|lia].
Qed.

(** Cutting a list into pieces of [k] and joining the first [n] pieces
    gives the list back when they reach its end. *)
Lemma concat_pieces (k : nat) (n : nat) : ∀ l : list A,
  (0 < k)%nat → (length l ≤ n * k)%nat →
  concat ((λ i, take k (drop (i * k) l)) <$> seq 0 n) = l.
Proof.
  induction n as [|n IH]; intros l Hk Hl.
  - simpl in *. destruct l; [done|simpl in Hl; lia].
  - change (seq 0 (S n)) with (0%nat :: seq 1 n).
    rewrite <- fmap_S_seq, fmap_cons, <- list_fmap_compose.
    change (concat (?x :: ?xs)) with (x ++ concat xs).
    rewrite Nat.mul_0_l, drop_0.
    transitivity (take k l ++ drop k l); [|apply take_drop]. f_equal.
    assert (Hl' : (length (drop k l) ≤ n * k)%nat).
    { rewrite length_drop. lia. }
    etransitivity; [|exact (IH (drop k l) Hk Hl')].
    f_equal. apply list_fmap_ext. intros _ i _. simpl.
    by rewrite drop_drop.
Qed.
End WindowFacts.

Lemma ceil_div_bounds (a b : Z) :
  0 < b → 0 ≤ a →
  a ≤ b * JS.ceil_div a b ∧ (0 < a → b * (JS.ceil_div a b - 1) < a)
  ∧ 0 ≤ JS.ceil_div a b.
Proof.
  intros Hb Ha. unfold JS.ceil_div.
  pose proof (Z.div_mod (- a) b ltac:(lia)) as Hdm.
  pose proof (Z.mod_pos_bound (- a) b Hb) as Hm.
  nia.
Qed.

Section JobsListFacts.
Variable Number : option string → option Z.
Variable ilike : string → string → bool.
Variable today : Z.

Abbreviation jobs_query := (JobsPage.query Number ilike today).
Abbreviation page_of params := (JS.or_number (Number (JobsPage.page params)) 1).

Lemma jobs_query_window params :
  Supabase.window (jobs_query params) = Some ((page_of params - 1) * 20, 20)
  ∧ Supabase.ordering (jobs_query params)
    = Some (Supabase.descending JobPosting.crawled_at)
  ∧ Supabase.exact_count (jobs_query params) = true
  ∧ Supabase.table (jobs_query params) = Supabase.job_postings_table.
Proof.
  unfold JobsPage.query, JobsPage.status_filter, JobsPage.jobsPerPage.
  assert (Hw : ∀ x, x + 20 - 1 - x + 1 = 20) by (intros; lia).
  repeat match goal with
         | |- context [if ?b then _ else _] => destruct b
         end; simpl; rewrite Hw; done.
Qed.

Lemma jobs_query_filters params job :
  forallb (λ f, f job) (Supabase.filters (jobs_query params))
  = JobsList.selected ilike today params job.
Proof.
  unfold JobsPage.query, JobsPage.status_filter, JobsList.selected,
    JobsList.status_selected.
  set (status := JS.or_string (JobsPage.status params) "active").
  destruct (JS.truthy (JobsPage.keyword params));
    destruct (JS.truthy (JobsPage.site params));
    destruct (String.eqb status "active");
    [| destruct (String.eqb status "closed");
       [| destruct (String.eqb status "today")] |
     | destruct (String.eqb status "closed");
       [| destruct (String.eqb status "today")] |
     | destruct (String.eqb status "closed");
       [| destruct (String.eqb status "today")] |
     | destruct (String.eqb status "closed");
       [| destruct (String.eqb status "today")]];
    simpl;
    unfold Supabase.eq_bool, Supabase.eq_string, Supabase.gte;
    try destruct (ilike _ (JobPosting.title job));
    try destruct (String.eqb (JobPosting.source_site job) _);
    try destruct (today <=? JobPosting.crawled_at job);
    try destruct (JobPosting.is_active job); reflexivity.
Qed.

Lemma jobs_matching db params :
  Supabase.matching db (jobs_query params)
  = List.filter (JobsList.selected ilike today params) (Supabase.job_postings db).
Proof.
  unfold Supabase.matching.
  destruct (jobs_query_window params) as (_ & _ & _ & ->). simpl.
  apply filter_ext. intros job. apply jobs_query_filters.
Qed.

Lemma jobs_sorted params rows :
  Supabase.sorted (jobs_query params) rows = JobsList.newest_first rows.
Proof.
  unfold Supabase.sorted.
  by destruct (jobs_query_window params) as (_ & -> & _).
Qed.

(** What [getJobs] returns on the server above: the window of the page,
    and the number of selected postings, when the window starts within
    them; nothing and 0 otherwise. *)
Lemma getJobs_server db params :
  let all :=
    List.filter (JobsList.selected ilike today params) (Supabase.job_postings db) in
  let offset := (page_of params - 1) * 20 in
  JobsPage.getJobs Number ilike today (Supabase.server db) params =
    if (0 <=? offset) && (offset <=? Z.of_nat (length all))
    then {| JobsPage.jobs :=
              take 20 (drop (Z.to_nat offset) (JobsList.newest_first all));
            JobsPage.count := Z.of_nat (length all) |}
    else {| JobsPage.jobs := []; JobsPage.count := 0 |}.
Proof.
  intros all offset. unfold JobsPage.getJobs, Supabase.server.
  destruct (jobs_query_window params) as (Hw & Ho & Hc & Ht).
  destruct (Z.leb_spec 0 offset) as [H0|H0]; simpl.
  - destruct (Z.leb_spec offset (Z.of_nat (length all))) as [H1|H1].
    + rewrite (run_in_range db _ _ _ Hw) by
        (try lia; try done; intros _; rewrite jobs_matching; exact H1).
      simpl. rewrite Hc, jobs_matching, jobs_sorted. simpl.
      fold all. unfold JS.or_number.
      destruct (Z.of_nat (length all)) eqn:Hlen; try done; lia.
    + rewrite (run_out_of_range db _ _ _ Hw); [done|].
      right. right. split; [done|]. rewrite jobs_matching. exact H1.
  - rewrite (run_out_of_range db _ _ _ Hw); [done|]. by left.
Qed.
End JobsListFacts.

(** X8. On a server that answers, the jobs list shows only postings that
    pass the status tab (active when no status is given; any posting for
    a status other than active, closed and today), the site filter and
    the keyword filter; it shows at most 20 of them, newest first. On the
    first page (also for a page parameter that is missing, 0 or not a
    number) these are the 20 newest such postings, and the count is the
    number of all of them. *)
Theorem getJobs_lists_selected_postings
    (Number : option string → option Z) (ilike : string → string → bool)
    (today : Z) (db : Supabase.Database) (params : JobsPage.Params) :
  let r := JobsPage.getJobs Number ilike today (Supabase.server db) params in
  let all :=
    List.filter (JobsList.selected ilike today params) (Supabase.job_postings db) in
  (∀ job, job ∈ JobsPage.jobs r →
     job ∈ Supabase.job_postings db
     ∧ JobsList.selected ilike today params job = true)
  ∧ StronglySorted
      (λ a b, JobPosting.crawled_at b ≤ JobPosting.crawled_at a) (JobsPage.jobs r)
  ∧ (length (JobsPage.jobs r) ≤ 20)%nat
  ∧ (JS.or_number (Number (JobsPage.page params)) 1 = 1 →
       JobsPage.jobs r = take 20 (JobsList.newest_first all)
       ∧ JobsPage.count r = Z.of_nat (length all))
  ∧ (JobsPage.status params = None →
       ∀ job, job ∈ JobsPage.jobs r → JobPosting.is_active job = true).
Proof.
  intros r all. subst r. rewrite getJobs_server. fold all.
  set (offset := (JS.or_number (Number (JobsPage.page params)) 1 - 1) * 20).
  assert (Hsorted : StronglySorted
    (λ a b, JobPosting.crawled_at b ≤ JobPosting.crawled_at a)
    (JobsList.newest_first all)).
  { rewrite <- (jobs_sorted Number ilike today params).
    apply sorted_descending.
    by destruct (jobs_query_window Number ilike today params) as (_ & -> & _). }
  assert (Hin : ∀ job,
    job ∈ take 20 (drop (Z.to_nat offset) (JobsList.newest_first all)) →
    job ∈ Supabase.job_postings db
    ∧ JobsList.selected ilike today params job = true).
  { intros job Hj.
    apply subseteq_take, subseteq_drop in Hj.
    unfold JobsList.newest_first in Hj. rewrite merge_sort_Permutation in Hj.
    by apply list_elem_of_In, filter_In in Hj as [?%list_elem_of_In ?]. }
  destruct ((0 <=? offset) && (offset <=? Z.of_nat (length all))) eqn:Hrange; simpl.
  - split; [exact Hin|]. split.
    { rewrite <- (take_drop (Z.to_nat offset) (JobsList.newest_first all)) in Hsorted.
      apply StronglySorted_app_1_r in Hsorted.
      rewrite <- (take_drop 20 (drop _ _)) in Hsorted.
      by apply StronglySorted_app_1_l in Hsorted. }
    split; [rewrite length_take; lia|]. split.
    + intros Hp. subst offset. rewrite Hp. simpl. by rewrite drop_0.
    + intros Hst job Hj. apply Hin in Hj as [_ Hsel].
      unfold JobsList.selected in Hsel. rewrite Hst in Hsel. simpl in Hsel.
      by apply andb_true_iff in Hsel as [[? _]%andb_true_iff _].
  - split; [by intros job ?%elem_of_nil|]. split; [constructor|].
    split; [simpl; lia|]. split.
    + intros Hp. subst offset. rewrite Hp in Hrange. simpl in Hrange.
      apply Z.leb_gt in Hrange. lia.
    + by intros _ job ?%elem_of_nil.
Qed.

Section AnswersFacts.
Context {A : Type} (col : A → Z).

#[local] Instance descending_is_total :
  Total (Supabase.holds (Supabase.descending col)).
Proof.
  intros a b. unfold Supabase.holds, Supabase.descending.
  destruct (Z.le_ge_cases (col a) (col b)); [right|left]; by apply Z.leb_le.
Qed.

#[local] Instance descending_is_transitive :
  Transitive (Supabase.holds (Supabase.descending col)).
Proof.
  intros a b c. unfold Supabase.holds, Supabase.descending.
  rewrite !Z.leb_le. lia.
Qed.

Lemma sorted_length (q : Supabase.Query A) (rows : list A) :
  length (Supabase.sorted q rows) = length rows.
Proof.
  unfold Supabase.sorted. destruct (Supabase.ordering q); [|done].
  by rewrite merge_sort_Permutation.
Qed.

Lemma run_respond (db : Supabase.Database) (q : Supabase.Query A) :
  Supabase.run db q
  = Postgrest.respond q (Supabase.sorted q (Supabase.matching db q)).
Proof.
  unfold Supabase.run, Postgrest.respond. by rewrite sorted_length.
Qed.

(** The server of the model is one of the servers. *)
Lemma server_answers (db : Supabase.Database) (q : Supabase.Query A) :
  Supabase.ordering q = Some (Supabase.descending col)
  ∨ Supabase.ordering q = None →
  Postgrest.answers db q (Supabase.server db A q).
Proof.
  intros Ho. exists (Supabase.sorted q (Supabase.matching db q)).
  split; [|apply run_respond]. split.
  - unfold Supabase.sorted. destruct (Supabase.ordering q); [|done].
    by rewrite merge_sort_Permutation.
  - destruct Ho as [Ho|Ho]; rewrite Ho; [|done].
    unfold Supabase.sorted. rewrite Ho. apply (StronglySorted_merge_sort _).
Qed.

Lemma NoDup_fmap_inj (l : list A) (x y : A) :
  NoDup (col <$> l) → x ∈ l → y ∈ l → col x = col y → x = y.
Proof.
  induction l as [|a l IH]; [by intros _ ?%elem_of_nil|].
  rewrite fmap_cons, NoDup_cons.
  intros [Ha Hl] [->|Hx]%elem_of_cons [->|Hy]%elem_of_cons Heq; [done|..].
  - exfalso. apply Ha. rewrite Heq. by apply list_elem_of_fmap_2.
  - exfalso. apply Ha. rewrite <- Heq. by apply list_elem_of_fmap_2.
  - by apply IH.
Qed.

(** When no two matching rows tie, the order of delivery is settled. *)
Lemma delivers_unique (db : Supabase.Database) (q : Supabase.Query A)
    (rows : list A) :
  Supabase.ordering q = Some (Supabase.descending col) →
  NoDup (col <$> Supabase.matching db q) →
  Postgrest.delivers db q rows →
  rows = Supabase.sorted q (Supabase.matching db q).
Proof.
  intros Ho Hnd [Hperm Hsorted]. rewrite Ho in Hsorted.
  apply (StronglySorted_unique_strong
           (Supabase.holds (Supabase.descending col))); [|done|..].
  - intros x y Hx Hy Hxy Hyx. apply (NoDup_fmap_inj _ _ _ Hnd).
    + by rewrite <- Hperm.
    + exact (proj1 (sorted_elem_of q _ y) Hy).
    + unfold Supabase.holds, Supabase.descending in Hxy, Hyx.
      apply Z.leb_le in Hxy, Hyx. lia.
  - unfold Supabase.sorted. rewrite Ho. apply (StronglySorted_merge_sort _).
  - unfold Supabase.sorted. rewrite Ho. by rewrite merge_sort_Permutation.
Qed.

Lemma answers_unique (db : Supabase.Database) (q : Supabase.Query A)
    (r : Supabase.Response A) :
  Supabase.ordering q = Some (Supabase.descending col) →
  NoDup (col <$> Supabase.matching db q) →
  Postgrest.answers db q r → r = Supabase.server db A q.
Proof.
  intros Ho Hnd (rows & Hrows & ->).
  rewrite (delivers_unique db q rows Ho Hnd Hrows).
  symmetry. apply run_respond.
Qed.

(** The count of a query without window does not depend on the order. *)
Lemma answers_count (db : Supabase.Database) (q : Supabase.Query A)
    (r : Supabase.Response A) :
  Supabase.window q = None → Supabase.exact_count q = true →
  Postgrest.answers db q r →
  Supabase.count r = Some (Z.of_nat (length (Supabase.matching db q))).
Proof.
  intros Hw Hc (rows & [Hperm _] & ->). unfold Postgrest.respond.
  rewrite Hw, Hc. simpl. do 2 f_equal. by apply Permutation_length.
Qed.
End AnswersFacts.

Section JobsPagingFacts.
Variable Number : option string → option Z.
Variable ilike : string → string → bool.
Variable today : Z.
Variable db : Supabase.Database.
Variable params : JobsPage.Params.
(** The page parameter written into the link to page [p]. *)
Variable label : Z → string.

Abbreviation all_selected :=
  (List.filter (JobsList.selected ilike today params) (Supabase.job_postings db)).


(** With distinct crawl times, every server gives [getJobs] the answer of
    the server of the model. *)
Lemma getJobs_any_server (supabase : Supabase.Client) (asked : JobsPage.Params) :
  NoDup (JobPosting.crawled_at
           <$> List.filter (JobsList.selected ilike today asked)
                 (Supabase.job_postings db)) →
  Postgrest.answers db (JobsPage.query Number ilike today asked)
    (supabase _ (JobsPage.query Number ilike today asked)) →
  JobsPage.getJobs Number ilike today supabase asked
  = JobsPage.getJobs Number ilike today (Supabase.server db) asked.
Proof.
  intros Hnd Hans. unfold JobsPage.getJobs.
  set (q := JobsPage.query Number ilike today asked) in *.
  assert (Ho : Supabase.ordering q
               = Some (Supabase.descending JobPosting.crawled_at))
    by apply jobs_query_window.
  assert (Hm : NoDup (JobPosting.crawled_at <$> Supabase.matching db q)).
  { subst q. by rewrite jobs_matching. }
  by rewrite (answers_unique JobPosting.crawled_at db q _ Ho Hm Hans).
Qed.
End JobsPagingFacts.



(** ** Reports list page: paging *)

Section ReportsPagingFacts.
Variable Number : option string → option Z.
Variable db : Supabase.Database.

Abbreviation newest_reports :=
  (merge_sort (Supabase.holds (Supabase.descending CompanyReport.generated_at))
     (Supabase.company_reports db)).

Lemma getReports_server params :
  let total := Z.of_nat (length (Supabase.company_reports db)) in
  let offset := (JS.or_number (Number (ReportsPage.page params)) 1 - 1) * 20 in
  ReportsPage.getReports Number (Supabase.server db) params =
    if (0 <=? offset) && (offset <=? total)
    then {| ReportsPage.reports := take 20 (drop (Z.to_nat offset) newest_reports);
            ReportsPage.count := total |}
    else {| ReportsPage.reports := []; ReportsPage.count := 0 |}.
Proof.
  intros total offset. unfold ReportsPage.getReports, Supabase.server.
  set (q := ReportsPage.query Number params).
  assert (Hw : Supabase.window q = Some (offset, 20)).
  { subst q offset. unfold ReportsPage.query. simpl. do 2 f_equal. lia. }
  assert (Hm : Supabase.matching db q = Supabase.company_reports db).
  { unfold Supabase.matching. simpl. induction (Supabase.company_reports db);
      simpl; congruence. }
  destruct (Z.leb_spec 0 offset) as [H0|H0]; simpl.
  - destruct (Z.leb_spec offset total) as [H1|H1].
    + rewrite (run_in_range db q _ _ Hw) by
        (try lia; try done; intros _; rewrite Hm; exact H1).
      simpl. rewrite Hm. fold total. unfold JS.or_number.
      destruct total eqn:Hlen; try done; lia.
    + rewrite (run_out_of_range db q _ _ Hw); [done|].
      right. right. split; [done|]. rewrite Hm. exact H1.
  - rewrite (run_out_of_range db q _ _ Hw); [done|]. by left.
Qed.
End ReportsPagingFacts.

Section ReportsAnswersFacts.
Variable Number : option string → option Z.

(** What [getReports] makes of an answer, whatever the order of its
    rows. *)
Lemma getReports_answered (supabase : Supabase.Client)
    (params : ReportsPage.Params) (rows : list CompanyReport.Row) :
  supabase _ (ReportsPage.query Number params)
    = Postgrest.respond (ReportsPage.query Number params) rows →
  let total := Z.of_nat (length rows) in
  let offset := (JS.or_number (Number (ReportsPage.page params)) 1 - 1) * 20 in
  ReportsPage.getReports Number supabase params =
    if (0 <=? offset) && (offset <=? total)
    then {| ReportsPage.reports := take 20 (drop (Z.to_nat offset) rows);
            ReportsPage.count := total |}
    else {| ReportsPage.reports := []; ReportsPage.count := 0 |}.
Proof.
  intros Hr total offset. unfold ReportsPage.getReports. rewrite Hr.
  unfold Postgrest.respond, ReportsPage.query. simpl. fold offset total.
  replace (offset + 20 - 1 - offset + 1) with 20 by lia.
  destruct (Z.ltb_spec offset 0), (Z.leb_spec 0 offset); try lia; simpl; [done|].
  destruct (Z.ltb_spec total offset), (Z.leb_spec offset total);
    try lia; simpl; [done|].
  unfold JS.or_number. destruct total eqn:Hlen; try done; lia.
Qed.

Lemma reports_matching (db : Supabase.Database) (params : ReportsPage.Params) :
  Supabase.matching db (ReportsPage.query Number params)
  = Supabase.company_reports db.
Proof.
  unfold Supabase.matching. simpl.
  induction (Supabase.company_reports db); simpl; congruence.
Qed.
End ReportsAnswersFacts.

(** X10. The reports list pages through the whole table. On every server
    that answers each page with the reports in an order that respects
    [generated_at], however it orders ties: each of the pages 1 to the
    last reports the size of the table as count, and a page that starts
    beyond the table shows no report and the count 0. When no two reports
    have the same [generated_at], the pages 1 to the last, joined, are
    all reports, newest first, each as often as the table holds it
    (reports that failed the quality gate included). *)
Theorem reports_pages_cover_table
    (Number : option string → option Z) (db : Supabase.Database)
    (supabase : Supabase.Client) (label : Z → string) :
  let all := Supabase.company_reports db in
  let n := JS.ceil_div (Z.of_nat (length all)) 20 in
  let asked p := {| ReportsPage.page := Some (label p) |} in
  let at_page p := ReportsPage.getReports Number supabase (asked p) in
  (∀ p, 1 ≤ p ≤ n → Number (Some (label p)) = Some p) →
  (∀ p, Postgrest.answers db (ReportsPage.query Number (asked p))
          (supabase _ (ReportsPage.query Number (asked p)))) →
  (NoDup (CompanyReport.generated_at <$> all) →
   concat ((λ p, ReportsPage.reports (at_page p)) <$> JobsList.page_numbers n)
   = merge_sort (Supabase.holds (Supabase.descending CompanyReport.generated_at)) all)
  ∧ (∀ p, 1 ≤ p ≤ n → ReportsPage.count (at_page p) = Z.of_nat (length all))
  ∧ (∀ p, Number (Some (label p)) = Some p →
       Z.of_nat (length all) < (p - 1) * 20 →
       at_page p = {| ReportsPage.reports := []; ReportsPage.count := 0 |}).
Proof.
  intros all n asked at_page HN Hans.
  assert (Hor : ∀ p, 1 ≤ p → JS.or_number (Some p) 1 = p).
  { intros p Hp. unfold JS.or_number. destruct p; try done; lia. }
  destruct (ceil_div_bounds (Z.of_nat (length all)) 20) as (Hlo & Hup & Hn0);
    [lia..|].
  fold n in Hlo, Hup, Hn0.
  assert (Hany : ∀ p, Number (Some (label p)) = Some p → 1 ≤ p →
    ∃ rows, Postgrest.delivers db (ReportsPage.query Number (asked p)) rows
      ∧ length rows = length all
      ∧ at_page p =
          if (0 <=? (p - 1) * 20) && ((p - 1) * 20 <=? Z.of_nat (length all))
          then {| ReportsPage.reports := take 20 (drop (Z.to_nat ((p - 1) * 20)) rows);
                  ReportsPage.count := Z.of_nat (length all) |}
          else {| ReportsPage.reports := []; ReportsPage.count := 0 |}).
  { intros p HNp Hp. destruct (Hans p) as (rows & Hrows & Hr).
    exists rows. split; [done|].
    assert (Hlen : length rows = length all).
    { destruct Hrows as [Hperm _]. rewrite reports_matching in Hperm.
      by apply Permutation_length. }
    split; [done|]. subst at_page. simpl.
    rewrite (getReports_answered Number supabase (asked p) rows Hr). simpl.
    rewrite HNp, Hor, Hlen by done. done. }
  assert (Hin : ∀ p, 1 ≤ p ≤ n →
    (0 <=? (p - 1) * 20) && ((p - 1) * 20 <=? Z.of_nat (length all)) = true).
  { intros p Hp.
    assert (Hpos : 0 < Z.of_nat (length all)).
    { destruct (length all) eqn:Hl; [|lia].
      subst n. change (JS.ceil_div (Z.of_nat 0) 20) with 0 in Hp. lia. }
    specialize (Hup Hpos).
    destruct (Z.leb_spec 0 ((p - 1) * 20)); [|lia].
    by destruct (Z.leb_spec ((p - 1) * 20) (Z.of_nat (length all))); [|lia]. }
  split; [|split].
  - intros Hnd. unfold JobsList.page_numbers. rewrite <- list_fmap_compose.
    transitivity (concat ((λ i, take 20 (drop (i * 20)
        (merge_sort
           (Supabase.holds (Supabase.descending CompanyReport.generated_at)) all)))
      <$> seq 0 (Z.to_nat n))); [|apply concat_pieces].
    + f_equal. apply list_fmap_ext. intros i x [-> Hi]%lookup_seq. simpl.
      assert (Hp : 1 ≤ Z.of_nat i + 1 ≤ n) by lia.
      destruct (Hany _ (HN _ Hp) ltac:(lia)) as (rows & Hrows & _ & ->).
      rewrite (Hin _ Hp). simpl.
      rewrite (delivers_unique CompanyReport.generated_at db
                 (ReportsPage.query Number (asked (Z.of_nat i + 1))) rows eq_refl
                 ltac:(by rewrite reports_matching) Hrows).
      rewrite reports_matching. unfold Supabase.sorted. simpl.
      do 2 f_equal. lia.
    + lia.
    + rewrite merge_sort_Permutation. lia.
  - intros p Hp. destruct (Hany _ (HN _ Hp) ltac:(lia)) as (rows & _ & _ & ->).
    by rewrite (Hin _ Hp).
  - intros p HNp Hbeyond.
    destruct (Hany _ HNp ltac:(lia)) as (rows & _ & _ & ->).
    destruct (Z.leb_spec 0 ((p - 1) * 20)); [|lia].
    by destruct (Z.leb_spec ((p - 1) * 20) (Z.of_nat (length all))); [lia|].
Qed.

Lemma reports_pages_cover_table_witness :
  ReportsPage.reports
    (ReportsPage.getReports Fixtures.Number (Supabase.server Fixtures.db)
       {| ReportsPage.page := Some "1" |}) ++ []
  = [Samples.failing; Samples.passing].
Proof.
  refine (proj1 (reports_pages_cover_table Fixtures.Number Fixtures.db
    (Supabase.server Fixtures.db) Fixtures.label _ _) _).
  - intros p Hp. change (1 ≤ p ≤ 1) in Hp.
    assert (Hc : p = 1) by lia. by subst p.
  - intros p. apply (server_answers CompanyReport.generated_at). by left.
  - apply (bool_decide_unpack _). vm_compute. exact I.
Defined.

(** ** Jobs list page: the tab links *)

Section JsObjectFacts.
Context {K V : Type} `{EqDecision K}.

Lemma set_keys (m : JS.Map K V) k v :
  (JS.set m k v).*1 = if bool_decide (k ∈ m.*1) then m.*1 else m.*1 ++ [k].
Proof.
  induction m as [|[k' v'] m IH]; [done|].
  change (JS.set ((k', v') :: m) k v)
    with (if decide (k' = k) then (k', v) :: m else (k', v') :: JS.set m k v).
  destruct (decide (k' = k)) as [->|Hne]; rewrite !fmap_cons; simpl.
  - by rewrite bool_decide_eq_true_2 by left.
  - rewrite IH. destruct (bool_decide_reflect (k ∈ m.*1)) as [Hin|Hin].
    + by rewrite bool_decide_eq_true_2 by by right.
    + rewrite bool_decide_eq_false_2; [done|].
      intros [?|?]%elem_of_cons; congruence.
Qed.

Lemma set_NoDup (m : JS.Map K V) k v :
  NoDup m.*1 → NoDup (JS.set m k v).*1.
Proof.
  intros Hm. rewrite set_keys.
  destruct (bool_decide_reflect (k ∈ m.*1)); [done|].
  apply NoDup_app. split; [done|]. split; [|apply NoDup_singleton].
  intros x Hx ->%list_elem_of_singleton. done.
Qed.

Lemma elem_of_set (m : JS.Map K V) k v k' v' :
  NoDup m.*1 →
  (k', v') ∈ JS.set m k v ↔ (k' = k ∧ v' = v) ∨ (k' ≠ k ∧ (k', v') ∈ m).
Proof.
  induction m as [|[k0 v0] m IH]; simpl; intros Hm.
  - rewrite list_elem_of_singleton, elem_of_nil. naive_solver.
  - apply NoDup_cons in Hm as [Hk0 Hm]. specialize (IH Hm).
    destruct (decide (k0 = k)) as [->|Hne].
    + rewrite !elem_of_cons. split.
      * intros [[= -> ->]|Hin]; [by left|].
        right. split; [|by right]. intros ->.
        apply Hk0. apply list_elem_of_fmap. by exists (k, v').
      * intros [[-> ->]|[Hne [[= ? ?]|Hin]]]; [by left|done|by right].
    + rewrite !elem_of_cons, IH. split.
      * intros [[= -> ->]|[[-> ->]|[? ?]]]; [right; split; [done|by left]|by left|].
        right. split; [done|by right].
      * intros [[-> ->]|[? [[= -> ->]|?]]]; [right; by left|by left|].
        right. right. done.
Qed.
End JsObjectFacts.

Section BuildUrlFacts.
Import JobsList.

Lemma spread_spec (source : Params) : ∀ target : Params,
  NoDup target.*1 → NoDup source.*1 →
  NoDup (spread target source).*1
  ∧ ∀ k v, (k, v) ∈ spread target source ↔
           (k, v) ∈ source ∨ ((k ∉ source.*1) ∧ (k, v) ∈ target).
Proof.
  unfold spread.
  induction source as [|[k0 v0] source IH]; intros target Ht Hs; simpl.
  - split; [done|]. intros k v. split.
    + intros ?. right. split; [apply not_elem_of_nil|done].
    + by intros [?%elem_of_nil|[_ ?]].
  - simpl in Hs. apply NoDup_cons in Hs as [Hk0 Hs].
    destruct (IH (JS.set target k0 v0) (set_NoDup _ _ _ Ht) Hs) as [Hnd Hin].
    split; [done|]. intros k v.
    rewrite Hin, (elem_of_set target k0 v0 k v Ht), !elem_of_cons.
    split.
    + intros [?|[Hk [[-> ->]|[Hne ?]]]]; [left; by right|left; by left|].
      right. split; [|done]. intros [?|?]; done.
    + intros [[[= -> ->]|?]|[Hk ?]].
      * right. split; [done|by left].
      * by left.
      * right. split; [intros ?; apply Hk; by right|].
        right. split; [|done]. intros ->. apply Hk. by left.
Qed.

Lemma searchParams_spec (entries : Params) :
  NoDup entries.*1 →
  searchParams entries
  = (λ kv, (kv.1, default "" kv.2)) <$> List.filter (λ kv, JS.truthy kv.2) entries.
Proof.
  unfold searchParams.
  assert (Hgen : ∀ acc : JS.Map string string,
    NoDup entries.*1 → (∀ k, k ∈ acc.*1 → k ∉ entries.*1) →
    foldl (λ sp kv, if JS.truthy kv.2 then JS.set sp kv.1 (default "" kv.2) else sp)
      acc entries
    = acc ++ ((λ kv, (kv.1, default "" kv.2))
                <$> List.filter (λ kv, JS.truthy kv.2) entries)).
  { induction entries as [|[k0 v0] entries IH]; intros acc Hnd Hacc; simpl.
    - by rewrite app_nil_r.
    - simpl in Hnd. apply NoDup_cons in Hnd as [Hk0 Hnd].
      destruct (JS.truthy v0) eqn:Hv; simpl.
      + rewrite set_fresh.
        2:{ intros Hin. apply (Hacc _ Hin). by left. }
        rewrite IH; [by rewrite <- app_assoc|done|].
        intros k. rewrite fmap_app, elem_of_app. simpl.
        rewrite list_elem_of_singleton. intros [Hin| ->]; [|done].
        intros ?. apply (Hacc _ Hin). by right.
      + apply IH; [done|]. intros k Hin ?. apply (Hacc _ Hin). by right. }
  intros Hnd. rewrite Hgen; [done|done|]. intros k. by rewrite elem_of_nil.
Qed.
End BuildUrlFacts.

(** X11. The parameters of a link built by [buildUrl]: never [page]; a
    name at most once; and a name with a value exactly when the value is
    not empty and is the one the new parameters give to the name or, when
    they do not mention the name, the one the current parameters give. *)
Theorem buildUrl_parameters (params newParams : JobsList.Params) :
  NoDup params.*1 → NoDup newParams.*1 →
  let sp := JobsList.searchParams (JobsList.merged params newParams) in
  NoDup sp.*1
  ∧ ("page" ∉ sp.*1)
  ∧ ∀ k v, (k, v) ∈ sp ↔
      k ≠ "page" ∧ v ≠ ""
      ∧ ((k, Some v) ∈ newParams
         ∨ ((k ∉ newParams.*1) ∧ (k, Some v) ∈ params)).
Proof.
  intros Hp Hn sp.
  destruct (spread_spec newParams params Hp Hn) as [Hnd Hin].
  assert (Hm : NoDup (JobsList.merged params newParams).*1)
    by apply set_NoDup, Hnd.
  assert (Hentries : ∀ k v, (k, v) ∈ sp ↔
    v ≠ "" ∧ (k, Some v) ∈ JobsList.merged params newParams).
  { intros k v. subst sp. rewrite (searchParams_spec _ Hm), list_elem_of_fmap.
    split.
    - intros ([k' [v'|]] & [= -> ->] & [Hin' Ht]%list_elem_of_In%filter_In);
        simpl in *; [|done].
      split; [|by apply list_elem_of_In].
      intros ->. done.
    - intros [Hv Hin']. exists (k, Some v). split; [done|].
      apply list_elem_of_In, filter_In. split; [by apply list_elem_of_In|].
      simpl. by destruct (String.eqb_spec v ""). }
  assert (Hall : ∀ k v, (k, v) ∈ sp ↔
      k ≠ "page" ∧ v ≠ ""
      ∧ ((k, Some v) ∈ newParams
         ∨ ((k ∉ newParams.*1) ∧ (k, Some v) ∈ params))).
  { intros k v. rewrite Hentries. unfold JobsList.merged.
    rewrite (elem_of_set _ "page" None k (Some v) Hnd), Hin. naive_solver. }
  split; [|split; [|exact Hall]].
  - subst sp. rewrite (searchParams_spec _ Hm), <- list_fmap_compose.
    eapply sublist_NoDup; [exact Hm|].
    generalize (JobsList.merged params newParams). clear. intros m.
    induction m as [|[k0 v0] m IH]; simpl; [done|].
    destruct (JS.truthy v0); rewrite ?fmap_cons;
      [apply sublist_skip|apply sublist_cons]; exact IH.
  - intros [[k v] [Hk Hkv]]%list_elem_of_fmap. simpl in Hk. subst k.
    apply Hall in Hkv. naive_solver.
Qed.

(** The link of the tab "today" from page 3 of the closed postings found
    for a keyword keeps the keyword, changes the status and drops the
    page. *)
Lemma buildUrl_parameters_witness :
  JobsList.searchParams
    (JobsList.merged
       [("keyword", Some "rust"); ("page", Some "3"); ("status", Some "closed");
        ("site", Some "")]
       [("status", Some "today")])
  = [("keyword", "rust"); ("status", "today")]
  ∧ ("page" ∉ (JobsList.searchParams
       (JobsList.merged
          [("keyword", Some "rust"); ("page", Some "3"); ("status", Some "closed");
           ("site", Some "")]
          [("status", Some "today")])).*1).
Proof.
  split; [reflexivity|].
  apply (buildUrl_parameters
    [("keyword", Some "rust"); ("page", Some "3"); ("status", Some "closed");
     ("site", Some "")]
    [("status", Some "today")]).
  - apply (bool_decide_unpack _). vm_compute. exact I.
  - apply (bool_decide_unpack _). vm_compute. exact I.
Defined.

(** ** Verdict and score of the reports list *)

(** X12. Whatever score the column [total_score DECIMAL(3,2)] holds, the
    reports list shows it in red: the thresholds 70 and 50 lie beyond the
    column's range. *)
Theorem scoreBadge_storable_scores_red (report : CompanyReport.Row) :
  (∀ s, CompanyReport.total_score report = Some s → -999 ≤ s ≤ 999) →
  ReportsPage.scoreBadge report
  = (λ _, "text-red-600") <$> CompanyReport.total_score report.
Proof.
  intros Hrange. unfold ReportsPage.scoreBadge.
  destruct (CompanyReport.total_score report) as [s|]; [|done]. simpl.
  by rewrite scoreClass_storable by by apply Hrange.
Qed.

Lemma scoreBadge_storable_scores_red_witness :
  ReportsPage.scoreBadge Samples.passing = Some "text-red-600".
Proof.
  apply (scoreBadge_storable_scores_red Samples.passing).
  intros s [= <-]. lia.
Defined.

(** X13. The verdict label of the reports list and the verdict style of
    the detail pages leave their defaults together on one spelling only,
    CONDITIONAL in capitals: every verdict the list shows as recommended
    or not recommended is gray on the detail pages, and every verdict the
    detail pages colour green or red is labelled as in analysis by the
    list. *)
Theorem verdict_label_and_style_share_one_spelling (v : string) :
  Verdict.label_recognises (Some v) = true
  ∧ Verdict.style_recognises (Some v) = true
  ↔ v = "CONDITIONAL".
Proof.
  split.
  - intros [Hl Hs]. apply getVerdictLabel_recognised in Hl.
    rewrite !elem_of_cons, elem_of_nil in Hl.
    destruct Hl as [->|[->|[->|[->|[->|[]]]]]]; try done;
      vm_compute in Hs; discriminate.
  - intros ->. split; reflexivity.
Qed.

(** ** Company detail page *)

Section LookupFacts.
Context {A : Type}.

Lemma matching_where (db : Supabase.Database) (t : Supabase.Table A)
    (f : A → bool) (counted : bool) :
  Supabase.matching db (Supabase.where_ f (Supabase.select t counted))
  = List.filter f (Supabase.rows t db).
Proof.
  unfold Supabase.matching. simpl. apply filter_ext. intros r.
  apply andb_true_r.
Qed.

(** [.eq(...).single()] on the server: the row, when exactly one row
    passes the filter. *)
Lemma single_where (db : Supabase.Database) (t : Supabase.Table A)
    (f : A → bool) :
  (Supabase.single
     (Supabase.run db (Supabase.where_ f (Supabase.select t false)))).1
  = match List.filter f (Supabase.rows t db) with
    | [x] => Some x
    | _ => None
    end
  ∧ ((Supabase.single
        (Supabase.run db (Supabase.where_ f (Supabase.select t false)))).2 = None
     ↔ ∃ x, List.filter f (Supabase.rows t db) = [x]).
Proof.
  unfold Supabase.single, Supabase.run, Supabase.sorted. simpl.
  rewrite matching_where.
  destruct (List.filter f (Supabase.rows t db)) as [|x [|y l]]; simpl.
  - split; [done|]. split; [done|]. by intros [x [=]].
  - split; [done|]. split; [by exists x|done].
  - split; [done|]. split; [done|]. by intros [z [=]].
Qed.
End LookupFacts.

Lemma getCompany_server (db : Supabase.Database) (id : Z) :
  CompanyDetailPage.getCompany (Supabase.server db) id
  = match List.filter (λ c, Company.id c =? id) (Supabase.companies db) with
    | [company] => Some company
    | _ => None
    end.
Proof.
  unfold CompanyDetailPage.getCompany, Supabase.server.
  destruct (single_where db Supabase.companies_table
              (Supabase.eq_Z Company.id id)) as [H1 H2].
  destruct (Supabase.single _) as [data error]. simpl in *.
  destruct error as [e|].
  - destruct (List.filter _ _) as [|x [|y l]] eqn:Hf; try done.
    exfalso. assert (Some e = None) by (apply H2; by exists x). done.
  - exact H1.
Qed.

(** X14. The company page needs the company row only. When the id is a
    number and exactly one company has it, the page shows that company,
    also on a server on which the reports or the postings cannot be read:
    the section of a failed query is shown empty, the other as the
    working server gives it. *)
Theorem CompanyDetailPage_survives_failed_lists
    (parseInt : string → option Z) (db : Supabase.Database)
    (missing : list string) (id : string) (companyId : Z)
    (company : Company.Row) :
  parseInt id = Some companyId →
  List.filter (λ c, Company.id c =? companyId) (Supabase.companies db) = [company] →
  "companies" ∉ missing →
  CompanyDetailPage.CompanyDetailPage parseInt
    (Supabase.server_without missing db) id
  = CompanyDetailPage.Detail company
      (UI.listing
         (if bool_decide ("company_reports" ∈ missing) then []
          else CompanyDetailPage.getCompanyReports (Supabase.server db) companyId))
      (UI.listing
         (if bool_decide ("job_postings" ∈ missing) then []
          else CompanyDetailPage.getCompanyJobs (Supabase.server db) companyId)).
Proof.
  intros Hid Hone Hc. unfold CompanyDetailPage.CompanyDetailPage. rewrite Hid.
  assert (Hco : CompanyDetailPage.getCompany (Supabase.server_without missing db)
                  companyId = Some company).
  { pose proof (getCompany_server db companyId) as Hs. rewrite Hone in Hs.
    rewrite <- Hs. unfold CompanyDetailPage.getCompany, Supabase.server_without,
      Supabase.server. simpl.
    by rewrite bool_decide_eq_false_2. }
  rewrite Hco. f_equal.
  - unfold CompanyDetailPage.getCompanyReports, Supabase.server_without,
      Supabase.server. simpl.
    by destruct (bool_decide ("company_reports" ∈ missing)).
  - unfold CompanyDetailPage.getCompanyJobs, Supabase.server_without,
      Supabase.server. simpl.
    by destruct (bool_decide ("job_postings" ∈ missing)).
Qed.

Lemma CompanyDetailPage_survives_failed_lists_witness :
  CompanyDetailPage.CompanyDetailPage (λ _, Some 1)
    (Supabase.server_without ["company_reports"; "job_postings"] Samples.db) "1"
  = CompanyDetailPage.Detail Samples.acme UI.EmptyState UI.EmptyState.
Proof.
  refine (CompanyDetailPage_survives_failed_lists (λ _, Some 1) Samples.db
    ["company_reports"; "job_postings"] "1" 1 Samples.acme eq_refl eq_refl _).
  intros Hin. apply (bool_decide_pack _) in Hin. vm_compute in Hin. exact Hin.
Defined.

(** X15. The company page is not found exactly when the id is no number
    or the companies table does not hold exactly one row with it. *)
Theorem CompanyDetailPage_not_found
    (parseInt : string → option Z) (db : Supabase.Database) (id : string) :
  CompanyDetailPage.CompanyDetailPage parseInt (Supabase.server db) id
    = CompanyDetailPage.NotFound
  ↔ match parseInt id with
    | None => True
    | Some companyId =>
        length (List.filter (λ c, Company.id c =? companyId)
                  (Supabase.companies db)) ≠ 1%nat
    end.
Proof.
  unfold CompanyDetailPage.CompanyDetailPage.
  destruct (parseInt id) as [companyId|]; [|done].
  rewrite getCompany_server.
  destruct (List.filter _ _) as [|x [|y l]]; simpl; split; try done; lia.
Qed.

Section CompanyJobsFacts.
Import CompanyDetailPage.

Lemma matching_jobs db companyId job :
  job ∈ Supabase.matching db (jobs_query companyId) ↔
  job ∈ Supabase.job_postings db
  ∧ JobPosting.company_id job = Some companyId
  ∧ JobPosting.is_active job = true.
Proof.
  unfold Supabase.matching. rewrite list_elem_of_In, filter_In, <- list_elem_of_In.
  simpl. unfold Supabase.eq_opt_Z, Supabase.eq_bool. rewrite andb_true_r.
  rewrite andb_true_iff.
  destruct (JobPosting.is_active job); simpl;
    destruct (JobPosting.company_id job) as [c|]; try rewrite Z.eqb_eq;
    naive_solver.
Qed.
End CompanyJobsFacts.

(** X16. The postings on the company page are active postings of that
    company only, newest first, ten at most; an active posting of the
    company is left out only when ten postings at least as recent are
    shown. *)
Theorem getCompanyJobs_newest_ten_active (db : Supabase.Database) (companyId : Z) :
  let out := CompanyDetailPage.getCompanyJobs (Supabase.server db) companyId in
  (∀ job, job ∈ out →
     job ∈ Supabase.job_postings db
     ∧ JobPosting.company_id job = Some companyId
     ∧ JobPosting.is_active job = true)
  ∧ StronglySorted
      (λ a b, JobPosting.crawled_at b ≤ JobPosting.crawled_at a) out
  ∧ (length out ≤ 10)%nat
  ∧ (∀ job, job ∈ Supabase.job_postings db →
          JobPosting.company_id job = Some companyId →
          JobPosting.is_active job = true →
          job ∈ out
          ∨ (length out = 10%nat
             ∧ ∀ o, o ∈ out → JobPosting.crawled_at job ≤ JobPosting.crawled_at o)).
Proof.
  intros out. subst out.
  set (q := CompanyDetailPage.jobs_query companyId).
  set (l := Supabase.sorted q (Supabase.matching db q)).
  change (CompanyDetailPage.getCompanyJobs (Supabase.server db) companyId)
    with (take 10 l).
  assert (Hs : StronglySorted
    (λ a b, JobPosting.crawled_at b ≤ JobPosting.crawled_at a) l).
  { by apply sorted_descending. }
  split; [|split; [|split]].
  - intros job Hj. apply matching_jobs. apply (sorted_elem_of q).
    by apply subseteq_take in Hj.
  - rewrite <- (take_drop 10 l) in Hs. by apply StronglySorted_app_1_l in Hs.
  - rewrite length_take. lia.
  - intros job Hj Hc Ha.
    assert (Hin : job ∈ l).
    { apply (sorted_elem_of q). by apply matching_jobs. }
    rewrite <- (take_drop 10 l) in Hin, Hs.
    apply elem_of_app in Hin as [Hin|Hin]; [by left|right].
    split.
    + rewrite length_take. apply list_elem_of_lookup in Hin as [i Hi].
      apply lookup_lt_Some in Hi. rewrite length_drop in Hi. lia.
    + intros o Ho. by apply (StronglySorted_app_1_elem_of _ _ _ o job) in Hs.
Qed.

(** ** Report detail page *)

Lemma getReport_server (db : Supabase.Database) (reportId : Z) :
  ReportDetailPage.getReport (Supabase.server db) reportId
  = match List.filter (λ r, CompanyReport.id r =? reportId)
            (Supabase.company_reports db) with
    | [report] => Some report
    | _ => None
    end.
Proof.
  unfold ReportDetailPage.getReport, Supabase.server.
  destruct (single_where db Supabase.company_reports_table
              (Supabase.eq_Z CompanyReport.id reportId)) as [H1 H2].
  destruct (Supabase.single _) as [data error]. simpl in *.
  destruct error as [e|].
  - destruct (List.filter _ _) as [|x [|y l]] eqn:Hf; try done.
    exfalso. assert (Some e = None) by (apply H2; by exists x). done.
  - exact H1.
Qed.

(** X17. The report page finds its report by the report id alone. With
    two numbers in the address and exactly one report of that id, the
    page shows this report, whichever company the report belongs to and
    whether or not it passed the quality gate; the company id of the
    address only sets the breadcrumb link, whose text is the name of the
    company of that id if there is exactly one with a name, and the
    company name of the report otherwise. *)
Theorem ReportDetailPage_ignores_company
    (parseInt : string → option Z) (db : Supabase.Database)
    (id reportId : string) (companyId reportIdNum : Z)
    (report : CompanyReport.Row) :
  parseInt id = Some companyId →
  parseInt reportId = Some reportIdNum →
  List.filter (λ r, CompanyReport.id r =? reportIdNum)
    (Supabase.company_reports db) = [report] →
  ∃ header,
    ReportDetail.ReportDetailPage parseInt (Supabase.server db) id reportId
      = ReportDetail.Detail header
    ∧ ReportDetail.report header = report
    ∧ ReportDetail.company_href header = companyId
    ∧ ReportDetail.company_text header
      = match List.filter (λ c, Company.id c =? companyId)
                (Supabase.companies db) with
        | [company] =>
            if String.eqb (Company.name company) ""
            then CompanyReport.company_name report
            else Company.name company
        | _ => CompanyReport.company_name report
        end.
Proof.
  intros Hid Hrid Hone. unfold ReportDetail.ReportDetailPage.
  rewrite Hid, Hrid, getReport_server, Hone.
  eexists. split; [reflexivity|]. simpl. split; [done|]. split; [done|].
  change (ReportDetail.getCompany (Supabase.server db) companyId)
    with (CompanyDetailPage.getCompany (Supabase.server db) companyId).
  rewrite getCompany_server.
  by destruct (List.filter _ (Supabase.companies db)) as [|x [|y l]].
Qed.

(** Report 2 belongs to company 1 and failed the quality gate; it is
    shown under company 9, which does not exist. *)
Lemma ReportDetailPage_ignores_company_witness :
  ∃ header,
    ReportDetail.ReportDetailPage
      (λ s, if String.eqb s "9" then Some 9 else Some 2)
      (Supabase.server Samples.db) "9" "2"
      = ReportDetail.Detail header
    ∧ ReportDetail.report header = Samples.failing
    ∧ ReportDetail.company_href header = 9
    ∧ ReportDetail.company_text header = "Acme".
Proof.
  exact (ReportDetailPage_ignores_company
    (λ s, if String.eqb s "9" then Some 9 else Some 2)
    Samples.db "9" "2" 9 2 Samples.failing eq_refl eq_refl eq_refl).
Defined.

(** ** Dashboard *)

Section JobsAnswersFacts.
Variable Number : option string → option Z.
Variable ilike : string → string → bool.
Variable today : Z.

(** What [getJobs] makes of an answer, whatever the order of its rows. *)
Lemma getJobs_answered (supabase : Supabase.Client) (params : JobsPage.Params)
    (rows : list JobPosting.Row) :
  supabase _ (JobsPage.query Number ilike today params)
    = Postgrest.respond (JobsPage.query Number ilike today params) rows →
  let total := Z.of_nat (length rows) in
  let offset := (JS.or_number (Number (JobsPage.page params)) 1 - 1) * 20 in
  JobsPage.getJobs Number ilike today supabase params =
    if (0 <=? offset) && (offset <=? total)
    then {| JobsPage.jobs := take 20 (drop (Z.to_nat offset) rows);
            JobsPage.count := total |}
    else {| JobsPage.jobs := []; JobsPage.count := 0 |}.
Proof.
  intros Hr total offset. unfold JobsPage.getJobs. rewrite Hr.
  unfold Postgrest.respond.
  destruct (jobs_query_window Number ilike today params) as (Hw & _ & Hc & _).
  rewrite Hw, Hc. fold offset total.
  destruct (Z.ltb_spec offset 0), (Z.leb_spec 0 offset); try lia; simpl; [done|].
  destruct (Z.ltb_spec total offset), (Z.leb_spec offset total);
    try lia; simpl; [done|].
  unfold JS.or_number. destruct total eqn:Hlen; try done; lia.
Qed.
End JobsAnswersFacts.

Lemma dashboard_on_model_server
    (market_analysis : Supabase.Table Trends.MarketAnalysis)
    (skill_trends : Supabase.Table Trends.SkillTrend)
    (Number : option string → option Z) (ilike : string → string → bool)
    (today : Z) (db : Supabase.Database) (params : JobsPage.Params) :
  JS.truthy (JobsPage.keyword params) = false →
  JS.truthy (JobsPage.site params) = false →
  JS.or_string (JobsPage.status params) "active" = "active" →
  JS.or_number (Number (JobsPage.page params)) 1 = 1 →
  let d :=
    Dashboard.getDashboardData market_analysis skill_trends (Supabase.server db) in
  let r := JobsPage.getJobs Number ilike today (Supabase.server db) params in
  Dashboard.totalJobs d = JobsPage.count r
  ∧ Dashboard.recentJobs d = take 5 (JobsPage.jobs r).
Proof.
  intros Hk Hsite Hst Hpage d r. subst d r.
  rewrite getJobs_server, Hpage. simpl.
  assert (Hsel : List.filter (JobsList.selected ilike today params)
                   (Supabase.job_postings db)
                 = List.filter (Supabase.eq_bool JobPosting.is_active true)
                     (Supabase.job_postings db)).
  { apply filter_ext. intros job. unfold JobsList.selected.
    rewrite Hk, Hsite, Hst. unfold JobsList.status_selected, Supabase.eq_bool.
    simpl. by destruct (JobPosting.is_active job). }
  rewrite Hsel.
  unfold Dashboard.getDashboardData, Supabase.server. simpl.
  set (all := List.filter (Supabase.eq_bool JobPosting.is_active true)
                (Supabase.job_postings db)).
  assert (Hactive : Supabase.matching db Dashboard.active_jobs = all)
    by apply matching_where.
  assert (Hrecent : Supabase.matching db Dashboard.recent_jobs = all)
    by apply (matching_where db Supabase.job_postings_table _ false).
  rewrite Hactive, Hrecent.
  change ((1 - 1) * 20) with 0.
  destruct (Z.leb_spec 0 (Z.of_nat (length all))); [|lia]. simpl.
  split; [by destruct (Z.of_nat (length all))|].
  by rewrite !drop_0, take_take.
Qed.

(** X18. The dashboard and the jobs list agree, on every server that
    answers each query with the matching postings in an order that
    respects the crawl time, however it orders ties: the number of
    postings on the dashboard is the total of the jobs list on its first
    page with the tab of the active postings and no filter; and when no
    two active postings have the same crawl time, the recent postings of
    the dashboard are the first five of that page. *)
Theorem dashboard_agrees_with_jobs_list
    (market_analysis : Supabase.Table Trends.MarketAnalysis)
    (skill_trends : Supabase.Table Trends.SkillTrend)
    (Number : option string → option Z) (ilike : string → string → bool)
    (today : Z) (db : Supabase.Database) (supabase : Supabase.Client)
    (params : JobsPage.Params) :
  JS.truthy (JobsPage.keyword params) = false →
  JS.truthy (JobsPage.site params) = false →
  JS.or_string (JobsPage.status params) "active" = "active" →
  JS.or_number (Number (JobsPage.page params)) 1 = 1 →
  Postgrest.answers db Dashboard.active_jobs (supabase _ Dashboard.active_jobs) →
  Postgrest.answers db Dashboard.recent_jobs (supabase _ Dashboard.recent_jobs) →
  Postgrest.answers db (JobsPage.query Number ilike today params)
    (supabase _ (JobsPage.query Number ilike today params)) →
  let d := Dashboard.getDashboardData market_analysis skill_trends supabase in
  let r := JobsPage.getJobs Number ilike today supabase params in
  Dashboard.totalJobs d = JobsPage.count r
  ∧ (NoDup (JobPosting.crawled_at
              <$> List.filter (Supabase.eq_bool JobPosting.is_active true)
                    (Supabase.job_postings db)) →
     Dashboard.recentJobs d = take 5 (JobsPage.jobs r)).
Proof.
  intros Hk Hsite Hst Hpage Hactive Hrecent Hjobs d r. subst d r.
  set (all := List.filter (Supabase.eq_bool JobPosting.is_active true)
                (Supabase.job_postings db)).
  assert (Hsel : List.filter (JobsList.selected ilike today params)
                   (Supabase.job_postings db) = all).
  { apply filter_ext. intros job. unfold JobsList.selected.
    rewrite Hk, Hsite, Hst. unfold JobsList.status_selected, Supabase.eq_bool.
    simpl. by destruct (JobPosting.is_active job). }
  assert (Hma : Supabase.matching db Dashboard.active_jobs = all)
    by apply matching_where.
  assert (Hmr : Supabase.matching db Dashboard.recent_jobs = all)
    by apply (matching_where db Supabase.job_postings_table _ false).
  split.
  - destruct Hjobs as (rows & [Hperm _] & Hr).
    rewrite (getJobs_answered Number ilike today supabase params rows Hr).
    rewrite Hpage. change ((1 - 1) * 20) with 0.
    destruct (Z.leb_spec 0 (Z.of_nat (length rows))); [|lia]. simpl.
    unfold Dashboard.getDashboardData. simpl.
    rewrite (answers_count db Dashboard.active_jobs _ eq_refl eq_refl Hactive).
    rewrite Hma. rewrite jobs_matching, Hsel in Hperm.
    rewrite (Permutation_length Hperm).
    unfold JS.or_number. by destruct (Z.of_nat (length all)).
  - intros Hnd.
    rewrite (getJobs_any_server Number ilike today db supabase params
               ltac:(by rewrite Hsel) Hjobs).
    destruct (dashboard_on_model_server market_analysis skill_trends Number
                ilike today db params Hk Hsite Hst Hpage) as [_ <-].
    unfold Dashboard.getDashboardData. simpl.
    by rewrite (answers_unique JobPosting.crawled_at db Dashboard.recent_jobs _
                  eq_refl ltac:(by rewrite Hmr) Hrecent).
Qed.

Lemma dashboard_agrees_with_jobs_list_witness :
  let d :=
    Dashboard.getDashboardData
      {| Supabase.name := "market_analysis"; Supabase.rows := λ _, Samples.analyses |}
      {| Supabase.name := "skill_trends"; Supabase.rows := λ _, [] |}
      (Supabase.server Fixtures.db) in
  Dashboard.totalJobs d = 21
  ∧ Dashboard.recentJobs d = Fixtures.posting <$> [21; 20; 19; 18; 17].
Proof.
  pose proof (dashboard_agrees_with_jobs_list
    {| Supabase.name := "market_analysis"; Supabase.rows := λ _, Samples.analyses |}
    {| Supabase.name := "skill_trends"; Supabase.rows := λ _, [] |}
    Fixtures.Number (λ _ _, true) 0 Fixtures.db (Supabase.server Fixtures.db)
    Fixtures.no_filter eq_refl eq_refl eq_refl eq_refl
    (server_answers JobPosting.crawled_at Fixtures.db Dashboard.active_jobs
       (or_intror eq_refl))
    (server_answers JobPosting.crawled_at Fixtures.db Dashboard.recent_jobs
       (or_introl eq_refl))
    (server_answers JobPosting.crawled_at Fixtures.db _
       (or_introl (proj1 (proj2
          (jobs_query_window Fixtures.Number (λ _ _, true) 0 Fixtures.no_filter))))))
    as [H1 H2].
  split; [exact H1|]. apply H2.
  apply (bool_decide_unpack _). vm_compute. exact I.
Defined.

(** ** Trends page and the trend page of a keyword *)

Section TrendDetailFacts.
Variable market_analysis : Supabase.Table Trends.MarketAnalysis.
Variable skill_trends : Supabase.Table Trends.SkillTrend.
Variable decodeURIComponent : string → option string.
Variable db : Supabase.Database.

Abbreviation analyses := (Supabase.rows market_analysis db).
Abbreviation newest_analyses l :=
  (merge_sort (Supabase.holds (Supabase.descending Trends.analysis_date)) l).
Abbreviation of_keyword k :=
  (List.filter (Supabase.eq_string Trends.keyword k) analyses).

Lemma filter_all {A} (l : list A) : List.filter (λ _, true) l = l.
Proof. induction l; simpl; congruence. Qed.

Lemma newest_analyses_sorted l : Trends.date_desc (newest_analyses l).
Proof.
  exact (sorted_descending Trends.analysis_date
           (TrendsPage.analyses_query market_analysis) l eq_refl).
Qed.

Lemma getTrendsData_server :
  (TrendsPage.getTrendsData market_analysis skill_trends (Supabase.server db)).1
  = Trends.firsts [] (newest_analyses analyses).
Proof.
  unfold TrendsPage.getTrendsData, Trends.getTrendsData, Supabase.server. simpl.
  rewrite latestByKeyword_firsts. unfold Supabase.sorted, Supabase.matching.
  simpl. by rewrite filter_all.
Qed.

Lemma getAnalysis_server p k :
  decodeURIComponent p = Some k →
  TrendDetailPage.getAnalysis market_analysis decodeURIComponent
    (Supabase.server db) p
  = Some (head (newest_analyses (of_keyword k))).
Proof.
  intros Hp. unfold TrendDetailPage.getAnalysis. rewrite Hp.
  unfold Supabase.server, Supabase.run, Supabase.single, Supabase.sorted. simpl.
  rewrite (matching_where db market_analysis
             (Supabase.eq_string Trends.keyword k) false : Supabase.matching db
               (TrendDetailPage.query market_analysis k) = of_keyword k).
  by destruct (newest_analyses (of_keyword k)) as [|b [|c l]].
Qed.
End TrendDetailFacts.

(** X19. The trend page of a keyword agrees with the trends list. For a
    keyword the list has a card for, the page shows an analysis of that
    keyword with the date of the card; for a keyword the list has no card
    for, the page is not found. *)
Theorem trend_detail_agrees_with_list
    (market_analysis : Supabase.Table Trends.MarketAnalysis)
    (skill_trends : Supabase.Table Trends.SkillTrend)
    (decodeURIComponent : string → option string)
    (db : Supabase.Database) (p k : string) :
  decodeURIComponent p = Some k →
  let cards :=
    (TrendsPage.getTrendsData market_analysis skill_trends (Supabase.server db)).1 in
  let page :=
    TrendDetailPage.TrendDetailPage market_analysis decodeURIComponent
      (Supabase.server db) p in
  (∀ a, a ∈ cards → Trends.keyword a = k →
     ∃ b, page = Some (TrendDetailPage.Detail b)
          ∧ b ∈ Supabase.rows market_analysis db
          ∧ Trends.keyword b = k
          ∧ Trends.analysis_date b = Trends.analysis_date a)
  ∧ ((∀ a, a ∈ cards → Trends.keyword a ≠ k) →
     page = Some TrendDetailPage.NotFound).
Proof.
  intros Hp cards page. subst cards page.
  unfold TrendDetailPage.TrendDetailPage.
  rewrite getTrendsData_server, (getAnalysis_server _ _ _ _ _ Hp).
  set (rows := Supabase.rows market_analysis db).
  set (all := merge_sort _ rows).
  set (mine := List.filter (Supabase.eq_string Trends.keyword k) rows).
  assert (Hmine : ∀ x, x ∈ mine ↔ x ∈ rows ∧ Trends.keyword x = k).
  { intros x. subst mine.
    rewrite list_elem_of_In, filter_In, <- list_elem_of_In.
    unfold Supabase.eq_string. by rewrite String.eqb_eq. }
  assert (Hall : ∀ x, x ∈ all ↔ x ∈ rows).
  { intros x. subst all. by rewrite merge_sort_Permutation. }
  pose proof (newest_analyses_sorted market_analysis rows) as Hsorted.
  pose proof (newest_analyses_sorted market_analysis mine) as Hsorted'.
  fold all in Hsorted.
  assert (Hsame : ∀ x,
    x ∈ merge_sort (Supabase.holds (Supabase.descending Trends.analysis_date)) mine
    ↔ x ∈ mine).
  { intros x. by rewrite merge_sort_Permutation. }
  destruct (merge_sort _ mine) as [|b rest] eqn:Hsort; simpl.
  - split; [|done]. intros a Ha Hk. exfalso.
    apply (elem_of_nil a), Hsame, Hmine. split; [|done].
    apply Hall. by eapply elem_of_sublist, firsts_sublist.
  - assert (Hb : b ∈ rows ∧ Trends.keyword b = k).
    { apply Hmine, Hsame. by left. }
    destruct Hb as [Hbrows Hbk]. split.
    + intros a Ha Hk. exists b. split; [done|]. split; [done|]. split; [done|].
      assert (Harows : a ∈ rows).
      { apply Hall. by eapply elem_of_sublist, firsts_sublist. }
      apply Z.le_antisymm.
      * apply (first_occurrence_latest a all Hsorted).
        -- by eapply firsts_first_occurrence.
        -- by apply Hall.
        -- congruence.
      * assert (Hin : a ∈ b :: rest) by by apply Hsame, Hmine.
        apply elem_of_cons in Hin as [->|Hin]; [done|].
        unfold Trends.date_desc in Hsorted'.
        apply StronglySorted_inv in Hsorted' as [_ Hhead].
        by eapply Forall_forall in Hhead.
    + intros Hnone. exfalso.
      destruct (firsts_covers all [] b) as (a & Ha & Hk);
        [by apply Hall|apply not_elem_of_nil|].
      apply (Hnone a Ha). congruence.
Qed.

Lemma trend_detail_agrees_with_list_witness :
  TrendDetailPage.TrendDetailPage
    {| Supabase.name := "market_analysis"; Supabase.rows := λ _, Samples.analyses |}
    (λ s, Some s) (Supabase.server Samples.db) "ml"
  = Some TrendDetailPage.NotFound.
Proof.
  refine (proj2 (trend_detail_agrees_with_list
    {| Supabase.name := "market_analysis"; Supabase.rows := λ _, Samples.analyses |}
    {| Supabase.name := "skill_trends"; Supabase.rows := λ _, [] |}
    (λ s, Some s) Samples.db "ml" "ml" eq_refl) _).
  intros a Ha. vm_compute in Ha.
  apply elem_of_cons in Ha as [->|Ha]; [done|].
  apply elem_of_cons in Ha as [->|Ha]; [done|].
  by apply elem_of_nil in Ha.
Defined.

(** ** The jobs list with and without status tabs *)

(** X20. With no status in the address, or the status active, the jobs
    list with tabs asks the client what the page before the tabs asked,
    and returns the same postings and count, whatever the client
    answers. *)
Theorem getJobs_extends_earlier_page
    (Number : option string → option Z) (ilike : string → string → bool)
    (today : Z) (supabase : Supabase.Client) (params : JobsPage.Params) :
  JS.or_string (JobsPage.status params) "active" = "active" →
  let earlier :=
    {| JobsPageEarlier.keyword := JobsPage.keyword params;
       JobsPageEarlier.site := JobsPage.site params;
       JobsPageEarlier.page := JobsPage.page params |} in
  JobsPage.query Number ilike today params
    = JobsPageEarlier.query Number ilike earlier
  ∧ JobsPage.jobs (JobsPage.getJobs Number ilike today supabase params)
    = JobsPageEarlier.jobs (JobsPageEarlier.getJobs Number ilike supabase earlier)
  ∧ JobsPage.count (JobsPage.getJobs Number ilike today supabase params)
    = JobsPageEarlier.count (JobsPageEarlier.getJobs Number ilike supabase earlier).
Proof.
  intros Hst earlier.
  assert (Hq : JobsPage.query Number ilike today params
               = JobsPageEarlier.query Number ilike earlier).
  { unfold JobsPage.query, JobsPageEarlier.query. rewrite Hst. reflexivity. }
  split; [exact Hq|].
  unfold JobsPage.getJobs, JobsPageEarlier.getJobs. rewrite Hq.
  by destruct (Supabase.error _).
Qed.

Lemma getJobs_extends_earlier_page_witness :
  JobsPage.jobs
    (JobsPage.getJobs Fixtures.Number (λ _ _, true) 0
       (Supabase.server Fixtures.db) Fixtures.no_filter)
  = JobsPageEarlier.jobs
      (JobsPageEarlier.getJobs Fixtures.Number (λ _ _, true)
         (Supabase.server Fixtures.db)
         {| JobsPageEarlier.keyword := None; JobsPageEarlier.site := None;
            JobsPageEarlier.page := None |}).
Proof.
  exact (proj1 (proj2 (getJobs_extends_earlier_page Fixtures.Number (λ _ _, true) 0
    (Supabase.server Fixtures.db) Fixtures.no_filter eq_refl))).
Defined.

(** ** Roadmap page *)

Lemma getRoadmapData_server
    (market_analysis : Supabase.Table Trends.MarketAnalysis)
    (roadmap_3months : Trends.MarketAnalysis → option JS.Json)
    (db : Supabase.Database) :
  Roadmap.getRoadmapData market_analysis roadmap_3months (Supabase.server db)
  = Trends.firsts []
      (merge_sort (Supabase.holds (Supabase.descending Trends.analysis_date))
         (List.filter (Roadmap.not_null roadmap_3months)
            (Supabase.rows market_analysis db))).
Proof.
  unfold Roadmap.getRoadmapData, Supabase.server. simpl.
  rewrite latestByKeyword_firsts. unfold Supabase.sorted. simpl.
  by rewrite (matching_where db market_analysis
                (Roadmap.not_null roadmap_3months) false
              : Supabase.matching db
                  (Roadmap.query market_analysis roadmap_3months) = _).
Qed.

(** X21. The roadmap page shows one analysis per keyword, each with a
    three-month roadmap: the most recent analysis of the keyword among
    those that have one. A keyword has a roadmap card exactly when one of
    its analyses has a roadmap; the trends list then has a card for the
    keyword too, of the same or a later date. *)
Theorem roadmap_latest_with_roadmap
    (market_analysis : Supabase.Table Trends.MarketAnalysis)
    (skill_trends : Supabase.Table Trends.SkillTrend)
    (roadmap_3months : Trends.MarketAnalysis → option JS.Json)
    (db : Supabase.Database) :
  let roadmaps :=
    Roadmap.getRoadmapData market_analysis roadmap_3months (Supabase.server db) in
  let cards :=
    (TrendsPage.getTrendsData market_analysis skill_trends (Supabase.server db)).1 in
  let rows := Supabase.rows market_analysis db in
  NoDup (Trends.keyword <$> roadmaps)
  ∧ (∀ r, r ∈ roadmaps →
       r ∈ rows ∧ is_Some (roadmap_3months r)
       ∧ (∀ b, b ∈ rows → is_Some (roadmap_3months b) →
               Trends.keyword b = Trends.keyword r →
               Trends.analysis_date b ≤ Trends.analysis_date r)
       ∧ ∃ a, a ∈ cards ∧ Trends.keyword a = Trends.keyword r
              ∧ Trends.analysis_date r ≤ Trends.analysis_date a)
  ∧ (∀ k, (∃ r, r ∈ roadmaps ∧ Trends.keyword r = k)
          ↔ ∃ b, b ∈ rows ∧ is_Some (roadmap_3months b) ∧ Trends.keyword b = k).
Proof.
  intros roadmaps cards rows. subst roadmaps cards.
  rewrite getRoadmapData_server, getTrendsData_server. fold rows.
  set (mine := List.filter (Roadmap.not_null roadmap_3months) rows).
  assert (Hmine : ∀ x, x ∈ mine ↔ x ∈ rows ∧ is_Some (roadmap_3months x)).
  { intros x. subst mine.
    rewrite list_elem_of_In, filter_In, <- list_elem_of_In.
    unfold Roadmap.not_null.
    destruct (roadmap_3months x) as [j|].
    - split; intros [? _]; split; eauto.
    - split; [by intros [_ ?]|]. by intros [_ ?%is_Some_None]. }
  assert (Hsort : ∀ l x,
    x ∈ merge_sort (Supabase.holds (Supabase.descending Trends.analysis_date)) l
    ↔ x ∈ l).
  { intros l x. by rewrite merge_sort_Permutation. }
  pose proof (newest_analyses_sorted market_analysis mine) as Hd.
  pose proof (newest_analyses_sorted market_analysis rows) as Hd'.
  split; [apply firsts_NoDup|]. split.
  - intros r Hr.
    assert (Hrm : r ∈ mine).
    { apply Hsort. by eapply elem_of_sublist, firsts_sublist. }
    apply Hmine in Hrm as Hr'. destruct Hr' as [Hrows Hhas].
    split; [done|]. split; [done|]. split.
    + intros b Hb Hbhas Hk.
      apply (first_occurrence_latest r _ Hd); [|by apply Hsort, Hmine|done].
      by eapply firsts_first_occurrence.
    + destruct (firsts_covers
        (merge_sort (Supabase.holds (Supabase.descending Trends.analysis_date)) rows)
        [] r) as (a & Ha & Hk); [by apply Hsort|apply not_elem_of_nil|].
      exists a. split; [done|]. split; [done|].
      apply (first_occurrence_latest a _ Hd'); [|by apply Hsort|done].
      by eapply firsts_first_occurrence.
  - intros k. split.
    + intros (r & Hr & Hk). exists r.
      assert (Hrm : r ∈ mine).
      { apply Hsort. by eapply elem_of_sublist, firsts_sublist. }
      apply Hmine in Hrm as [? ?]. done.
    + intros (b & Hb & Hhas & Hk).
      destruct (firsts_covers
        (merge_sort (Supabase.holds (Supabase.descending Trends.analysis_date)) mine)
        [] b) as (r & Hr & Hrk);
        [by apply Hsort, Hmine|apply not_elem_of_nil|].
      exists r. split; [done|congruence].
Qed.
